(** * Supabase storage layer (firebase-storage.js): model and properties

A shallow embedding of [src/firebase-storage.js]: the REST helper
[supabaseRequest], the synchroniser ([loadDataFromSupabase],
[saveDataToSupabase]), the two pollers ([listenToNewVisits],
[listenToAdminMessages]) and the message log ([addAdminMessage],
[deleteAdminMessage]).

JavaScript values are modelled by the type [value]; the asynchronous
functions are state-passing functions over a [world] that holds the
module's globals, the remote store, the browser's cache objects and the
console.  An exception is the [Throw] outcome of a computation.

What lies outside the file is a parameter ([Env]): the store behind
[fetch], [localStorage], the formatting of dates.  A callback handed to a
poller is any function of the page: it may change the world and it may
throw.

Limits of the model.  An awaited call runs to its end before the caller
goes on, and two firings of an interval do not overlap.  Values are
immutable: a callback does not change the array it is handed.  Numbers
are integers, a string is a text held in UTF-8 (its [length] counts the
UTF-16 code units of the text), and a response body that is JSON is an
array of rows. *)

From Stdlib Require Import List String Ascii ZArith Bool Lia Arith.
From Stdlib Require Import DecimalString.
Import ListNotations.
Local Open Scope string_scope.
Local Open Scope Z_scope.

(** ** JavaScript values *)

(** The values the file handles: what [JSON.parse] produces, plus
    [undefined].  Numbers are the integers (the code never computes with a
    number taken from a document: it only tests it for truthiness and strict
    equality).  An object is its list of own properties in insertion order;
    the first binding of a key is the live one. *)
#[local] Unset Elimination Schemes.
Inductive value : Type :=
| VUndefined
| VNull
| VBool (b : bool)
| VNum (n : Z)
| VStr (s : string)
| VArr (elems : list value)
| VObj (props : list (string * value)).
#[local] Set Elimination Schemes.

(** Induction over [value] that reaches the elements of arrays and the
  property values of objects. *)
Section ValueInd.
Variable P : value -> Prop.
Hypothesis Hundef : P VUndefined.
Hypothesis Hnull : P VNull.
Hypothesis Hbool : forall b, P (VBool b).
Hypothesis Hnum : forall n, P (VNum n).
Hypothesis Hstr : forall s, P (VStr s).
Hypothesis Harr : forall l, Forall P l -> P (VArr l).
Hypothesis Hobj : forall ps, Forall (fun kv => P (snd kv)) ps -> P (VObj ps).

Fixpoint value_deep_ind (v : value) : P v :=
  match v with
  | VUndefined => Hundef
  | VNull => Hnull
  | VBool b => Hbool b
  | VNum n => Hnum n
  | VStr s => Hstr s
  | VArr l =>
      Harr l ((fix elems (l : list value) : Forall P l :=
                 match l with
                 | [] => Forall_nil _
                 | x :: l' => Forall_cons x (value_deep_ind x) (elems l')
                 end) l)
  | VObj ps =>
      Hobj ps ((fix props (ps : list (string * value))
                  : Forall (fun kv => P (snd kv)) ps :=
                  match ps with
                  | [] => Forall_nil _
                  | (k, x) :: ps' =>
                      Forall_cons (k, x) (value_deep_ind x) (props ps')
                  end) ps)
  end.
End ValueInd.

(** [ToBoolean]: the falsy values are [undefined], [null], [false], [0]
    and the empty string; arrays and objects are always truthy. *)
Definition truthy (v : value) : bool :=
  match v with
  | VUndefined | VNull => false
  | VBool b => b
  | VNum n => negb (n =? 0)
  | VStr s => negb (String.eqb s "")
  | VArr _ | VObj _ => true
  end.

(** [a || b] *)
Definition js_or (a b : value) : value := if truthy a then a else b.

(** [a === b].  Arrays and objects compare by reference; every array or
    object compared here was freshly parsed from a response, so it is never
    the same reference as the other operand. *)
Definition strict_eq (a b : value) : bool :=
  match a, b with
  | VUndefined, VUndefined => true
  | VNull, VNull => true
  | VBool x, VBool y => Bool.eqb x y
  | VNum x, VNum y => x =? y
  | VStr x, VStr y => String.eqb x y
  | _, _ => false
  end.

(** [a !== b] *)
Definition strict_neq (a b : value) : bool := negb (strict_eq a b).

(** Own-property lookup in a property list; a missing key reads
    [undefined]. *)
Fixpoint lookup (k : string) (ps : list (string * value)) : value :=
  match ps with
  | [] => VUndefined
  | (k', v) :: ps' => if String.eqb k k' then v else lookup k ps'
  end.

(** Assignment [o.k = v] on a property list: overwrite in place, or add the
    key at the end. *)
Fixpoint assign (k : string) (v : value) (ps : list (string * value))
  : list (string * value) :=
  match ps with
  | [] => [(k, v)]
  | (k', v') :: ps' =>
      if String.eqb k k' then (k', v) :: ps' else (k', v') :: assign k v ps'
  end.

(** ** Outcomes *)

Inductive error : Type :=
| ConfigError                                   (* configuration missing *)
| NetworkError (msg : string)                   (* [fetch] rejected *)
| SupabaseError (status : Z) (text : string)    (* response not ok *)
| SyntaxError                                   (* body is not JSON *)
| TypeError (what : string)                     (* property of null, ... *)
| DOMException (name : string)                  (* [localStorage] refused *)
| UserError (payload : value).                  (* thrown by a callback *)

Inductive result (A : Type) : Type :=
| Ok (a : A)
| Throw (e : error).
Arguments Ok {A} a.
Arguments Throw {A} e.

Definition rbind {A B} (r : result A) (k : A -> result B) : result B :=
  match r with
  | Ok a => k a
  | Throw e => Throw e
  end.

Notation "'let?' x ':=' r 'in' k" := (rbind r (fun x => k))
  (at level 10, x name, r at level 100, k at level 200).

(** The [length] of a string counts UTF-16 code units.  In the UTF-8 text
    every character has one leading byte: a character of the basic plane
    (one to three bytes) is one unit, a character beyond (four bytes,
    leading byte [11110...]) is two, and a byte that continues a character
    ([10......]) adds nothing.  The last bit of [Ascii] is the highest. *)
Definition utf16_units (c : ascii) : nat :=
  match c with
  | Ascii _ _ _ _ _ _ _ false => 1%nat
  | Ascii _ _ _ _ _ _ false true => 0%nat
  | Ascii _ _ _ _ true true true true => 2%nat
  | _ => 1%nat
  end.

Fixpoint js_length (s : string) : nat :=
  match s with
  | EmptyString => 0%nat
  | String c s' => (utf16_units c + js_length s')%nat
  end.

(** Property read [v.k] for the keys the file uses.  Reading a property of
    [null] or [undefined] throws; a primitive or an array has none of these
    keys except [length]. *)
Definition prop (v : value) (k : string) : result value :=
  match v with
  | VUndefined | VNull => Throw (TypeError k)
  | VObj ps => Ok (lookup k ps)
  | VArr l => Ok (if String.eqb k "length" then VNum (Z.of_nat (List.length l))
                  else VUndefined)
  | VStr s => Ok (if String.eqb k "length"
                  then VNum (Z.of_nat (js_length s)) else VUndefined)
  | VBool _ | VNum _ => Ok VUndefined
  end.

(** Optional chaining [v?.k] *)
Definition opt_prop (v : value) (k : string) : result value :=
  match v with
  | VUndefined | VNull => Ok VUndefined
  | _ => prop v k
  end.

(** [o.k] in a statement: [undefined] where the read would throw. *)
Definition get (o : value) (k : string) : value :=
  match prop o k with
  | Ok v => v
  | Throw _ => VUndefined
  end.

(** [null] or [undefined] *)
Definition nullish (v : value) : bool :=
  match v with
  | VUndefined | VNull => true
  | _ => false
  end.

(** ** JSON serialisation *)

(** The JSON value that [JSON.stringify] writes for a value: a property whose
    value is [undefined] is left out, an [undefined] array element becomes
    [null]. *)
Fixpoint to_json (v : value) : value :=
  match v with
  | VArr l =>
      VArr (map (fun x => match x with
                          | VUndefined => VNull
                          | _ => to_json x
                          end) l)
  | VObj ps =>
      VObj ((fix props (ps : list (string * value)) : list (string * value) :=
               match ps with
               | [] => []
               | (k, VUndefined) :: ps' => props ps'
               | (k, x) :: ps' => (k, to_json x) :: props ps'
               end) ps)
  | _ => v
  end.

(** A value with no [undefined] inside. *)
Fixpoint json (v : value) : bool :=
  match v with
  | VUndefined => false
  | VArr l => forallb json l
  | VObj ps =>
      (fix props (ps : list (string * value)) : bool :=
         match ps with
         | [] => true
         | (_, x) :: ps' => json x && props ps'
         end) ps
  | _ => true
  end.

(** ** The environment *)

Inductive method : Type := GET | POST | PATCH | PUT | DELETE.

(** What [supabaseRequest] hands to [fetch]: the method, the client's base
    URL and key (sent as [apikey] and bearer token), the table, the equality
    filters of the query string and the JSON body. *)
Record request : Type := {
  req_method : method;
  req_base : string;
  req_key : string;
  req_table : string;
  req_filters : list (string * value);
  req_body : option value
}.

(** What [fetch] gives back: a rejection, or a response with its status, its
    text, and its body read as JSON when it is JSON.  The REST endpoint of a
    table answers with an array of rows. *)
Inductive fetch_result : Type :=
| Rejected (msg : string)
| Response (status : Z) (text : string) (rows : option (list value)).

(** An entry of [localStorage]: a plain text, or the JSON text of a value. *)
Inductive item : Type :=
| ItemText (s : string)
| ItemJson (v : value).

(** The collaborators outside the file: the remote store behind [fetch], the
    browser's [localStorage] (whose [setItem] can refuse), the clock's
    formatting, and the runtime's conversion to a number: [exceeds x n] is
    [x > n] for a string, an array or an object [x], which the runtime first
    converts ([ToNumber]) and which may throw. *)
Record Env : Type := {
  gateway : Type;
  fetch : request -> gateway -> fetch_result * gateway;
  storage : Type;
  setItem : string -> item -> storage -> option storage;
  toISOString : Z -> string;
  exceeds : value -> nat -> result bool
}.

Record config : Type := { url : string; anonKey : string }.
Record client : Type := { client_url : string; client_key : string }.

(** [window.DATA_CACHE] *)
Record data_cache : Type := {
  cache_data : value;
  cache_lastLoad : Z;
  cache_lastSuccessfulSave : Z
}.

(** [n.toString()] for a number *)
Definition toString (n : Z) : string := NilZero.string_of_int (Z.to_int n).

Section Storage.
Variable E : Env.

(** The state the file runs in.  [sent] is the trace of the requests handed
    to [fetch], oldest first; [console] the trace of [console.error]; [now]
    is what [Date.now()] reads, and moves only when the environment moves
    it. *)
Record world : Type := {
  SUPABASE_CONFIG : option config;
  supabaseClient : option client;
  isSupabaseInitialized : bool;
  remote : gateway E;
  sent : list request;
  DATA_CACHE : option data_cache;
  localStorage : storage E;
  console : list (string * error);
  now : Z
}.

(** Assignments to one component of the state. *)
Definition set_client (c : client) (w : world) : world :=
  {| SUPABASE_CONFIG := SUPABASE_CONFIG w;
     supabaseClient := Some c;
     isSupabaseInitialized := true;
     remote := remote w;
     sent := sent w;
     DATA_CACHE := DATA_CACHE w;
     localStorage := localStorage w;
     console := console w;
     now := now w |}.

Definition set_remote (g : gateway E) (r : request) (w : world) : world :=
  {| SUPABASE_CONFIG := SUPABASE_CONFIG w;
     supabaseClient := supabaseClient w;
     isSupabaseInitialized := isSupabaseInitialized w;
     remote := g;
     sent := sent w ++ [r];
     DATA_CACHE := DATA_CACHE w;
     localStorage := localStorage w;
     console := console w;
     now := now w |}.

Definition set_DATA_CACHE (c : data_cache) (w : world) : world :=
  {| SUPABASE_CONFIG := SUPABASE_CONFIG w;
     supabaseClient := supabaseClient w;
     isSupabaseInitialized := isSupabaseInitialized w;
     remote := remote w;
     sent := sent w;
     DATA_CACHE := Some c;
     localStorage := localStorage w;
     console := console w;
     now := now w |}.

Definition set_localStorage (st : storage E) (w : world) : world :=
  {| SUPABASE_CONFIG := SUPABASE_CONFIG w;
     supabaseClient := supabaseClient w;
     isSupabaseInitialized := isSupabaseInitialized w;
     remote := remote w;
     sent := sent w;
     DATA_CACHE := DATA_CACHE w;
     localStorage := st;
     console := console w;
     now := now w |}.

Definition set_gateway (g : gateway E) (w : world) : world :=
  {| SUPABASE_CONFIG := SUPABASE_CONFIG w;
     supabaseClient := supabaseClient w;
     isSupabaseInitialized := isSupabaseInitialized w;
     remote := g;
     sent := sent w;
     DATA_CACHE := DATA_CACHE w;
     localStorage := localStorage w;
     console := console w;
     now := now w |}.

Definition log (msg : string) (e : error) (w : world) : world :=
  {| SUPABASE_CONFIG := SUPABASE_CONFIG w;
     supabaseClient := supabaseClient w;
     isSupabaseInitialized := isSupabaseInitialized w;
     remote := remote w;
     sent := sent w;
     DATA_CACHE := DATA_CACHE w;
     localStorage := localStorage w;
     console := console w ++ [(msg, e)];
     now := now w |}.

Definition M (A : Type) : Type := world -> result A * world.

Definition ret {A} (a : A) : M A := fun w => (Ok a, w).
Definition throw {A} (e : error) : M A := fun w => (Throw e, w).
Definition lift {A} (r : result A) : M A := fun w => (r, w).

Definition bind {A B} (m : M A) (k : A -> M B) : M B :=
  fun w =>
    match m w with
    | (Ok a, w1) => k a w1
    | (Throw e, w1) => (Throw e, w1)
    end.

(** [try { m } catch (e) { h e }] *)
Definition try_catch {A} (m : M A) (h : error -> M A) : M A :=
  fun w =>
    match m w with
    | (Ok a, w1) => (Ok a, w1)
    | (Throw e, w1) => h e w1
    end.

Notation "'let*' x ':=' m 'in' k" := (bind m (fun x => k))
  (at level 10, x name, m at level 100, k at level 200).

Definition console_error (msg : string) (e : error) : M unit :=
  fun w =>
    (Ok tt, log msg e w).

Definition Date_now : M Z := fun w => (Ok (now w), w).

(** [fetch(queryUrl, options)] *)
Definition do_fetch (r : request) : M fetch_result :=
  fun w =>
    let (resp, g) := fetch E r (remote w) in
    (Ok resp, set_remote g r w).

(** [initSupabase] *)
Definition initSupabase : M client :=
  fun w =>
    match isSupabaseInitialized w, supabaseClient w with
    | true, Some c => (Ok c, w)
    | _, _ =>
        match SUPABASE_CONFIG w with
        | None => (Throw ConfigError, w)
        | Some cfg =>
            if String.eqb (url cfg) "" || String.eqb (anonKey cfg) ""
            then (Throw ConfigError, w)
            else
              let c := {| client_url := url cfg;
                          client_key := anonKey cfg |} in
              (Ok c, set_client c w)
        end
    end.

Definition carries_body (m : method) : bool :=
  match m with
  | POST | PATCH | PUT => true
  | _ => false
  end.

Definition is_delete (m : method) : bool :=
  match m with
  | DELETE => true
  | _ => false
  end.

(** [response.ok] *)
Definition response_ok (status : Z) : bool :=
  (200 <=? status) && (status <=? 299).

(** Lines 35-59: the request built for [fetch]. *)
Definition build_request (c : client) (m : method) (table : string)
    (data : value) (filters : list (string * value)) : request :=
  {| req_method := m;
     req_base := client_url c;
     req_key := client_key c;
     req_table := table;
     req_filters := filters;
     req_body := if truthy data && carries_body m
                 then Some (to_json data) else None |}.

(** Lines 63-72: what is made of the response; [None] is JavaScript's
    [null]. *)
Definition read_response (m : method) (response : fetch_result)
  : result (option (list value)) :=
  match response with
  | Rejected msg => Throw (NetworkError msg)
  | Response status text rows =>
      if negb (response_ok status) then Throw (SupabaseError status text)
      else if is_delete m || (status =? 204) then Ok None
      else match rows with
           | Some l => Ok (Some l)
           | None => Throw SyntaxError
           end
  end.

(** [supabaseRequest(method, table, data, filters)] *)
Definition supabaseRequest (m : method) (table : string) (data : value)
    (filters : list (string * value)) : M (option (list value)) :=
  let* c := initSupabase in
  let* response := do_fetch (build_request c m table data filters) in
  lift (read_response m response).

(** *** The field mapper *)

(** The row created on first load (lines 83-95). *)
Definition defaultData : value :=
  VObj [("id", VNum 1);
        ("links", VArr []);
        ("social_links", VObj [("discord", VStr ""); ("x", VStr "")]);
        ("admin_credentials", VNull);
        ("statistics",
          VObj [("clicks", VArr []); ("visits", VArr []);
                ("daily_visits", VObj [])]);
        ("admin_messages", VArr []);
        ("setup_page_enabled", VBool true)].

(** The document returned on first load (lines 98-105). *)
Definition defaultDocument : value :=
  VObj [("links", VArr []);
        ("socialLinks", VObj [("discord", VStr ""); ("x", VStr "")]);
        ("adminCredentials", VNull);
        ("statistics",
          VObj [("clicks", VArr []); ("visits", VArr []);
                ("dailyVisits", VObj [])]);
        ("adminMessages", VArr []);
        ("setupPageEnabled", VBool true)].

(** A document with its six fields, in the order the file writes them. *)
Definition document
    (links social creds clicks visits daily messages enabled : value)
  : value :=
  VObj [("links", links);
        ("socialLinks", social);
        ("adminCredentials", creds);
        ("statistics",
          VObj [("clicks", clicks); ("visits", visits);
                ("dailyVisits", daily)]);
        ("adminMessages", messages);
        ("setupPageEnabled", enabled)].

(** [o.outer?.inner] *)
Definition nested (o : value) (outer inner : string) : result value :=
  let? s := prop o outer in opt_prop s inner.

(** Wire row to document: the object literal of lines 111-122. *)
Definition toInternal (data : value) : result value :=
  let? links := prop data "links" in
  let? social := prop data "social_links" in
  let? creds := prop data "admin_credentials" in
  let? clicks := nested data "statistics" "clicks" in
  let? visits := nested data "statistics" "visits" in
  let? daily := nested data "statistics" "daily_visits" in
  let? messages := prop data "admin_messages" in
  let? enabled := prop data "setup_page_enabled" in
  Ok (VObj
    [("links", js_or links (VArr []));
     ("socialLinks",
       js_or social (VObj [("discord", VStr ""); ("x", VStr "")]));
     ("adminCredentials", js_or creds VNull);
     ("statistics",
       VObj [("clicks", js_or clicks (VArr []));
             ("visits", js_or visits (VArr []));
             ("dailyVisits", js_or daily (VObj []))]);
     ("adminMessages", js_or messages (VArr []));
     ("setupPageEnabled", VBool (strict_neq enabled (VBool false)))]).

(** Document to wire row: the object literal of lines 135-147. *)
Definition toWire (data : value) : result value :=
  let? links := prop data "links" in
  let? social := prop data "socialLinks" in
  let? creds := prop data "adminCredentials" in
  let? clicks := nested data "statistics" "clicks" in
  let? visits := nested data "statistics" "visits" in
  let? daily := nested data "statistics" "dailyVisits" in
  let? messages := prop data "adminMessages" in
  let? enabled := prop data "setupPageEnabled" in
  Ok (VObj
    [("id", VNum 1);
     ("links", js_or links (VArr []));
     ("social_links",
       js_or social (VObj [("discord", VStr ""); ("x", VStr "")]));
     ("admin_credentials", js_or creds VNull);
     ("statistics",
       VObj [("clicks", js_or clicks (VArr []));
             ("visits", js_or visits (VArr []));
             ("daily_visits", js_or daily (VObj []))]);
     ("admin_messages", js_or messages (VArr []));
     ("setup_page_enabled", VBool (strict_neq enabled (VBool false)))]).

(** *** The synchroniser *)

(** [loadDataFromSupabase] *)
Definition loadDataFromSupabase : M value :=
  try_catch
    (let* result := supabaseRequest GET "app_data" VNull [] in
     match result with
     | None | Some [] =>
         let* _ := supabaseRequest POST "app_data" defaultData [] in
         ret defaultDocument
     | Some (data :: _) => lift (toInternal data)
     end)
    (fun e =>
       let* _ := console_error "❌ Erreur lors du chargement des données Supabase:" e in
       throw e).

(** Lines 160-164: the in-memory cache, when the page has one. *)
Definition update_DATA_CACHE (data : value) : M unit :=
  fun w =>
    match DATA_CACHE w with
    | None => (Ok tt, w)
    | Some _ =>
        (Ok tt,
         set_DATA_CACHE {| cache_data := data;
                           cache_lastLoad := 0;
                           cache_lastSuccessfulSave := now w |} w)
    end.

(** [localStorage.setItem(key, text)] *)
Definition localStorage_setItem (key : string) (text : item) : M unit :=
  fun w =>
    match setItem E key text (localStorage w) with
    | None => (Throw (DOMException "QuotaExceededError"), w)
    | Some st =>
        (Ok tt, set_localStorage st w)
    end.

(** Lines 166-171: the persisted cache; a failure is dropped. *)
Definition update_localStorage (data : value) : M unit :=
  try_catch
    (let* t := Date_now in
     let* _ := localStorage_setItem "lastDataSave" (ItemText (toString t)) in
     let* _ := localStorage_setItem "cachedData" (ItemJson (to_json data)) in
     localStorage_setItem "cachedDataTime" (ItemText (toString t)))
    (fun _ => ret tt).

(** The filter [{ id: 1 }] *)
Definition id1 : list (string * value) := [("id", VNum 1)].

(** Lines 152-158: update the row when the check found one, create it
    otherwise. *)
Definition write_row (existing : option (list value))
    (supabaseData : value) : M (option (list value)) :=
  match existing with
  | Some (_ :: _) => supabaseRequest PATCH "app_data" supabaseData id1
  | _ => supabaseRequest POST "app_data" supabaseData []
  end.

(** [saveDataToSupabase(data)] *)
Definition saveDataToSupabase (data : value) : M bool :=
  try_catch
    (let* _ := initSupabase in
     let* supabaseData := lift (toWire data) in
     let* existing := supabaseRequest GET "app_data" VNull id1 in
     let* _ := write_row existing supabaseData in
     let* _ := update_DATA_CACHE data in
     let* _ := update_localStorage data in
     ret true)
    (fun e =>
       let* _ := console_error "❌ Erreur lors de la sauvegarde Supabase:" e in
       throw e).

(** *** The pollers *)

(** A registered callback runs in the page: it may change the world and
    it may throw.  [None] is a call without callback. *)
Definition callback : Type := option (value -> M unit).

(** [list.forEach(v => { if (callback) callback(v); })].  Next to the
    outcome, the arguments the callback was invoked on, in order. *)
Fixpoint forEach (cb : callback) (l : list value) (w : world)
  : result unit * list value * world :=
  match l with
  | [] => (Ok tt, [], w)
  | v :: l' =>
      match cb with
      | None => forEach cb l' w
      | Some f =>
          match f v w with
          | (Ok _, w1) =>
              let '(r, fired, w2) := forEach cb l' w1 in (r, v :: fired, w2)
          | (Throw e, w1) => (Throw e, [v], w1)
          end
      end
  end.

(** [data.statistics?.visits || []] *)
Definition visits_of (data : value) : result value :=
  let? v := nested data "statistics" "visits" in Ok (js_or v (VArr [])).

(** [v.length > n] for a value that is not an array.  A [length] that is a
    number is compared as it is; [undefined] is no number and never greater;
    [null] counts as 0 and a boolean as 0 or 1; a string, an array or an
    object is converted by the runtime. *)
Definition length_exceeds (v : value) (n : nat) : result bool :=
  match prop v "length" with
  | Ok (VNum z) => Ok (Z.of_nat n <? z)
  | Ok VUndefined | Ok VNull => Ok false
  | Ok (VBool b) => Ok (b && Nat.eqb n 0)
  | Ok x => exceeds E x n
  | Throw e => Throw e
  end.

(** The [try] block of the interval handler of [listenToNewVisits]: the
    value [lastVisitCount] has at its end, and the callback's arguments. *)
Definition newVisits_try (cb : callback) (lastVisitCount : nat) (w : world)
  : result nat * list value * world :=
  match loadDataFromSupabase w with
  | (Throw e, w1) => (Throw e, [], w1)
  | (Ok data, w1) =>
      match visits_of data with
      | Throw e => (Throw e, [], w1)
      | Ok (VArr visits) =>
          if Nat.ltb lastVisitCount (List.length visits) then
            match forEach cb (skipn lastVisitCount visits) w1 with
            | (Ok _, fired, w2) => (Ok (List.length visits), fired, w2)
            | (Throw e, fired, w2) => (Throw e, fired, w2)
            end
          else (Ok lastVisitCount, [], w1)
      | Ok v =>
          (* no array: a string has [slice] but its result has no
             [forEach]; any other value has no [slice] *)
          match length_exceeds v lastVisitCount with
          | Ok true =>
              (Throw (TypeError (match v with
                                 | VStr _ => "forEach"
                                 | _ => "slice"
                                 end)), [], w1)
          | Ok false => (Ok lastVisitCount, [], w1)
          | Throw e => (Throw e, [], w1)
          end
      end
  end.

(** One firing of the interval of [listenToNewVisits]. *)
Definition newVisits_tick (cb : callback) (lastVisitCount : nat) (w : world)
  : (nat * list value) * world :=
  match newVisits_try cb lastVisitCount w with
  | (Ok n, fired, w1) => ((n, fired), w1)
  | (Throw e, fired, w1) =>
      ((lastVisitCount, fired),
       log "Erreur lors de l'écoute des visites:" e w1)
  end.

(** [data.adminMessages || []] and its [length] *)
Definition messages_of (data : value) : result (value * value) :=
  let? m := prop data "adminMessages" in
  let messages := js_or m (VArr []) in
  let? len := prop messages "length" in
  Ok (messages, len).

(** The [try] block of the interval handler of [listenToAdminMessages]. *)
Definition adminMessages_try (cb : callback) (lastMessageCount : value)
    (w : world) : result value * list value * world :=
  match loadDataFromSupabase w with
  | (Throw e, w1) => (Throw e, [], w1)
  | (Ok data, w1) =>
      match messages_of data with
      | Throw e => (Throw e, [], w1)
      | Ok (messages, len) =>
          if strict_neq len lastMessageCount then
            match cb with
            | None => (Ok len, [], w1)
            | Some f =>
                match f messages w1 with
                | (Ok _, w2) => (Ok len, [messages], w2)
                | (Throw e, w2) => (Throw e, [messages], w2)
                end
            end
          else (Ok lastMessageCount, [], w1)
      end
  end.

(** One firing of the interval of [listenToAdminMessages]. *)
Definition adminMessages_tick (cb : callback) (lastMessageCount : value)
    (w : world) : (value * list value) * world :=
  match adminMessages_try cb lastMessageCount w with
  | (Ok n, fired, w1) => ((n, fired), w1)
  | (Throw e, fired, w1) =>
      ((lastMessageCount, fired),
       log "Erreur lors de l'écoute des messages:" e w1)
  end.

(** The interval: the handler fires once per entry of the schedule; the
    entry is what the rest of the world did since the previous firing.
    Firings do not overlap. *)
Fixpoint poll {S : Type} (tick : S -> world -> (S * list value) * world)
    (schedule : list (world -> world)) (s : S) (w : world)
  : (S * list value) * world :=
  match schedule with
  | [] => ((s, []), w)
  | before :: rest =>
      let '((s1, fired1), w1) := tick s (before w) in
      let '((s2, fired2), w2) := poll tick rest s1 w1 in
      ((s2, (fired1 ++ fired2)%list), w2)
  end.

(** [listenToNewVisits(callback)]: [lastVisitCount] starts at 0. *)
Definition listenToNewVisits (cb : callback)
    (schedule : list (world -> world)) (w : world)
  : (nat * list value) * world :=
  poll (newVisits_tick cb) schedule 0%nat w.

(** [listenToAdminMessages(callback)]: [lastMessageCount] starts at 0. *)
Definition listenToAdminMessages (cb : callback)
    (schedule : list (world -> world)) (w : world)
  : (value * list value) * world :=
  poll (adminMessages_tick cb) schedule (VNum 0) w.

(** *** The message log *)

(** [o.k = v] *)
Definition set_prop (o : value) (k : string) (v : value) : result value :=
  match o with
  | VUndefined | VNull => Throw (TypeError k)
  | VObj ps => Ok (VObj (assign k v ps))
  | _ => Ok o
  end.

(** [arr.push(x)]: only an array has [push]. *)
Definition push (arr x : value) : result (list value) :=
  match arr with
  | VArr l => Ok (l ++ [x])%list
  | _ => Throw (TypeError "push")
  end.

(** [l.slice(-k)] *)
Definition slice_last (k : nat) (l : list value) : list value :=
  skipn (List.length l - k) l.

(** Lines 227-233 *)
Definition newMessage (message : value) : M value :=
  let* t := Date_now in
  let* text := lift (prop message "text") in
  let* type := lift (prop message "type") in
  let* t' := Date_now in
  let* active := lift (prop message "active") in
  ret (VObj [("id", VStr (toString t));
             ("text", text);
             ("type", js_or type (VStr "info"));
             ("timestamp", VStr (toISOString E t'));
             ("active", VBool (strict_neq active (VBool false)))]).

(** [addAdminMessage(message)] *)
Definition addAdminMessage (message : value) : M value :=
  try_catch
    (let* data := loadDataFromSupabase in
     let* m := lift (prop data "adminMessages") in
     let* data := lift (set_prop data "adminMessages" (js_or m (VArr []))) in
     let* msg := newMessage message in
     let* arr := lift (prop data "adminMessages") in
     let* pushed := lift (push arr msg) in
     let kept := if Nat.ltb 50 (List.length pushed)
                 then slice_last 50 pushed else pushed in
     let* data := lift (set_prop data "adminMessages" (VArr kept)) in
     let* _ := saveDataToSupabase data in
     ret msg)
    (fun e =>
       let* _ := console_error "Erreur lors de l'ajout du message:" e in
       throw e).

(** [arr.filter(keep)], where [keep] may throw. *)
Fixpoint filter_list (keep : value -> result bool) (l : list value)
  : result (list value) :=
  match l with
  | [] => Ok []
  | x :: l' =>
      let? b := keep x in
      let? rest := filter_list keep l' in
      Ok (if b then x :: rest else rest)
  end.

Definition js_filter (keep : value -> result bool) (arr : value)
  : result (list value) :=
  match arr with
  | VArr l => filter_list keep l
  | _ => Throw (TypeError "filter")
  end.

(** [msg => msg.id !== messageId] *)
Definition other_id (messageId msg : value) : result bool :=
  let? i := prop msg "id" in Ok (strict_neq i messageId).

(** [deleteAdminMessage(messageId)] *)
Definition deleteAdminMessage (messageId : value) : M bool :=
  try_catch
    (let* data := loadDataFromSupabase in
     let* m := lift (prop data "adminMessages") in
     let* data := lift (set_prop data "adminMessages" (js_or m (VArr []))) in
     let* arr := lift (prop data "adminMessages") in
     let* kept := lift (js_filter (other_id messageId) arr) in
     let* data := lift (set_prop data "adminMessages" (VArr kept)) in
     let* _ := saveDataToSupabase data in
     ret true)
    (fun e =>
       let* _ := console_error "Erreur lors de la suppression du message:" e in
       throw e).

(** *** Scenarios *)

(** The clock shows [t]. *)
Definition set_now (t : Z) (w : world) : world :=
  {| SUPABASE_CONFIG := SUPABASE_CONFIG w;
     supabaseClient := supabaseClient w;
     isSupabaseInitialized := isSupabaseInitialized w;
     remote := remote w;
     sent := sent w;
     DATA_CACHE := DATA_CACHE w;
     localStorage := localStorage w;
     console := console w;
     now := t |}.

(** Appending messages one after the other, each awaited before the next:
    [(t, message)] appends [message] when the clock shows [t].  The result
    lists the messages [addAdminMessage] returned. *)
Fixpoint append_all (entries : list (Z * value)) : M (list value) :=
  match entries with
  | [] => ret []
  | (t, message) :: rest =>
      fun w =>
        (let* msg := addAdminMessage message in
         let* msgs := append_all rest in
         ret (msg :: msgs)) (set_now t w)
  end.
End Storage.

Arguments SUPABASE_CONFIG {E} w.
Arguments supabaseClient {E} w.
Arguments isSupabaseInitialized {E} w.
Arguments remote {E} w.
Arguments sent {E} w.
Arguments DATA_CACHE {E} w.
Arguments localStorage {E} w.
Arguments console {E} w.
Arguments now {E} w.

(** ** A reference environment *)

(** A store that behaves as the REST endpoint of one table does, with a plan
    of faults to inject, and a [localStorage] with a quota.  The results on
    failures below hold for every environment; this one serves where a
    property speaks of what the store holds afterwards.  It is a model of
    the service behind [fetch], which is no part of the file: a GET answers
    the rows that match the filters, a POST adds the row it is sent, a PATCH
    overwrites, in the rows that match, the columns it is sent. *)
Module Store.

(** The table [app_data], and what to do with the coming requests: serve
    them ([None]) or answer with a given failure.  An exhausted plan serves
    every request. *)
Record backend : Type := {
  app_data : list value;
  plan : list (option fetch_result)
}.

(** [column=eq.value] for every filter *)
Definition matches (filters : list (string * value)) (row : value) : bool :=
  forallb (fun f => match prop row (fst f) with
                    | Ok x => strict_eq x (snd f)
                    | Throw _ => false
                    end) filters.

(** PATCH overwrites the columns the body names. *)
Definition patch_row (body row : value) : value :=
  match body, row with
  | VObj bs, VObj ps =>
      VObj (fold_left (fun acc kv => assign (fst kv) (snd kv) acc) bs ps)
  | _, _ => row
  end.

Definition serve (r : request) (table : list value)
  : fetch_result * list value :=
  if negb (String.eqb (req_table r) "app_data")
  then (Response 404 "unknown table" None, table)
  else
    match req_method r with
    | GET =>
        (Response 200 "" (Some (filter (matches (req_filters r)) table)),
         table)
    | POST =>
        match req_body r with
        | Some b => (Response 201 "" (Some [b]), (table ++ [b])%list)
        | None => (Response 400 "no body" None, table)
        end
    | PATCH =>
        match req_body r with
        | Some b =>
            (Response 200 ""
               (Some (map (patch_row b)
                        (filter (matches (req_filters r)) table))),
             map (fun row => if matches (req_filters r) row
                             then patch_row b row else row) table)
        | None => (Response 400 "no body" None, table)
        end
    | PUT => (Response 405 "not served" None, table)
    | DELETE =>
        (Response 204 "" None,
         filter (fun row => negb (matches (req_filters r) row)) table)
    end.

Definition store_fetch (r : request) (g : backend) : fetch_result * backend :=
  match plan g with
  | Some fault :: rest => (fault, {| app_data := app_data g; plan := rest |})
  | None :: rest =>
      let (resp, table) := serve r (app_data g) in
      (resp, {| app_data := table; plan := rest |})
  | [] =>
      let (resp, table) := serve r (app_data g) in
      (resp, {| app_data := table; plan := [] |})
  end.

(** [localStorage] holding at most [capacity] entries. *)
Record local : Type := {
  capacity : nat;
  items : list (string * item)
}.

Fixpoint put (k : string) (v : item) (l : list (string * item))
  : list (string * item) :=
  match l with
  | [] => [(k, v)]
  | (k', v') :: l' =>
      if String.eqb k k' then (k', v) :: l' else (k', v') :: put k v l'
  end.

Definition store_setItem (k : string) (v : item) (st : local)
  : option local :=
  let l := put k v (items st) in
  if Nat.leb (List.length l) (capacity st)
  then Some {| capacity := capacity st; items := l |}
  else None.

(** The number that a text of decimal digits writes; the empty text
    writes 0. *)
Definition digit (c : ascii) : option nat :=
  match c with
  | "0"%char => Some 0%nat | "1"%char => Some 1%nat | "2"%char => Some 2%nat
  | "3"%char => Some 3%nat | "4"%char => Some 4%nat | "5"%char => Some 5%nat
  | "6"%char => Some 6%nat | "7"%char => Some 7%nat | "8"%char => Some 8%nat
  | "9"%char => Some 9%nat
  | _ => None
  end.

Fixpoint digits_value (s : string) (acc : nat) : option nat :=
  match s with
  | EmptyString => Some acc
  | String c s' =>
      match digit c with
      | Some d => digits_value s' (10 * acc + d)%nat
      | None => None
      end
  end.

(** The number conversion of the reference environment: a text of decimal
    digits is the number it writes; any other text, an array and an object
    are taken as no number, which exceeds nothing. *)
Definition store_exceeds (x : value) (n : nat) : result bool :=
  match x with
  | VStr s =>
      match digits_value s 0 with
      | Some v => Ok (Nat.ltb n v)
      | None => Ok false
      end
  | _ => Ok false
  end.

(** The reference environment; the timestamp's text is left symbolic. *)
Definition browser : Env :=
  {| gateway := backend;
     fetch := store_fetch;
     storage := local;
     setItem := store_setItem;
     toISOString := fun t => "ISO:" ++ toString t;
     exceeds := store_exceeds |}.

(** A page with a configuration, the given table and fault plan, no cache
    object and room for [quota] entries in [localStorage]. *)
Definition page (table : list value) (faults : list (option fetch_result))
    (quota : nat) : world browser :=
  {| SUPABASE_CONFIG := Some {| url := "https://x.supabase.co";
                                anonKey := "anon" |};
     supabaseClient := None;
     isSupabaseInitialized := false;
     remote := ({| app_data := table; plan := faults |} : gateway browser);
     sent := [];
     DATA_CACHE := None;
     localStorage := ({| capacity := quota; items := [] |} : storage browser);
     console := [];
     now := 1700000000000 |}.

End Store.

(** * The vocabulary of the properties *)

(** ** For every environment *)

Section Vocabulary.
Variable E : Env.

(** The client is initialised. *)
Definition ready (c : client) (w : world E) : Prop :=
  isSupabaseInitialized w = true /\ supabaseClient w = Some c.

(** The mirror: the page's cache object and [localStorage]. *)
Definition same_mirror (w w' : world E) : Prop :=
  DATA_CACHE w' = DATA_CACHE w /\ localStorage w' = localStorage w.

(** The callback returns normally on every element of the list. *)
Definition returns_on (f : value -> M E unit) (l : list value) : Prop :=
  forall v w, In v l -> exists w', f v w = (Ok tt, w').

(** The state after the callback was handed the elements of [l], one after
    the other. *)
Fixpoint deliver (f : value -> M E unit) (l : list value) (w : world E)
  : world E :=
  match l with
  | [] => w
  | v :: l' => deliver f l' (snd (f v w))
  end.

(** The number of visits a loaded document shows to the poller. *)
Definition seen_visits (data : value) : nat :=
  match visits_of data with
  | Ok (VArr visits) => List.length visits
  | _ => 0%nat
  end.

(** Along a schedule, no load shows more than [bound] visits. *)
Fixpoint never_beyond (cb : callback E) (bound : nat)
    (schedule : list (world E -> world E)) (n : nat) (w : world E) : Prop :=
  match schedule with
  | [] => True
  | before :: rest =>
      match loadDataFromSupabase E (before w) with
      | (Ok data, _) => (seen_visits data <= bound)%nat
      | (Throw _, _) => True
      end /\
      never_beyond cb bound rest
        (fst (fst (newVisits_tick E cb n (before w))))
        (snd (newVisits_tick E cb n (before w)))
  end.

End Vocabulary.

Arguments ready {E} c w.
Arguments same_mirror {E} w w'.
Arguments returns_on {E} f l.
Arguments deliver {E} f l w.
Arguments never_beyond {E} cb bound schedule n w.

(** ** The mapper and JSON *)

(** The columns written for a document that is an object. *)
Definition wire_fields (fields : list (string * value))
  : list (string * value) :=
  [("id", VNum 1);
   ("links", js_or (lookup "links" fields) (VArr []));
   ("social_links",
     js_or (lookup "socialLinks" fields)
       (VObj [("discord", VStr ""); ("x", VStr "")]));
   ("admin_credentials", js_or (lookup "adminCredentials" fields) VNull);
   ("statistics",
     VObj [("clicks",
             js_or (get (lookup "statistics" fields) "clicks") (VArr []));
           ("visits",
             js_or (get (lookup "statistics" fields) "visits") (VArr []));
           ("daily_visits",
             js_or (get (lookup "statistics" fields) "dailyVisits")
               (VObj []))]);
   ("admin_messages", js_or (lookup "adminMessages" fields) (VArr []));
   ("setup_page_enabled",
     VBool (strict_neq (lookup "setupPageEnabled" fields) (VBool false)))].

(** What [JSON.stringify] makes of an array element and of a property
    list. *)
Definition json_elem (x : value) : value :=
  match x with
  | VUndefined => VNull
  | _ => to_json x
  end.

Fixpoint json_props (ps : list (string * value)) : list (string * value) :=
  match ps with
  | [] => []
  | (k, VUndefined) :: ps' => json_props ps'
  | (k, x) :: ps' => (k, to_json x) :: json_props ps'
  end.

(** A field is filled in: never [null] or [undefined], the stored value
    when that is truthy, the default otherwise. *)
Definition filled (stored dflt got : value) : Prop :=
  nullish got = false /\
  (truthy stored = true -> got = stored) /\
  (truthy stored = false -> got = dflt).

(** ** On the reference store *)

Import Store.

(** The store serves: no fault is planned. *)
Definition serving (w : world browser) : Prop := plan (remote w) = [].

(** The table the store holds. *)
Definition table (w : world browser) : list value := app_data (remote w).

(** The state after an operation that sent [reqs] and left [rows]. *)
Definition after (c : client) (w w' : world browser)
    (reqs : list request) (rows : list value) : Prop :=
  ready c w' /\ serving w' /\ table w' = rows /\
  sent w' = (sent w ++ reqs)%list /\ now w' = now w.

(** The table is the singleton row, and its log is [msgs]. *)
Definition stored_log (w : world browser) (msgs : list value) : Prop :=
  exists cols,
    table w = [VObj cols] /\ lookup "id" cols = VNum 1 /\
    lookup "admin_messages" cols = VArr msgs.

(** The log that a load will find: that of the row, or none yet. *)
Definition log_is (w : world browser) (msgs : list value) : Prop :=
  (table w = [] /\ msgs = []) \/ stored_log w msgs.

(** The message built at time [t] (lines 227-233). *)
Definition message_at (t : Z) (message : value) : value :=
  VObj [("id", VStr (toString t));
        ("text", get message "text");
        ("type", js_or (get message "type") (VStr "info"));
        ("timestamp", VStr (toISOString browser t));
        ("active",
          VBool (strict_neq (get message "active") (VBool false)))].

(** The client can be initialised. *)
Definition configured (c : client) (w : world browser) : Prop :=
  exists w0, initSupabase browser w = (Ok c, w0).

(** The messages that the entries make. *)
Definition messages_at (entries : list (Z * value)) : list value :=
  map (fun e => message_at (fst e) (snd e)) entries.

(** The messages of the first row of the table. *)
Definition stored_messages (w : world browser) : list value :=
  match table w with
  | row :: _ =>
      match get row "admin_messages" with
      | VArr msgs => msgs
      | _ => []
      end
  | [] => []
  end.

(** A callback that notes its argument on the console. *)
Definition note (v : value) : M browser unit :=
  fun w => (Ok tt, log browser "callback" (UserError v) w).

(** A callback that throws. *)
Definition refuse (v : value) : M browser unit :=
  fun w => (Throw (UserError v), w).

(** A row with the given visits and messages. *)
Definition row_with (visits messages : list value) : value :=
  VObj [("id", VNum 1);
        ("links", VArr []);
        ("social_links", VObj [("discord", VStr ""); ("x", VStr "")]);
        ("admin_credentials", VNull);
        ("statistics",
          VObj [("clicks", VArr []); ("visits", VArr visits);
                ("daily_visits", VObj [])]);
        ("admin_messages", VArr messages);
        ("setup_page_enabled", VBool true)].

(** What other clients and the network do between two firings: the table
    is replaced, or the coming requests fail as planned. *)
Definition replace_table (rows : list value) (w : world browser)
  : world browser :=
  set_gateway browser
    ({| app_data := rows; plan := plan (remote w) |} : gateway browser) w.

Definition outage (faults : list (option fetch_result)) (w : world browser)
  : world browser :=
  set_gateway browser
    ({| app_data := app_data (remote w); plan := faults |} : gateway browser)
    w.

Definition five_visits : list value :=
  [VStr "v1"; VStr "v2"; VStr "v3"; VStr "v4"; VStr "v5"].

(** A page that has a cache object, on a store with faults planned and a
    [localStorage] with room for [quota] entries. *)
Definition cached_page (rows : list value)
    (faults : list (option fetch_result)) (quota : nat) : world browser :=
  set_DATA_CACHE browser
    {| cache_data := VNull; cache_lastLoad := 7;
       cache_lastSuccessfulSave := 0 |}
    (page rows faults quota).

Definition three_messages : list value :=
  [VObj [("id", VStr "1"); ("text", VStr "one")];
   VObj [("id", VStr "2"); ("text", VStr "two")];
   VObj [("id", VStr "3"); ("text", VStr "three")]].

(** Fifty-one messages, and a document that carries them. *)
Definition many_messages : list value :=
  map (fun i => VObj [("id", VStr (toString (Z.of_nat i)));
                      ("text", VStr "m")])
      (seq 0 51).

(** Fifty-five appends, one per millisecond. *)
Definition fifty_five : list (Z * value) :=
  map (fun i => (1700000000000 + Z.of_nat i,
                 VObj [("text", VStr (toString (Z.of_nat i)))]))
      (seq 0 55).

(** ** For the further properties *)

Section MoreVocabulary.
Variable E : Env.

(** [window.SUPABASE_CONFIG] is replaced (or removed). *)
Definition set_config (cfg : option config) (w : world E) : world E :=
  {| SUPABASE_CONFIG := cfg;
     supabaseClient := supabaseClient w;
     isSupabaseInitialized := isSupabaseInitialized w;
     remote := remote w;
     sent := sent w;
     DATA_CACHE := DATA_CACHE w;
     localStorage := localStorage w;
     console := console w;
     now := now w |}.

(** No client yet, and no configuration to make one from. *)
Definition unconfigured (w : world E) : Prop :=
  (isSupabaseInitialized w = false \/ supabaseClient w = None) /\
  match SUPABASE_CONFIG w with
  | None => True
  | Some cfg => url cfg = "" \/ anonKey cfg = ""
  end.

(** The response is one that [supabaseRequest] returns from. *)
Definition accepted (m : method) (response : fetch_result) : Prop :=
  exists status text body,
    response = Response status text body /\
    200 <= status <= 299 /\
    (m = DELETE \/ status = 204 \/ body <> None).

(** What [localStorage] holds after the entries were written in order, up
    to the first one it refused. *)
Fixpoint write_until_refused (entries : list (string * item))
    (st : storage E) : storage E :=
  match entries with
  | [] => st
  | (k, v) :: rest =>
      match setItem E k v st with
      | Some st' => write_until_refused rest st'
      | None => st
      end
  end.

(** The callback returns normally, whatever it is handed. *)
Definition always_returns (f : value -> M E unit) : Prop :=
  forall v w, exists w', f v w = (Ok tt, w').

(** Along the schedule, every load that succeeds shows the first visits of
    [all], as many as there are at that time. *)
Fixpoint shows_prefixes (cb : callback E) (all : list value)
    (schedule : list (world E -> world E)) (n : nat) (w : world E) : Prop :=
  match schedule with
  | [] => True
  | before :: rest =>
      match loadDataFromSupabase E (before w) with
      | (Ok data, _) => exists k, visits_of data = Ok (VArr (firstn k all))
      | (Throw _, _) => True
      end /\
      shows_prefixes cb all rest
        (fst (fst (newVisits_tick E cb n (before w))))
        (snd (newVisits_tick E cb n (before w)))
  end.

End MoreVocabulary.

Arguments unconfigured {E} w.
Arguments always_returns {E} f.
Arguments shows_prefixes {E} cb all schedule n w.

(** The columns of a document and of a row, and the columns of a row that
    the file reads. *)
Definition document_keys : list string :=
  ["links"; "socialLinks"; "adminCredentials"; "statistics"; "adminMessages";
   "setupPageEnabled"].

Definition row_keys : list string :=
  ["id"; "links"; "social_links"; "admin_credentials"; "statistics";
   "admin_messages"; "setup_page_enabled"].

Definition read_keys : list string :=
  ["links"; "social_links"; "admin_credentials"; "statistics";
   "admin_messages"; "setup_page_enabled"].

(** The check of [saveDataToSupabase] found a row. *)
Definition found (existing : option (list value)) : bool :=
  match existing with
  | Some (_ :: _) => true
  | _ => false
  end.

(** The table holds the one document, under [id] 1. *)
Definition one_document (w : world browser) : Prop :=
  exists cols, table w = [VObj cols] /\ lookup "id" cols = VNum 1.

(** The row that a save of the document writes, as the store keeps it. *)
Definition stored_fields (fields : list (string * value))
  : list (string * value) :=
  [("id", VNum 1);
   ("links", to_json (js_or (lookup "links" fields) (VArr [])));
   ("social_links",
     to_json (js_or (lookup "socialLinks" fields)
                (VObj [("discord", VStr ""); ("x", VStr "")])));
   ("admin_credentials",
     to_json (js_or (lookup "adminCredentials" fields) VNull));
   ("statistics",
     VObj [("clicks",
             to_json (js_or (get (lookup "statistics" fields) "clicks")
                        (VArr [])));
           ("visits",
             to_json (js_or (get (lookup "statistics" fields) "visits")
                        (VArr [])));
           ("daily_visits",
             to_json (js_or (get (lookup "statistics" fields) "dailyVisits")
                        (VObj [])))]);
   ("admin_messages",
     to_json (js_or (lookup "adminMessages" fields) (VArr [])));
   ("setup_page_enabled",
     VBool (strict_neq (lookup "setupPageEnabled" fields) (VBool false)))].

(** The operations of the file on the document, performed one after the
    other, whether they return or throw. *)
Inductive operation : Type :=
| Load
| Save (fields : list (string * value))
| AddMessage (message : value)
| DeleteMessage (messageId : value).

Definition perform (op : operation) (w : world browser) : world browser :=
  match op with
  | Load => snd (loadDataFromSupabase browser w)
  | Save fields => snd (saveDataToSupabase browser (VObj fields) w)
  | AddMessage message => snd (addAdminMessage browser message w)
  | DeleteMessage messageId => snd (deleteAdminMessage browser messageId w)
  end.

Definition perform_all (ops : list operation) (w : world browser)
  : world browser :=
  fold_left (fun w op => perform op w) ops w.

(** The document that a load makes of [row_with visits messages]. *)
Definition row_document (visits messages : list value) : value :=
  document (VArr []) (VObj [("discord", VStr ""); ("x", VStr "")]) VNull
    (VArr []) (VArr visits) (VObj []) (VArr messages) (VBool true).

(** * Lemmas *)

(** ** The field mapper *)

Lemma opt_prop_get (s : value) (k : string) : opt_prop s k = Ok (get s k).
Proof. destruct s; reflexivity. Qed.

Lemma nested_obj (cols : list (string * value)) (outer inner : string) :
  nested (VObj cols) outer inner = Ok (get (lookup outer cols) inner).
Proof. unfold nested; simpl. apply opt_prop_get. Qed.

Lemma js_or_truthy (a b : value) : truthy a = true -> js_or a b = a.
Proof. unfold js_or. intros ->. reflexivity. Qed.

Lemma js_or_falsy (a b : value) : truthy a = false -> js_or a b = b.
Proof. unfold js_or. intros ->. reflexivity. Qed.

Lemma truthy_not_nullish (v : value) : truthy v = true -> nullish v = false.
Proof. destruct v; simpl; congruence. Qed.

Lemma js_or_not_nullish (a b : value) :
  nullish b = false -> nullish (js_or a b) = false.
Proof.
  unfold js_or. destruct (truthy a) eqn:H; auto using truthy_not_nullish.
Qed.

Lemma js_or_idem (a d : value) : js_or (js_or a d) d = js_or a d.
Proof.
  unfold js_or. destruct (truthy a) eqn:Ha.
  - rewrite Ha. reflexivity.
  - destruct (truthy d); reflexivity.
Qed.

Lemma strict_neq_false_idem (v : value) :
  strict_neq (VBool (strict_neq v (VBool false))) (VBool false) =
  strict_neq v (VBool false).
Proof. destruct v as [| |[]| | | |]; reflexivity. Qed.

(** The mapper is total on a row that is an object, and its result is the
    object literal of the source. *)
Lemma toInternal_obj (cols : list (string * value)) :
  toInternal (VObj cols) =
  Ok (document
        (js_or (lookup "links" cols) (VArr []))
        (js_or (lookup "social_links" cols)
           (VObj [("discord", VStr ""); ("x", VStr "")]))
        (js_or (lookup "admin_credentials" cols) VNull)
        (js_or (get (lookup "statistics" cols) "clicks") (VArr []))
        (js_or (get (lookup "statistics" cols) "visits") (VArr []))
        (js_or (get (lookup "statistics" cols) "daily_visits") (VObj []))
        (js_or (lookup "admin_messages" cols) (VArr []))
        (VBool (strict_neq (lookup "setup_page_enabled" cols) (VBool false)))).
Proof.
  unfold toInternal. rewrite !nested_obj. reflexivity.
Qed.

Lemma toWire_obj (fields : list (string * value)) :
  toWire (VObj fields) = Ok (VObj (wire_fields fields)).
Proof.
  unfold toWire. rewrite !nested_obj. reflexivity.
Qed.

(** What the file writes for a row it has read: the row's truthy values, and
    the defaults elsewhere. *)
Lemma toWire_toInternal (cols : list (string * value)) :
  (let? d := toInternal (VObj cols) in toWire d) =
  Ok (VObj
    [("id", VNum 1);
     ("links", js_or (lookup "links" cols) (VArr []));
     ("social_links",
       js_or (lookup "social_links" cols)
         (VObj [("discord", VStr ""); ("x", VStr "")]));
     ("admin_credentials", js_or (lookup "admin_credentials" cols) VNull);
     ("statistics",
       VObj [("clicks",
               js_or (get (lookup "statistics" cols) "clicks") (VArr []));
             ("visits",
               js_or (get (lookup "statistics" cols) "visits") (VArr []));
             ("daily_visits",
               js_or (get (lookup "statistics" cols) "daily_visits")
                 (VObj []))]);
     ("admin_messages", js_or (lookup "admin_messages" cols) (VArr []));
     ("setup_page_enabled",
       VBool (strict_neq (lookup "setup_page_enabled" cols) (VBool false)))]).
Proof.
  rewrite toInternal_obj. unfold rbind, document. rewrite toWire_obj.
  unfold wire_fields.
  cbn [lookup String.eqb Ascii.eqb Bool.eqb get prop].
  rewrite !js_or_idem, strict_neq_false_idem. reflexivity.
Qed.

(** ** Frame properties of the REST helper *)

Section Frame.
Variable E : Env.

Lemma ready_init (c : client) (w : world E) :
  ready c w -> initSupabase E w = (Ok c, w).
Proof. intros [Hi Hc]. unfold initSupabase. rewrite Hi, Hc. reflexivity. Qed.

(** A successful initialisation leaves an initialised client and touches
    nothing else. *)
Lemma initSupabase_ok (c : client) (w w0 : world E) :
  initSupabase E w = (Ok c, w0) ->
  ready c w0 /\ remote w0 = remote w /\ sent w0 = sent w /\
  DATA_CACHE w0 = DATA_CACHE w /\ localStorage w0 = localStorage w /\
  console w0 = console w /\ now w0 = now w.
Proof.
  unfold initSupabase, ready.
  destruct (isSupabaseInitialized w) eqn:Hi;
    destruct (supabaseClient w) as [c'|] eqn:Hc;
    try (destruct (SUPABASE_CONFIG w) as [cfg|];
         [destruct (_ || _)|]);
    intros H; inversion H; subst; clear H; simpl; auto 10.
Qed.

Lemma initSupabase_throw (e : error) (w w0 : world E) :
  initSupabase E w = (Throw e, w0) -> w0 = w.
Proof.
  unfold initSupabase.
  destruct (isSupabaseInitialized w); destruct (supabaseClient w);
    try (destruct (SUPABASE_CONFIG w) as [cfg|];
         [destruct (_ || _)|]);
    intros H; inversion H; reflexivity.
Qed.

(** One request: the client is initialised, the request is handed to
    [fetch] and recorded, and the answer is read. *)
Lemma supabaseRequest_run m table data filters c (w w0 : world E) :
  initSupabase E w = (Ok c, w0) ->
  supabaseRequest E m table data filters w =
  (read_response m
     (fst (fetch E (build_request c m table data filters) (remote w))),
   set_remote E
     (snd (fetch E (build_request c m table data filters) (remote w)))
     (build_request c m table data filters) w0).
Proof.
  intros Hinit. unfold supabaseRequest, bind. rewrite Hinit.
  unfold do_fetch, lift.
  destruct (initSupabase_ok _ _ _ Hinit) as (_ & Hr & _). rewrite Hr.
  destruct (fetch E _ (remote w)) as [resp g]. cbn [fst snd].
  destruct (read_response m resp); reflexivity.
Qed.

(** Whatever its outcome, a request leaves the caches alone. *)
Lemma supabaseRequest_frame m table data filters (w w' : world E) r :
  supabaseRequest E m table data filters w = (r, w') ->
  DATA_CACHE w' = DATA_CACHE w /\ localStorage w' = localStorage w /\
  console w' = console w /\ now w' = now w.
Proof.
  destruct (initSupabase E w) as [[c|e] w0] eqn:Hinit.
  - rewrite (supabaseRequest_run _ _ _ _ _ _ _ Hinit).
    intros H; inversion H; subst; clear H. cbn.
    destruct (initSupabase_ok _ _ _ Hinit) as (_ & _ & _ & ? & ? & ? & ?).
    auto.
  - unfold supabaseRequest, bind. rewrite Hinit.
    intros H; inversion H; subst.
    rewrite (initSupabase_throw _ _ _ Hinit). auto.
Qed.

End Frame.

(** ** The synchroniser: error contract of [saveDataToSupabase] *)

Section Save.
Variable E : Env.

Lemma same_mirror_refl (w : world E) : same_mirror w w.
Proof. split; reflexivity. Qed.

Lemma same_mirror_trans (w1 w2 w3 : world E) :
  same_mirror w1 w2 -> same_mirror w2 w3 -> same_mirror w1 w3.
Proof. intros [A B] [C D]. split; congruence. Qed.

Lemma initSupabase_mirror (w w' : world E) r :
  initSupabase E w = (r, w') -> same_mirror w w'.
Proof.
  destruct r as [c|e]; intros H.
  - destruct (initSupabase_ok _ _ _ _ H) as (_ & _ & _ & ? & ? & _).
    split; assumption.
  - rewrite (initSupabase_throw _ _ _ _ H). apply same_mirror_refl.
Qed.

Lemma supabaseRequest_mirror m table data filters (w w' : world E) r :
  supabaseRequest E m table data filters w = (r, w') -> same_mirror w w'.
Proof.
  intros H. destruct (supabaseRequest_frame _ _ _ _ _ _ _ _ H) as (? & ? & _).
  split; assumption.
Qed.

Lemma write_row_mirror existing row (w w' : world E) r :
  write_row E existing row w = (r, w') -> same_mirror w w'.
Proof.
  unfold write_row. destruct existing as [[|x l]|];
    apply supabaseRequest_mirror.
Qed.

(** The in-memory cache is replaced when the page has one. *)
Lemma update_DATA_CACHE_run data (w : world E) :
  exists w', update_DATA_CACHE E data w = (Ok tt, w') /\
    DATA_CACHE w' =
      option_map (fun _ => {| cache_data := data;
                              cache_lastLoad := 0;
                              cache_lastSuccessfulSave := now w |})
                 (DATA_CACHE w) /\
    remote w' = remote w /\ sent w' = sent w /\ console w' = console w /\
    localStorage w' = localStorage w /\ now w' = now w /\
    (forall c, ready c w -> ready c w').
Proof.
  unfold update_DATA_CACHE. destruct (DATA_CACHE w) eqn:Hc.
  - eexists; split; [reflexivity|]. cbn. auto 10.
  - exists w. rewrite Hc. cbn. auto 10.
Qed.

(** The persisted cache never makes the save fail: whatever [setItem]
    does, the block ends normally. *)
Lemma update_localStorage_run data (w : world E) :
  exists w', update_localStorage E data w = (Ok tt, w') /\
    DATA_CACHE w' = DATA_CACHE w /\
    remote w' = remote w /\ sent w' = sent w /\ console w' = console w /\
    now w' = now w /\
    (forall c, ready c w -> ready c w').
Proof.
  unfold update_localStorage, try_catch, bind, Date_now,
    localStorage_setItem, ret.
  destruct (setItem E "lastDataSave" _ (localStorage w)) as [s1|];
    [|exists w; auto 10].
  cbn [localStorage set_localStorage].
  destruct (setItem E "cachedData" _ s1) as [s2|];
    [|eexists; split; [reflexivity|]; cbn; auto 10].
  cbn [localStorage set_localStorage].
  destruct (setItem E "cachedDataTime" _ s2) as [s3|];
    eexists; (split; [reflexivity|]); cbn; auto 10.
Qed.

(** A save that throws has not touched the mirror. *)
Lemma save_throw_mirror data (w w' : world E) e :
  saveDataToSupabase E data w = (Throw e, w') -> same_mirror w w'.
Proof.
  unfold saveDataToSupabase, try_catch, bind, lift.
  destruct (initSupabase E w) as [[c|e0] w0] eqn:Hinit.
  2:{ cbn. intros H; inversion H; subst.
      apply (initSupabase_mirror _ _ _ Hinit). }
  pose proof (initSupabase_mirror _ _ _ Hinit) as M0.
  destruct (toWire data) as [row|e0].
  2:{ cbn. intros H; inversion H; subst. exact M0. }
  destruct (supabaseRequest E GET "app_data" VNull id1 w0)
    as [[existing|e0] w1] eqn:Hcheck.
  2:{ cbn. intros H; inversion H; subst.
      apply (same_mirror_trans _ _ _ M0).
      apply (supabaseRequest_mirror _ _ _ _ _ _ _ Hcheck). }
  pose proof (supabaseRequest_mirror _ _ _ _ _ _ _ Hcheck) as M1.
  destruct (write_row E existing row w1) as [[r|e0] w2] eqn:Hwrite.
  2:{ cbn. intros H; inversion H; subst.
      apply (same_mirror_trans _ _ _ M0).
      apply (same_mirror_trans _ _ _ M1).
      apply (write_row_mirror _ _ _ _ _ Hwrite). }
  destruct (update_DATA_CACHE_run data w2) as (w3 & -> & _).
  destruct (update_localStorage_run data w3) as (w4 & -> & _).
  unfold ret. intros H; inversion H.
Qed.

(** A failure of the existence check is rethrown. *)
Lemma save_check_throws data row c (w w0 w1 : world E) e :
  initSupabase E w = (Ok c, w0) ->
  toWire data = Ok row ->
  supabaseRequest E GET "app_data" VNull id1 w0 = (Throw e, w1) ->
  saveDataToSupabase E data w =
  (Throw e, log E "❌ Erreur lors de la sauvegarde Supabase:" e w1).
Proof.
  intros Hinit Hrow Hcheck.
  unfold saveDataToSupabase, try_catch, bind, lift.
  rewrite Hinit, Hrow, Hcheck. reflexivity.
Qed.

(** A failure of the update or insert is rethrown. *)
Lemma save_write_throws data row c (w w0 w1 w2 : world E) existing e :
  initSupabase E w = (Ok c, w0) ->
  toWire data = Ok row ->
  supabaseRequest E GET "app_data" VNull id1 w0 = (Ok existing, w1) ->
  write_row E existing row w1 = (Throw e, w2) ->
  saveDataToSupabase E data w =
  (Throw e, log E "❌ Erreur lors de la sauvegarde Supabase:" e w2).
Proof.
  intros Hinit Hrow Hcheck Hwrite.
  unfold saveDataToSupabase, try_catch, bind, lift.
  rewrite Hinit, Hrow, Hcheck, Hwrite. reflexivity.
Qed.

(** After a successful write the save returns [true], whatever becomes of
    the mirror. *)
Lemma save_written data row c (w w0 w1 w2 : world E) existing r :
  initSupabase E w = (Ok c, w0) ->
  toWire data = Ok row ->
  supabaseRequest E GET "app_data" VNull id1 w0 = (Ok existing, w1) ->
  write_row E existing row w1 = (Ok r, w2) ->
  exists w',
    saveDataToSupabase E data w = (Ok true, w') /\
    DATA_CACHE w' =
      option_map (fun _ => {| cache_data := data;
                              cache_lastLoad := 0;
                              cache_lastSuccessfulSave := now w |})
                 (DATA_CACHE w) /\
    remote w' = remote w2 /\ sent w' = sent w2 /\ console w' = console w2 /\
    now w' = now w2 /\
    (forall c', ready c' w2 -> ready c' w').
Proof.
  intros Hinit Hrow Hcheck Hwrite.
  unfold saveDataToSupabase, try_catch, bind, lift.
  rewrite Hinit, Hrow, Hcheck, Hwrite.
  destruct (update_DATA_CACHE_run data w2)
    as (w3 & -> & Hc3 & Hr3 & Hs3 & Hl3 & _ & Hn3 & Hrd3).
  destruct (update_localStorage_run data w3)
    as (w4 & -> & Hc4 & Hr4 & Hs4 & Hl4 & Hn4 & Hrd4).
  exists w4. split; [reflexivity|].
  destruct (initSupabase_ok _ _ _ _ Hinit) as (_ & _ & _ & D0 & _ & _ & N0).
  destruct (supabaseRequest_frame _ _ _ _ _ _ _ _ Hcheck)
    as (D1 & _ & _ & N1).
  assert (D2 : DATA_CACHE w2 = DATA_CACHE w1 /\ now w2 = now w1).
  { unfold write_row in Hwrite.
    destruct existing as [[|x l]|];
      destruct (supabaseRequest_frame _ _ _ _ _ _ _ _ Hwrite)
        as (? & _ & _ & ?); auto. }
  destruct D2 as [D2 N2].
  split; [rewrite Hc4, Hc3, D2, D1, D0, N2, N1, N0; reflexivity|].
  split; [congruence|]. split; [congruence|]. split; [congruence|].
  split; [congruence|].
  intros c' Hc'. auto.
Qed.
End Save.

(** ** The pollers *)

Section Pollers.
Variable E : Env.

Lemma forEach_returns (f : value -> M E unit) (l : list value) (w : world E) :
  returns_on f l ->
  exists w', forEach E (Some f) l w = (Ok tt, l, w').
Proof.
  revert w. induction l as [|v l IH]; intros w H.
  - exists w. reflexivity.
  - destruct (H v w (or_introl eq_refl)) as [w1 Hv].
    destruct (IH w1) as [w2 Hl].
    { intros x wx Hx. apply H. right. exact Hx. }
    exists w2. simpl. rewrite Hv, Hl. reflexivity.
Qed.

(** The arguments of the invocations are an initial part of the list: the
    callback is invoked in order, until one invocation throws. *)
(** The callback is applied to the elements in order, each in the state
    the one before left. *)
Lemma forEach_delivers (f : value -> M E unit) (l : list value) (w : world E) :
  returns_on f l ->
  forEach E (Some f) l w = (Ok tt, l, deliver f l w).
Proof.
  revert w. induction l as [|v l IH]; intros w H; [reflexivity|].
  destruct (H v w (or_introl eq_refl)) as [w1 Hv].
  cbn [forEach deliver]. rewrite Hv. cbn [snd].
  rewrite IH; [reflexivity|].
  intros x wx Hx. apply H. right. exact Hx.
Qed.

(** An invocation that throws is the last one. *)
Lemma forEach_throws_at (f : value -> M E unit) (pre post : list value)
    (x : value) (e : error) (w : world E) :
  returns_on f pre ->
  fst (f x (deliver f pre w)) = Throw e ->
  forEach E (Some f) (pre ++ x :: post) w =
    (Throw e, (pre ++ [x])%list, snd (f x (deliver f pre w))).
Proof.
  revert w. induction pre as [|v pre IH]; intros w Hpre Hx.
  - cbn [app forEach deliver] in *.
    destruct (f x w) as [[u|e'] w3]; cbn [fst snd] in *;
      [discriminate Hx|].
    inversion Hx; subst. reflexivity.
  - destruct (Hpre v w (or_introl eq_refl)) as [w1 Hv].
    cbn [app forEach deliver] in *. rewrite Hv in *. cbn [snd] in *.
    rewrite IH; [reflexivity| |exact Hx].
    intros y wy Hy. apply Hpre. right. exact Hy.
Qed.

Lemma forEach_prefix (cb : callback E) (l : list value) (w : world E) :
  exists rest, l = (snd (fst (forEach E cb l w)) ++ rest)%list \/
               cb = None.
Proof.
  destruct cb as [f|]; [|exists []; right; reflexivity].
  revert w. induction l as [|v l IH]; intros w.
  - exists []. left. reflexivity.
  - simpl. destruct (f v w) as [[[]|e] w1].
    + destruct (IH w1) as [rest [H|H]]; [|discriminate].
      destruct (forEach E (Some f) l w1) as [[r fired] w2]. cbn in *.
      exists rest. left. congruence.
    + exists l. left. reflexivity.
Qed.

Lemma visits_of_array (data : value) (visits : list value) :
  get (get data "statistics") "visits" = VArr visits ->
  visits_of data = Ok (VArr visits).
Proof.
  unfold visits_of, nested, get.
  destruct (prop data "statistics") as [s|e] eqn:Hs; cbn.
  - rewrite opt_prop_get. unfold get. intros ->. reflexivity.
  - intros H; discriminate H.
Qed.

(** A tick whose load fails: nothing but the log entry. *)
Lemma newVisits_tick_load_fails cb n (w w1 : world E) e :
  loadDataFromSupabase E w = (Throw e, w1) ->
  newVisits_tick E cb n w =
  ((n, []), log E "Erreur lors de l'écoute des visites:" e w1).
Proof.
  intros H. unfold newVisits_tick, newVisits_try. rewrite H. reflexivity.
Qed.

Lemma adminMessages_tick_load_fails cb last (w w1 : world E) e :
  loadDataFromSupabase E w = (Throw e, w1) ->
  adminMessages_tick E cb last w =
  ((last, []), log E "Erreur lors de l'écoute des messages:" e w1).
Proof.
  intros H. unfold adminMessages_tick, adminMessages_try. rewrite H.
  reflexivity.
Qed.

(** The counter of the visit poller never decreases in a tick. *)
Lemma newVisits_tick_monotone cb n (w : world E) :
  (n <= fst (fst (newVisits_tick E cb n w)))%nat.
Proof.
  unfold newVisits_tick, newVisits_try.
  destruct (loadDataFromSupabase E w) as [[data|e] w1];
    [|cbn; lia].
  destruct (visits_of data) as [v|e]; [|cbn; lia].
  destruct v as [| |b|z|s|visits|ps];
    try (destruct (length_exceeds E _ n) as [[|]|e]; cbn; lia).
  destruct (Nat.ltb n (List.length visits)) eqn:Hlt; [|cbn; lia].
  apply Nat.ltb_lt in Hlt.
  destruct (forEach E cb (skipn n visits) w1) as [[[[]|e] fired] w2];
    cbn; lia.
Qed.

(** A tick that sees no more visits than the counter: no invocation, same
    counter. *)
Lemma newVisits_tick_quiet cb n (w w1 : world E) data :
  loadDataFromSupabase E w = (Ok data, w1) ->
  (seen_visits data <= n)%nat ->
  fst (newVisits_tick E cb n w) = (n, []).
Proof.
  intros Hload Hle. unfold newVisits_tick, newVisits_try. rewrite Hload.
  unfold seen_visits in Hle.
  destruct (visits_of data) as [v|e]; [|reflexivity].
  destruct v as [| |b|z|s|visits|ps];
    try (destruct (length_exceeds E _ n) as [[|]|e]; reflexivity).
  apply Nat.ltb_ge in Hle. rewrite Hle. reflexivity.
Qed.

Lemma poll_cons {S : Type} (tick : S -> world E -> (S * list value) * world E)
    before rest (s : S) (w : world E) :
  poll E tick (before :: rest) s w =
  ((fst (fst (poll E tick rest (fst (fst (tick s (before w))))
                (snd (tick s (before w))))),
    (snd (fst (tick s (before w))) ++
     snd (fst (poll E tick rest (fst (fst (tick s (before w))))
                 (snd (tick s (before w))))))%list),
   snd (poll E tick rest (fst (fst (tick s (before w))))
          (snd (tick s (before w))))).
Proof.
  simpl. destruct (tick s (before w)) as [[s1 f1] w1]. cbn.
  destruct (poll E tick rest s1 w1) as [[s2 f2] w2]. reflexivity.
Qed.

Lemma poll_newVisits_monotone cb schedule n (w : world E) :
  (n <= fst (fst (poll E (newVisits_tick E cb) schedule n w)))%nat.
Proof.
  revert n w. induction schedule as [|before rest IH]; intros n w.
  - cbn. lia.
  - rewrite poll_cons. cbn [fst snd].
    eapply Nat.le_trans; [apply (newVisits_tick_monotone cb n (before w))|].
    apply IH.
Qed.

Lemma poll_newVisits_quiet cb schedule n (w : world E) :
  never_beyond cb n schedule n w ->
  fst (poll E (newVisits_tick E cb) schedule n w) = (n, []).
Proof.
  revert w. induction schedule as [|before rest IH]; intros w H.
  - reflexivity.
  - rewrite poll_cons. cbn [fst snd]. cbn [never_beyond] in H.
    destruct H as [Hseen Hrest].
    assert (Htick : fst (newVisits_tick E cb n (before w)) = (n, [])).
    { destruct (loadDataFromSupabase E (before w)) as [[data|e] w1] eqn:Hl.
      - apply (newVisits_tick_quiet cb n _ _ _ Hl Hseen).
      - rewrite (newVisits_tick_load_fails cb n _ _ _ Hl). reflexivity. }
    rewrite Htick in *. cbn [fst snd] in *.
    specialize (IH _ Hrest).
    destruct (poll E (newVisits_tick E cb) rest n _) as [[s2 f2] w2].
    cbn in *. congruence.
Qed.
End Pollers.

(** ** The synchroniser: [loadDataFromSupabase] *)

Section Load.
Variable E : Env.

(** The read found a row: the first one is mapped. *)
Lemma load_existing (w w1 : world E) (cols : list (string * value)) rest :
  supabaseRequest E GET "app_data" VNull [] w =
    (Ok (Some (VObj cols :: rest)), w1) ->
  exists doc, toInternal (VObj cols) = Ok doc /\
              loadDataFromSupabase E w = (Ok doc, w1).
Proof.
  intros H. eexists. split; [apply toInternal_obj|].
  unfold loadDataFromSupabase, try_catch, bind, lift. rewrite H.
  rewrite toInternal_obj. reflexivity.
Qed.

(** The read found nothing: the default row is created, and the default
    document returned. *)
Lemma load_missing (w w1 w2 : world E) found created :
  supabaseRequest E GET "app_data" VNull [] w = (Ok found, w1) ->
  found = None \/ found = Some [] ->
  supabaseRequest E POST "app_data" defaultData [] w1 = (Ok created, w2) ->
  loadDataFromSupabase E w = (Ok defaultDocument, w2).
Proof.
  intros Hget Hnone Hpost.
  unfold loadDataFromSupabase, try_catch, bind. rewrite Hget.
  destruct Hnone as [-> | ->]; rewrite Hpost; reflexivity.
Qed.

Lemma load_read_throws (w w1 : world E) e :
  supabaseRequest E GET "app_data" VNull [] w = (Throw e, w1) ->
  loadDataFromSupabase E w =
  (Throw e,
   log E "❌ Erreur lors du chargement des données Supabase:" e w1).
Proof.
  intros H. unfold loadDataFromSupabase, try_catch, bind. rewrite H.
  reflexivity.
Qed.
End Load.

(** ** JSON values *)

Lemma to_json_arr (l : list value) : to_json (VArr l) = VArr (map json_elem l).
Proof. reflexivity. Qed.

Lemma to_json_obj (ps : list (string * value)) :
  to_json (VObj ps) = VObj (json_props ps).
Proof.
  reflexivity.
Qed.

Lemma json_props_defined k v ps :
  v <> VUndefined ->
  json_props ((k, v) :: ps) = (k, to_json v) :: json_props ps.
Proof. destruct v; intros H; try reflexivity. congruence. Qed.

Lemma json_obj (ps : list (string * value)) :
  json (VObj ps) = forallb (fun kv => json (snd kv)) ps.
Proof.
  cbn [json]. induction ps as [|[k x] ps IH]; [reflexivity|].
  cbn [forallb snd]. rewrite <- IH. reflexivity.
Qed.

(** Serialising a value that has no [undefined] inside gives it back. *)
Lemma to_json_json (v : value) : json v = true -> to_json v = v.
Proof.
  induction v as [| | | | |l IH|ps IH] using value_deep_ind;
    intros H; try reflexivity.
  - rewrite to_json_arr. f_equal. cbn [json] in H.
    induction IH as [|x l Hx _ IHl]; [reflexivity|].
    cbn [forallb] in H. apply andb_prop in H. destruct H as [H1 H2].
    cbn [map]. rewrite (IHl H2). f_equal.
    destruct x; try discriminate H1; apply (Hx H1).
  - rewrite to_json_obj. f_equal. rewrite json_obj in H.
    induction IH as [|[k x] ps Hx _ IHps]; [reflexivity|].
    cbn [forallb snd] in H, Hx. apply andb_prop in H. destruct H as [H1 H2].
    destruct x; try discriminate H1;
      cbn [json_props]; rewrite (IHps H2); rewrite (Hx H1); reflexivity.
Qed.

(** What is serialised has no [undefined] inside. *)
Lemma json_to_json (v : value) : v <> VUndefined -> json (to_json v) = true.
Proof.
  induction v as [| | | | |l IH|ps IH] using value_deep_ind;
    intros H; try reflexivity.
  - congruence.
  - rewrite to_json_arr. cbn [json]. clear H.
    induction IH as [|x l Hx _ IHl]; [reflexivity|].
    cbn [map forallb]. rewrite IHl, andb_true_r.
    destruct x; try reflexivity; apply Hx; discriminate.
  - rewrite to_json_obj, json_obj. clear H.
    induction IH as [|[k x] ps Hx _ IHps]; [reflexivity|].
    cbn [snd] in Hx.
    destruct x; cbn [json_props]; try exact IHps;
      cbn [forallb snd]; rewrite IHps, andb_true_r;
      try reflexivity; apply Hx; discriminate.
Qed.

Lemma map_json_elem (l : list value) :
  forallb json l = true -> map json_elem l = l.
Proof.
  intros H. pose proof (to_json_json (VArr l) H) as E.
  rewrite to_json_arr in E. congruence.
Qed.

(** ** The file against the reference store *)

Section OnStore.

Lemma filter_all {A} (f : A -> bool) (l : list A) :
  (forall x, In x l -> f x = true) -> filter f l = l.
Proof.
  induction l as [|x l IH]; intros H; [reflexivity|].
  cbn. rewrite (H x (or_introl eq_refl)). f_equal.
  apply IH. intros y Hy. apply H. right. exact Hy.
Qed.

Lemma request_served m tbl d f c (w w0 : world browser) :
  initSupabase browser w = (Ok c, w0) ->
  serving w ->
  supabaseRequest browser m tbl d f w =
  (read_response m
     (fst (serve (build_request c m tbl d f) (table w))),
   set_remote browser
     {| app_data := snd (serve (build_request c m tbl d f) (table w));
        plan := [] |}
     (build_request c m tbl d f) w0).
Proof.
  intros Hinit Hplan.
  rewrite (supabaseRequest_run _ _ _ _ _ _ _ _ Hinit).
  cbn [fetch browser]. unfold store_fetch, table.
  unfold serving in Hplan. rewrite Hplan.
  destruct (serve _ (app_data (remote w))). reflexivity.
Qed.

Lemma after_request c (w w0 : world browser) g r :
  initSupabase browser w = (Ok c, w0) ->
  after c w
    (set_remote browser {| app_data := g; plan := [] |} r w0) [r] g.
Proof.
  intros Hinit.
  destruct (initSupabase_ok _ _ _ _ Hinit)
    as (Hr & _ & Hs & _ & _ & _ & Hn).
  repeat split; try apply Hr; [|exact Hn]. cbn. rewrite Hs. reflexivity.
Qed.

Lemma after_trans c (w w1 w2 : world browser) r1 r2 g1 g2 :
  after c w w1 r1 g1 -> after c w1 w2 r2 g2 ->
  after c w w2 (r1 ++ r2)%list g2.
Proof.
  intros (_ & _ & _ & S1 & N1) (R & P & T & S2 & N2).
  repeat split; try apply R; auto; [|congruence].
  rewrite S2, S1, app_assoc. reflexivity.
Qed.

(** What the store answers to the requests the file sends. *)
Lemma serve_read_all c rows :
  serve (build_request c GET "app_data" VNull []) rows =
  (Response 200 "" (Some rows), rows).
Proof.
  unfold serve, build_request. cbn [req_table req_method req_filters].
  change (String.eqb "app_data" "app_data") with true. cbn [negb].
  rewrite filter_all; [reflexivity|]. reflexivity.
Qed.

Lemma matches_id1 cols :
  lookup "id" cols = VNum 1 -> matches id1 (VObj cols) = true.
Proof. intros H. unfold matches, id1. cbn. rewrite H. reflexivity. Qed.

Lemma serve_check c cols :
  lookup "id" cols = VNum 1 ->
  serve (build_request c GET "app_data" VNull id1) [VObj cols] =
  (Response 200 "" (Some [VObj cols]), [VObj cols]).
Proof.
  intros H. unfold serve, build_request.
  cbn [req_table req_method req_filters].
  change (String.eqb "app_data" "app_data") with true. cbn [negb filter].
  rewrite (matches_id1 _ H). reflexivity.
Qed.

Lemma serve_create c cols rows :
  serve (build_request c POST "app_data" (VObj cols) []) rows =
  (Response 201 "" (Some [to_json (VObj cols)]),
   (rows ++ [to_json (VObj cols)])%list).
Proof. reflexivity. Qed.

Lemma serve_update c body cols :
  lookup "id" cols = VNum 1 ->
  serve (build_request c PATCH "app_data" (VObj body) id1) [VObj cols] =
  (Response 200 "" (Some [patch_row (to_json (VObj body)) (VObj cols)]),
   [patch_row (to_json (VObj body)) (VObj cols)]).
Proof.
  intros H. unfold serve, build_request.
  cbn [req_table req_method req_filters req_body truthy carries_body andb].
  change (String.eqb "app_data" "app_data") with true.
  cbn [negb filter map].
  rewrite (matches_id1 _ H). reflexivity.
Qed.

(** Reading the whole table. *)
Lemma store_read_all c (w w0 : world browser) :
  initSupabase browser w = (Ok c, w0) -> serving w ->
  exists w1,
    supabaseRequest browser GET "app_data" VNull [] w =
      (Ok (Some (table w)), w1) /\
    after c w w1 [build_request c GET "app_data" VNull []] (table w).
Proof.
  intros Hinit Hplan. eexists. split.
  - rewrite (request_served _ _ _ _ _ _ _ Hinit Hplan).
    rewrite serve_read_all. reflexivity.
  - cbn [snd]. apply (after_request _ _ _ _ _ Hinit).
Qed.

(** The existence check on a table whose only row has [id] 1. *)
Lemma store_check_found c (w w0 : world browser) cols :
  initSupabase browser w = (Ok c, w0) -> serving w ->
  table w = [VObj cols] -> lookup "id" cols = VNum 1 ->
  exists w1,
    supabaseRequest browser GET "app_data" VNull id1 w =
      (Ok (Some [VObj cols]), w1) /\
    after c w w1 [build_request c GET "app_data" VNull id1] [VObj cols].
Proof.
  intros Hinit Hplan Htab Hid. eexists. split.
  - rewrite (request_served _ _ _ _ _ _ _ Hinit Hplan). rewrite Htab.
    rewrite (serve_check _ _ Hid). reflexivity.
  - cbn [snd]. apply (after_request _ _ _ _ _ Hinit).
Qed.

Lemma store_check_empty c (w w0 : world browser) :
  initSupabase browser w = (Ok c, w0) -> serving w -> table w = [] ->
  exists w1,
    supabaseRequest browser GET "app_data" VNull id1 w =
      (Ok (Some []), w1) /\
    after c w w1 [build_request c GET "app_data" VNull id1] [].
Proof.
  intros Hinit Hplan Htab. eexists. split.
  - rewrite (request_served _ _ _ _ _ _ _ Hinit Hplan). rewrite Htab.
    reflexivity.
  - cbn [snd]. apply (after_request _ _ _ _ _ Hinit).
Qed.

(** Creating a row. *)
Lemma store_create c (w w0 : world browser) cols :
  initSupabase browser w = (Ok c, w0) -> serving w ->
  exists w1,
    supabaseRequest browser POST "app_data" (VObj cols) [] w =
      (Ok (Some [to_json (VObj cols)]), w1) /\
    after c w w1 [build_request c POST "app_data" (VObj cols) []]
      (table w ++ [to_json (VObj cols)])%list.
Proof.
  intros Hinit Hplan. eexists. split.
  - rewrite (request_served _ _ _ _ _ _ _ Hinit Hplan).
    rewrite serve_create. reflexivity.
  - cbn [snd]. apply (after_request _ _ _ _ _ Hinit).
Qed.

(** Updating the only row. *)
Lemma store_update c (w w0 : world browser) cols body :
  initSupabase browser w = (Ok c, w0) -> serving w ->
  table w = [VObj cols] -> lookup "id" cols = VNum 1 ->
  exists w1,
    supabaseRequest browser PATCH "app_data" (VObj body) id1 w =
      (Ok (Some [patch_row (to_json (VObj body)) (VObj cols)]), w1) /\
    after c w w1 [build_request c PATCH "app_data" (VObj body) id1]
      [patch_row (to_json (VObj body)) (VObj cols)].
Proof.
  intros Hinit Hplan Htab Hid. eexists. split.
  - rewrite (request_served _ _ _ _ _ _ _ Hinit Hplan). rewrite Htab.
    rewrite (serve_update _ _ _ Hid). reflexivity.
  - cbn [snd]. apply (after_request _ _ _ _ _ Hinit).
Qed.

Lemma init_after c (w w0 : world browser) :
  initSupabase browser w = (Ok c, w0) -> serving w ->
  after c w w0 [] (table w).
Proof.
  intros Hinit Hplan.
  destruct (initSupabase_ok _ _ _ _ Hinit)
    as (Hr & Hg & Hs & _ & _ & _ & Hn).
  unfold after, serving, table in *. rewrite Hg, Hs, app_nil_r. auto.
Qed.

(** Loading from a table that has a row. *)
Lemma store_load_existing c (w w0 : world browser) cols rest :
  initSupabase browser w = (Ok c, w0) -> serving w ->
  table w = VObj cols :: rest ->
  exists doc w1,
    toInternal (VObj cols) = Ok doc /\
    loadDataFromSupabase browser w = (Ok doc, w1) /\
    after c w w1 [build_request c GET "app_data" VNull []] (table w).
Proof.
  intros Hinit Hplan Htab.
  destruct (store_read_all _ _ _ Hinit Hplan) as (w1 & Hget & Haft).
  rewrite Htab in Hget at 1.
  destruct (load_existing _ _ _ _ _ Hget) as (doc & Hdoc & Hload).
  exists doc, w1. auto.
Qed.

(** Loading from an empty table creates the default row. *)
Lemma store_load_empty c (w w0 : world browser) :
  initSupabase browser w = (Ok c, w0) -> serving w -> table w = [] ->
  exists w2,
    loadDataFromSupabase browser w = (Ok defaultDocument, w2) /\
    after c w w2
      [build_request c GET "app_data" VNull [];
       build_request c POST "app_data" defaultData []]
      [defaultData].
Proof.
  intros Hinit Hplan Htab.
  destruct (store_read_all _ _ _ Hinit Hplan) as (w1 & Hget & Haft).
  rewrite Htab in Hget, Haft.
  pose proof Haft as (Hr1 & Hp1 & Ht1 & _ & _).
  destruct (store_create _ _ _ [("id", VNum 1);
        ("links", VArr []);
        ("social_links", VObj [("discord", VStr ""); ("x", VStr "")]);
        ("admin_credentials", VNull);
        ("statistics",
          VObj [("clicks", VArr []); ("visits", VArr []);
                ("daily_visits", VObj [])]);
        ("admin_messages", VArr []);
        ("setup_page_enabled", VBool true)] (ready_init _ _ _ Hr1) Hp1)
    as (w2 & Hpost & Haft2).
  fold defaultData in Hpost, Haft2. rewrite Ht1 in Haft2.
  exists w2. split.
  - apply (load_missing _ _ _ _ _ _ Hget (or_intror eq_refl) Hpost).
  - apply (after_trans _ _ _ _ _ _ _ _ Haft Haft2).
Qed.

(** Saving over the only row, which has [id] 1: the row is patched. *)
Lemma store_save_update c (w w0 : world browser) fields cols :
  initSupabase browser w = (Ok c, w0) -> serving w ->
  table w = [VObj cols] -> lookup "id" cols = VNum 1 ->
  exists w',
    saveDataToSupabase browser (VObj fields) w = (Ok true, w') /\
    after c w w'
      [build_request c GET "app_data" VNull id1;
       build_request c PATCH "app_data" (VObj (wire_fields fields)) id1]
      [patch_row (to_json (VObj (wire_fields fields))) (VObj cols)].
Proof.
  intros Hinit Hplan Htab Hid.
  pose proof (init_after _ _ _ Hinit Hplan) as A0.
  pose proof A0 as (Hr0 & Hp0 & Ht0 & _ & _). rewrite Htab in Ht0.
  destruct (store_check_found _ _ _ _ (ready_init _ _ _ Hr0) Hp0 Ht0 Hid)
    as (w1 & Hcheck & A1).
  pose proof A1 as (Hr1 & Hp1 & Ht1 & _ & _).
  destruct (store_update _ _ _ _ (wire_fields fields)
              (ready_init _ _ _ Hr1) Hp1 Ht1 Hid)
    as (w2 & Hwrite & A2).
  destruct (save_written _ (VObj fields) _ _ _ _ _ _ _ _
              Hinit (toWire_obj fields) Hcheck Hwrite)
    as (w' & Hsave & _ & Hg & Hs & _ & Hn & Hrd).
  exists w'. split; [exact Hsave|].
  pose proof (after_trans _ _ _ _ _ _ _ _
                (after_trans _ _ _ _ _ _ _ _ A0 A1) A2)
    as (R & P & T & S & N).
  unfold after, serving, table in *. rewrite Hg, Hs, Hn. auto.
Qed.

(** Saving into an empty table: the row is created. *)
Lemma store_save_create c (w w0 : world browser) fields :
  initSupabase browser w = (Ok c, w0) -> serving w -> table w = [] ->
  exists w',
    saveDataToSupabase browser (VObj fields) w = (Ok true, w') /\
    after c w w'
      [build_request c GET "app_data" VNull id1;
       build_request c POST "app_data" (VObj (wire_fields fields)) []]
      [to_json (VObj (wire_fields fields))].
Proof.
  intros Hinit Hplan Htab.
  pose proof (init_after _ _ _ Hinit Hplan) as A0.
  pose proof A0 as (Hr0 & Hp0 & Ht0 & _ & _). rewrite Htab in Ht0.
  destruct (store_check_empty _ _ _ (ready_init _ _ _ Hr0) Hp0 Ht0)
    as (w1 & Hcheck & A1).
  pose proof A1 as (Hr1 & Hp1 & Ht1 & _ & _).
  destruct (store_create _ _ _ (wire_fields fields)
              (ready_init _ _ _ Hr1) Hp1)
    as (w2 & Hwrite & A2).
  destruct (save_written _ (VObj fields) _ _ _ _ _ _ _ _
              Hinit (toWire_obj fields) Hcheck Hwrite)
    as (w' & Hsave & _ & Hg & Hs & _ & Hn & Hrd).
  exists w'. split; [exact Hsave|].
  rewrite Ht1 in A2.
  pose proof (after_trans _ _ _ _ _ _ _ _
                (after_trans _ _ _ _ _ _ _ _ A0 A1) A2)
    as (R & P & T & S & N).
  unfold after, serving, table in *. rewrite Hg, Hs, Hn. auto.
Qed.

Lemma lookup_assign k k' v ps :
  lookup k (assign k' v ps) = if String.eqb k k' then v else lookup k ps.
Proof.
  induction ps as [|[k0 v0] ps IH]; cbn [assign lookup].
  - destruct (String.eqb k k'); reflexivity.
  - destruct (String.eqb k' k0) eqn:E0; cbn [lookup].
    + apply String.eqb_eq in E0. subst k0.
      destruct (String.eqb k k'); reflexivity.
    + rewrite IH. destruct (String.eqb k k') eqn:E1; [|reflexivity].
      apply String.eqb_eq in E1. subst k'. rewrite E0. reflexivity.
Qed.

Lemma js_or_defined a d : d <> VUndefined -> js_or a d <> VUndefined.
Proof.
  unfold js_or. destruct (truthy a) eqn:H; [|auto].
  intros _ ->. discriminate H.
Qed.

(** The body sent for a document: every column is there, serialised. *)
Lemma wire_json fields :
  exists body,
    to_json (VObj (wire_fields fields)) = VObj body /\
    map fst body = map fst (wire_fields fields) /\
    lookup "id" body = VNum 1 /\
    lookup "admin_messages" body =
      to_json (js_or (lookup "adminMessages" fields) (VArr [])).
Proof.
  eexists. split.
  - rewrite to_json_obj. unfold wire_fields.
    rewrite !json_props_defined
      by (try apply js_or_defined; discriminate).
    reflexivity.
  - repeat split.
Qed.

(** The row after the update: [id] stays 1, the messages are those of the
    document. *)
Lemma patched_row fields cols :
  exists cols',
    patch_row (to_json (VObj (wire_fields fields))) (VObj cols) =
      VObj cols' /\
    lookup "id" cols' = VNum 1 /\
    lookup "admin_messages" cols' =
      to_json (js_or (lookup "adminMessages" fields) (VArr [])).
Proof.
  eexists. split.
  - rewrite to_json_obj. unfold wire_fields.
    rewrite !json_props_defined
      by (try apply js_or_defined; discriminate).
    cbn [json_props patch_row fold_left fst snd]. reflexivity.
  - rewrite !lookup_assign. split; reflexivity.
Qed.

(** *** The message log on the store *)

Lemma prop_get v k : nullish v = false -> prop v k = Ok (get v k).
Proof. destruct v; intros H; try discriminate H; reflexivity. Qed.

Lemma newMessage_run message (w : world browser) :
  nullish message = false ->
  newMessage browser message w = (Ok (message_at (now w) message), w).
Proof.
  intros H. unfold newMessage, bind, Date_now, lift, ret.
  rewrite !(prop_get _ _ H). reflexivity.
Qed.

Lemma forallb_skipn {A} (f : A -> bool) n (l : list A) :
  forallb f l = true -> forallb f (skipn n l) = true.
Proof.
  intros H. rewrite forallb_forall in *. intros x Hx. apply H.
  rewrite <- (firstn_skipn n l). apply in_or_app. right. exact Hx.
Qed.

Lemma forallb_filter_keeps {A} (f g : A -> bool) (l : list A) :
  forallb f l = true -> forallb f (filter g l) = true.
Proof.
  intros H. rewrite forallb_forall in *. intros x Hx. apply H.
  apply filter_In in Hx. apply Hx.
Qed.

(** [slice(-50)] after the length test is [slice(-50)] outright. *)
Lemma keep_last (k : nat) (l : list value) :
  (if Nat.ltb k (List.length l) then slice_last k l else l) =
  slice_last k l.
Proof.
  destruct (Nat.ltb k (List.length l)) eqn:H; [reflexivity|].
  apply Nat.ltb_ge in H. unfold slice_last.
  replace (List.length l - k)%nat with 0%nat by lia. reflexivity.
Qed.

Lemma slice_last_length (k : nat) (l : list value) :
  (List.length (slice_last k l) <= k)%nat.
Proof. unfold slice_last. rewrite length_skipn. lia. Qed.

Lemma slice_last_map (f : value -> value) k l :
  map f (slice_last k l) = slice_last k (map f l).
Proof. unfold slice_last. rewrite skipn_map, length_map. reflexivity. Qed.

(** The filter of [deleteAdminMessage] on messages none of which is
    [null]. *)
Lemma filter_list_other_id messageId (l : list value) :
  forallb (fun m => negb (nullish m)) l = true ->
  filter_list (other_id messageId) l =
  Ok (filter (fun m => strict_neq (get m "id") messageId) l).
Proof.
  induction l as [|m l IH]; intros H; [reflexivity|].
  cbn [forallb] in H. apply andb_prop in H. destruct H as [Hm Hl].
  cbn [filter_list filter]. unfold other_id at 1.
  rewrite (prop_get m "id") by (destruct (nullish m); [discriminate|auto]).
  cbn [rbind]. rewrite (IH Hl). reflexivity.
Qed.

(** What a load finds, in both states of the table. *)
Lemma store_load c (w w0 : world browser) msgs :
  initSupabase browser w = (Ok c, w0) -> serving w -> log_is w msgs ->
  exists links social creds clicks visits daily enabled w1,
    loadDataFromSupabase browser w =
      (Ok (document links social creds clicks visits daily (VArr msgs)
             enabled), w1) /\
    ready c w1 /\ serving w1 /\ stored_log w1 msgs /\ now w1 = now w.
Proof.
  intros Hinit Hplan [[Htab ->]|(cols & Htab & Hid & Hmsgs)].
  - destruct (store_load_empty _ _ _ Hinit Hplan Htab)
      as (w2 & Hload & Hr & Hp & Ht & _ & Hn).
    exists (VArr []), (VObj [("discord", VStr ""); ("x", VStr "")]), VNull,
      (VArr []), (VArr []), (VObj []), (VBool true), w2.
    split; [exact Hload|]. split; [exact Hr|]. split; [exact Hp|].
    split; [|exact Hn].
    eexists. split; [exact Ht|]. split; reflexivity.
  - destruct (store_load_existing _ _ _ _ _ Hinit Hplan Htab)
      as (doc & w1 & Hdoc & Hload & Hr & Hp & Ht & _ & Hn).
    rewrite toInternal_obj, Hmsgs in Hdoc.
    change (js_or (VArr msgs) (VArr [])) with (VArr msgs) in Hdoc.
    inversion Hdoc; subst doc; clear Hdoc.
    do 7 eexists. exists w1.
    split; [exact Hload|]. split; [exact Hr|]. split; [exact Hp|].
    split; [|exact Hn].
    exists cols. rewrite Ht. auto.
Qed.

(** Saving a document whose log is the array [kept] leaves that log,
    serialised and whole, in the row. *)
Lemma store_save_log c (w w0 : world browser) fields old kept :
  initSupabase browser w = (Ok c, w0) -> serving w -> log_is w old ->
  lookup "adminMessages" fields = VArr kept ->
  exists w',
    saveDataToSupabase browser (VObj fields) w = (Ok true, w') /\
    ready c w' /\ serving w' /\ stored_log w' (map json_elem kept).
Proof.
  intros Hinit Hp [[Htab _]|(cols & Htab & Hid & _)] Hkept.
  - destruct (store_save_create _ _ _ fields Hinit Hp Htab)
      as (w' & Hsave & Hr' & Hp' & Ht' & _ & _).
    exists w'. split; [exact Hsave|]. split; [exact Hr'|].
    split; [exact Hp'|].
    destruct (wire_json fields) as (body & Hrow & _ & Hid' & Hmsgs).
    exists body. rewrite Ht', Hrow. split; [reflexivity|].
    split; [exact Hid'|]. rewrite Hmsgs, Hkept. reflexivity.
  - destruct (store_save_update _ _ _ fields _ Hinit Hp Htab Hid)
      as (w' & Hsave & Hr' & Hp' & Ht' & _ & _).
    exists w'. split; [exact Hsave|]. split; [exact Hr'|].
    split; [exact Hp'|].
    destruct (patched_row fields cols) as (cols' & Hrow & Hid' & Hmsgs).
    exists cols'. rewrite Ht', Hrow. split; [reflexivity|].
    split; [exact Hid'|]. rewrite Hmsgs, Hkept. reflexivity.
Qed.

(** [deleteAdminMessage] on the store. *)
Lemma store_delete c (w w0 : world browser) msgs messageId :
  initSupabase browser w = (Ok c, w0) -> serving w -> log_is w msgs ->
  forallb json msgs = true ->
  forallb (fun m => negb (nullish m)) msgs = true ->
  exists w',
    deleteAdminMessage browser messageId w = (Ok true, w') /\
    ready c w' /\ serving w' /\
    stored_log w'
      (filter (fun m => strict_neq (get m "id") messageId) msgs).
Proof.
  intros Hinit Hplan Hlog Hjson Hobj.
  destruct (store_load _ _ _ _ Hinit Hplan Hlog)
    as (l & so & cr & cl & v & d & en & w1 & Hload & Hr1 & Hp1 & Hlog1
        & Hn1).
  unfold deleteAdminMessage, try_catch, bind, lift. rewrite Hload.
  cbn [prop document lookup String.eqb Ascii.eqb Bool.eqb set_prop assign
       js_or truthy js_filter].
  rewrite (filter_list_other_id _ _ Hobj).
  match goal with
  | |- context [saveDataToSupabase _ (VObj ?f) w1] =>
      destruct (store_save_log _ _ _ f _
                  (filter (fun m => strict_neq (get m "id") messageId) msgs)
                  (ready_init _ _ _ Hr1) Hp1 (or_intror Hlog1) eq_refl)
        as (w' & Hsave & Hr' & Hp' & Hlog')
  end.
  rewrite Hsave. exists w'. split; [reflexivity|].
  split; [exact Hr'|]. split; [exact Hp'|].
  rewrite map_json_elem in Hlog' by (apply forallb_filter_keeps, Hjson).
  exact Hlog'.
Qed.

(** [addAdminMessage] on the store. *)
Lemma store_append c (w w0 : world browser) msgs message :
  initSupabase browser w = (Ok c, w0) -> serving w -> log_is w msgs ->
  forallb json msgs = true ->
  nullish message = false ->
  exists w',
    addAdminMessage browser message w =
      (Ok (message_at (now w) message), w') /\
    ready c w' /\ serving w' /\
    stored_log w'
      (slice_last 50 (msgs ++ [to_json (message_at (now w) message)])).
Proof.
  intros Hinit Hplan Hlog Hjson Hmsg.
  destruct (store_load _ _ _ _ Hinit Hplan Hlog)
    as (l & so & cr & cl & v & d & en & w1 & Hload & Hr1 & Hp1 & Hlog1
        & Hn1).
  unfold addAdminMessage, try_catch, bind, lift. rewrite Hload.
  cbn [prop document lookup String.eqb Ascii.eqb Bool.eqb set_prop assign
       js_or truthy].
  rewrite (newMessage_run _ _ Hmsg).
  cbn [prop document lookup String.eqb Ascii.eqb Bool.eqb set_prop assign
       push].
  rewrite keep_last.
  match goal with
  | |- context [saveDataToSupabase _ (VObj ?f) w1] =>
      destruct (store_save_log _ _ _ f _
                  (slice_last 50 (msgs ++ [message_at (now w1) message]))
                  (ready_init _ _ _ Hr1) Hp1 (or_intror Hlog1) eq_refl)
        as (w' & Hsave & Hr' & Hp' & Hlog')
  end.
  rewrite Hsave. rewrite Hn1 in *. exists w'.
  split; [reflexivity|]. split; [exact Hr'|]. split; [exact Hp'|].
  rewrite slice_last_map, map_app, (map_json_elem _ Hjson) in Hlog'.
  exact Hlog'.
Qed.

Lemma slice_last_app (k : nat) (l s : list value) :
  slice_last k (slice_last k l ++ s) = slice_last k (l ++ s).
Proof.
  unfold slice_last.
  assert (H : (skipn (List.length l - k) l ++ s)%list =
              skipn (List.length l - k) (l ++ s)).
  { rewrite skipn_app.
    replace (List.length l - k - List.length l)%nat with 0%nat by lia.
    reflexivity. }
  rewrite H, skipn_skipn. f_equal.
  rewrite length_skipn, !length_app. lia.
Qed.

(** Appending one by one, dropping from the front each time, keeps the
    last ones of the whole sequence. *)
Lemma fold_slice_last (k : nat) (news l : list value) :
  news <> [] ->
  fold_left (fun acc m => slice_last k (acc ++ [m])) news l =
  slice_last k (l ++ news).
Proof.
  revert l. induction news as [|m news IH]; intros l H; [congruence|].
  cbn [fold_left]. destruct news as [|m' news].
  - reflexivity.
  - rewrite IH by discriminate.
    rewrite slice_last_app, <- app_assoc. reflexivity.
Qed.

Lemma slice_last_covered (k : nat) (l news : list value) :
  (k <= List.length news)%nat ->
  slice_last k (l ++ news) = slice_last k news.
Proof.
  intros H. unfold slice_last. rewrite skipn_app, length_app.
  rewrite skipn_all2 by lia. cbn [app]. f_equal. lia.
Qed.

Lemma init_set_now c t (w w0 : world browser) :
  initSupabase browser w = (Ok c, w0) ->
  initSupabase browser (set_now browser t w) =
    (Ok c, set_now browser t w0).
Proof.
  unfold initSupabase. cbn [set_now isSupabaseInitialized supabaseClient
                            SUPABASE_CONFIG].
  destruct (isSupabaseInitialized w); destruct (supabaseClient w);
    try (destruct (SUPABASE_CONFIG w) as [cfg|];
         [destruct (_ || _)|]);
    intros H; inversion H; subst; reflexivity.
Qed.

(** [append_all] on the store. *)
Lemma store_append_all c entries (w : world browser) msgs :
  configured c w -> serving w -> log_is w msgs ->
  forallb json msgs = true ->
  forallb (fun e => negb (nullish (snd e))) entries = true ->
  exists w',
    append_all browser entries w = (Ok (messages_at entries), w') /\
    configured c w' /\ serving w' /\
    log_is w'
      (fold_left (fun acc m => slice_last 50 (acc ++ [m]))
         (map to_json (messages_at entries)) msgs).
Proof.
  revert w msgs.
  induction entries as [|[t message] entries IH];
    intros w msgs Hconf Hplan Hlog Hjson Hnn.
  - exists w. auto.
  - cbn [forallb snd] in Hnn. apply andb_prop in Hnn.
    destruct Hnn as [Hm Hnn]. apply negb_true_iff in Hm.
    destruct Hconf as [w0 Hinit].
    destruct (store_append c (set_now browser t w) _ msgs message
                (init_set_now _ t _ _ Hinit) Hplan Hlog Hjson Hm)
      as (w1 & Happ & Hr1 & Hp1 & Hlog1).
    cbn [now set_now] in Happ, Hlog1.
    destruct (IH w1 _ (ex_intro _ w1 (ready_init _ _ _ Hr1)) Hp1
                (or_intror Hlog1)) as (w' & Hall & Hc' & Hp' & Hlog');
      [|exact Hnn|].
    + unfold slice_last. apply forallb_skipn. rewrite forallb_app, Hjson.
      cbn [forallb andb]. rewrite andb_true_r.
      apply json_to_json. discriminate.
    + exists w'. split; [|auto].
      cbn [append_all]. unfold bind. rewrite Happ, Hall. reflexivity.
Qed.
End OnStore.

(** * The properties of the specification *)

(** ** The field mapper (C2, C6) *)

Lemma filled_js_or (stored dflt : value) :
  nullish dflt = false -> filled stored dflt (js_or stored dflt).
Proof.
  intros H. split; [apply js_or_not_nullish, H|].
  split; [apply js_or_truthy | apply js_or_falsy].
Qed.

(** C2, as stated, fails: a row whose [admin_credentials] is the empty
    string goes through [toInternal] and [toWire] and comes back with
    [admin_credentials] [null]; the value present in the row is lost. *)
Lemma round_trip_loses_empty_credentials :
  let x := VObj [("id", VNum 1);
                 ("links", VArr []);
                 ("social_links", VObj [("discord", VStr ""); ("x", VStr "")]);
                 ("admin_credentials", VStr "");
                 ("statistics",
                   VObj [("clicks", VArr []); ("visits", VArr []);
                         ("daily_visits", VObj [])]);
                 ("admin_messages", VArr []);
                 ("setup_page_enabled", VBool true)] in
  exists d r,
    toInternal x = Ok d /\ toWire d = Ok r /\
    get x "admin_credentials" = VStr "" /\
    get r "admin_credentials" = VNull.
Proof. do 2 eexists. repeat split. Qed.

(** C2, amended: the round trip wire -> internal -> wire is total on a row
    and gives back every truthy value of a known column (an array or an
    object always is one) and a boolean [setup_page_enabled]; and a document
    whose fields are all truthy, with a boolean [setupPageEnabled], comes
    back unchanged from internal -> wire -> internal. *)
Theorem round_trip_lossless
    (cols : list (string * value))
    (links social creds clicks visits daily messages : value)
    (enabled : bool) :
  truthy links = true -> truthy social = true -> truthy creds = true ->
  truthy clicks = true -> truthy visits = true -> truthy daily = true ->
  truthy messages = true ->
  (exists d r,
     toInternal (VObj cols) = Ok d /\ toWire d = Ok r /\
     (forall k,
        In k ["links"; "social_links"; "admin_credentials"; "admin_messages"] ->
        truthy (lookup k cols) = true -> get r k = lookup k cols) /\
     (forall k,
        In k ["clicks"; "visits"; "daily_visits"] ->
        truthy (get (lookup "statistics" cols) k) = true ->
        get (get r "statistics") k = get (lookup "statistics" cols) k) /\
     (forall b,
        lookup "setup_page_enabled" cols = VBool b ->
        get r "setup_page_enabled" = VBool b)) /\
  (let? r := toWire (document links social creds clicks visits daily
                       messages (VBool enabled)) in
   toInternal r) =
  Ok (document links social creds clicks visits daily messages
        (VBool enabled)).
Proof.
  intros Hl Hs Hc Hk Hv Hd Hm. split.
  - pose proof (toWire_toInternal cols) as H.
    rewrite toInternal_obj in *. cbn [rbind] in H.
    eexists. eexists. split; [reflexivity|]. split; [exact H|].
    split; [|split].
    + intros k Hk' Ht. cbn [In] in Hk'.
      destruct Hk' as [<-|[<-|[<-|[<-|[]]]]]; cbn; apply js_or_truthy, Ht.
    + intros k Hk' Ht. cbn [In] in Hk'.
      destruct Hk' as [<-|[<-|[<-|[]]]]; cbn; apply js_or_truthy, Ht.
    + intros b Hb. cbn. rewrite Hb. destruct b; reflexivity.
  - unfold document. rewrite toWire_obj. cbn [rbind]. unfold wire_fields.
    rewrite toInternal_obj.
    cbn [lookup String.eqb Ascii.eqb Bool.eqb get prop].
    rewrite !js_or_idem.
    rewrite !js_or_truthy by assumption.
    destruct enabled; reflexivity.
Qed.

Lemma round_trip_lossless_witness :
  (exists d r,
     toInternal defaultData = Ok d /\ toWire d = Ok r /\
     (forall k,
        In k ["links"; "social_links"; "admin_credentials"; "admin_messages"] ->
        truthy (get defaultData k) = true -> get r k = get defaultData k) /\
     (forall k,
        In k ["clicks"; "visits"; "daily_visits"] ->
        truthy (get (get defaultData "statistics") k) = true ->
        get (get r "statistics") k = get (get defaultData "statistics") k) /\
     (forall b,
        get defaultData "setup_page_enabled" = VBool b ->
        get r "setup_page_enabled" = VBool b)) /\
  (let? r := toWire
       (document (VArr [VStr "https://example.org"])
          (VObj [("discord", VStr "d"); ("x", VStr "x")])
          (VObj [("user", VStr "admin")])
          (VArr [VNum 1]) (VArr [VNum 2]) (VObj [("2024-01-01", VNum 3)])
          (VArr [VObj [("id", VStr "1")]]) (VBool false)) in
   toInternal r) =
  Ok (document (VArr [VStr "https://example.org"])
        (VObj [("discord", VStr "d"); ("x", VStr "x")])
        (VObj [("user", VStr "admin")])
        (VArr [VNum 1]) (VArr [VNum 2]) (VObj [("2024-01-01", VNum 3)])
        (VArr [VObj [("id", VStr "1")]]) (VBool false)).
Proof.
  apply (round_trip_lossless
           [("id", VNum 1);
            ("links", VArr []);
            ("social_links", VObj [("discord", VStr ""); ("x", VStr "")]);
            ("admin_credentials", VNull);
            ("statistics",
              VObj [("clicks", VArr []); ("visits", VArr []);
                    ("daily_visits", VObj [])]);
            ("admin_messages", VArr []);
            ("setup_page_enabled", VBool true)]);
    reflexivity.
Defined.

(** C6, as stated, fails: the document loaded from the table that holds the
    default row has [adminCredentials] [null]. *)
Lemma load_leaves_adminCredentials_null :
  exists doc w1,
    loadDataFromSupabase browser (page [defaultData] [] 0) = (Ok doc, w1) /\
    get doc "adminCredentials" = VNull.
Proof. do 2 eexists. split; reflexivity. Qed.

(** C6, amended: when the read finds a row, [loadDataFromSupabase] returns
    a document in which [links], [socialLinks], the three fields of
    [statistics] and [adminMessages] are never [null] or [undefined]: each
    is the stored value when that is truthy and its default otherwise (an
    empty array, [{discord: "", x: ""}], an empty array or object);
    [setupPageEnabled] is [false] when the stored value is [false] and
    [true] otherwise; [adminCredentials] is the stored value when that is
    truthy and [null] otherwise. *)
Theorem load_fills_defaults (E : Env) (w w1 : world E)
    (cols : list (string * value)) (rest : list value) :
  supabaseRequest E GET "app_data" VNull [] w =
    (Ok (Some (VObj cols :: rest)), w1) ->
  exists doc,
    loadDataFromSupabase E w = (Ok doc, w1) /\
    filled (lookup "links" cols) (VArr []) (get doc "links") /\
    filled (lookup "social_links" cols)
      (VObj [("discord", VStr ""); ("x", VStr "")]) (get doc "socialLinks") /\
    filled (get (lookup "statistics" cols) "clicks") (VArr [])
      (get (get doc "statistics") "clicks") /\
    filled (get (lookup "statistics" cols) "visits") (VArr [])
      (get (get doc "statistics") "visits") /\
    filled (get (lookup "statistics" cols) "daily_visits") (VObj [])
      (get (get doc "statistics") "dailyVisits") /\
    filled (lookup "admin_messages" cols) (VArr []) (get doc "adminMessages") /\
    (lookup "setup_page_enabled" cols = VBool false ->
     get doc "setupPageEnabled" = VBool false) /\
    (lookup "setup_page_enabled" cols <> VBool false ->
     get doc "setupPageEnabled" = VBool true) /\
    (truthy (lookup "admin_credentials" cols) = true ->
     get doc "adminCredentials" = lookup "admin_credentials" cols) /\
    (truthy (lookup "admin_credentials" cols) = false ->
     get doc "adminCredentials" = VNull).
Proof.
  intros Hget.
  destruct (load_existing _ _ _ _ _ Hget) as (doc & Hdoc & Hload).
  rewrite toInternal_obj in Hdoc. inversion Hdoc; subst doc; clear Hdoc.
  eexists. split; [exact Hload|].
  cbn [get prop document lookup String.eqb Ascii.eqb Bool.eqb].
  repeat (split; [apply filled_js_or; reflexivity|]).
  split; [intros ->; reflexivity|].
  split.
  - intros Hne. f_equal. unfold strict_neq.
    destruct (lookup "setup_page_enabled" cols) as [| |[]| | | |];
      try reflexivity. congruence.
  - split; [apply js_or_truthy | apply js_or_falsy].
Qed.

Lemma load_fills_defaults_witness :
  exists doc,
    loadDataFromSupabase browser
      (page [VObj [("id", VNum 1); ("links", VArr [VStr "a"])]] [] 0) =
      (Ok doc,
       snd (supabaseRequest browser GET "app_data" VNull []
              (page [VObj [("id", VNum 1); ("links", VArr [VStr "a"])]] [] 0)))
    /\ get doc "links" = VArr [VStr "a"]
    /\ get doc "socialLinks" = VObj [("discord", VStr ""); ("x", VStr "")].
Proof.
  destruct (load_fills_defaults browser
              (page [VObj [("id", VNum 1); ("links", VArr [VStr "a"])]] [] 0)
              _ [("id", VNum 1); ("links", VArr [VStr "a"])] [] eq_refl)
    as (doc & Hload & (_ & Hl & _) & (_ & _ & Hs) & _).
  exists doc. split; [exact Hload|].
  split; [apply Hl | apply Hs]; reflexivity.
Defined.

(** ** The pollers (C3, C7, C8, C10) *)







(** C8: a firing whose load fails leaves, in both pollers, nothing but an
    entry on the console: the callback is not invoked and the last-seen
    count is what it was; so the rest of the schedule runs as if from the
    count before the failure. *)
Theorem pollers_skip_failed_tick (E : Env) (cb : callback E)
    (before : world E -> world E) (w w1 : world E) (e : error) :
  loadDataFromSupabase E (before w) = (Throw e, w1) ->
  (forall n,
     newVisits_tick E cb n (before w) =
     ((n, []), log E "Erreur lors de l'écoute des visites:" e w1)) /\
  (forall last,
     adminMessages_tick E cb last (before w) =
     ((last, []), log E "Erreur lors de l'écoute des messages:" e w1)) /\
  (forall n rest,
     poll E (newVisits_tick E cb) (before :: rest) n w =
     poll E (newVisits_tick E cb) rest n
       (log E "Erreur lors de l'écoute des visites:" e w1)) /\
  (forall last rest,
     poll E (adminMessages_tick E cb) (before :: rest) last w =
     poll E (adminMessages_tick E cb) rest last
       (log E "Erreur lors de l'écoute des messages:" e w1)).
Proof.
  intros Hload. split; [|split; [|split]].
  - intros n. apply (newVisits_tick_load_fails E cb n _ _ _ Hload).
  - intros last. apply (adminMessages_tick_load_fails E cb last _ _ _ Hload).
  - intros n rest. cbn [poll].
    rewrite (newVisits_tick_load_fails E cb n _ _ _ Hload).
    destruct (poll E _ rest n _) as [[s2 f2] w2]. reflexivity.
  - intros last rest. cbn [poll].
    rewrite (adminMessages_tick_load_fails E cb last _ _ _ Hload).
    destruct (poll E _ rest last _) as [[s2 f2] w2]. reflexivity.
Qed.

Lemma pollers_skip_failed_tick_witness :
  let w := page [row_with five_visits []] [] 0 in
  let down := outage [Some (Rejected "offline")] in
  let w1 := snd (loadDataFromSupabase browser (down w)) in
  newVisits_tick browser (Some note) 3 (down w) =
    ((3%nat, []),
     log browser "Erreur lors de l'écoute des visites:"
       (NetworkError "offline") w1) /\
  adminMessages_tick browser (Some note) (VNum 2) (down w) =
    ((VNum 2, []),
     log browser "Erreur lors de l'écoute des messages:"
       (NetworkError "offline") w1).
Proof.
  intros w down w1.
  pose proof (pollers_skip_failed_tick browser (Some note) down w w1
                (NetworkError "offline") eq_refl) as (Hv & Hm & _).
  split; [apply Hv | apply Hm].
Defined.

(** After the outage the next firing delivers what came meanwhile: with the
    count at 3, a failed firing and then a firing that finds five visits
    invoke the callback on the fourth and the fifth. *)
Example recovery_after_outage :
  fst (poll browser (newVisits_tick browser (Some note))
         [outage [Some (Rejected "offline")]; outage []] 3%nat
         (page [row_with five_visits []] [] 0)) =
  (5%nat, [VStr "v4"; VStr "v5"]).
Proof. reflexivity. Qed.



(** ** The synchroniser (C4, C5) *)

(** C4: when the existence check of [saveDataToSupabase] or its update or
    insert fails, the save throws that error and neither the page's cache
    object nor [localStorage] has changed; when the write succeeds, the save
    returns [true] whatever [localStorage] does, and the cache object, when
    the page has one, holds the document, a zero [lastLoad] and the time of
    the save. *)
Theorem save_error_contract (E : Env) (data row : value) (c : client)
    (w w0 : world E) :
  initSupabase E w = (Ok c, w0) ->
  toWire data = Ok row ->
  (forall e w1,
     supabaseRequest E GET "app_data" VNull id1 w0 = (Throw e, w1) ->
     exists w',
       saveDataToSupabase E data w = (Throw e, w') /\
       DATA_CACHE w' = DATA_CACHE w /\ localStorage w' = localStorage w) /\
  (forall existing w1 e w2,
     supabaseRequest E GET "app_data" VNull id1 w0 = (Ok existing, w1) ->
     write_row E existing row w1 = (Throw e, w2) ->
     exists w',
       saveDataToSupabase E data w = (Throw e, w') /\
       DATA_CACHE w' = DATA_CACHE w /\ localStorage w' = localStorage w) /\
  (forall existing w1 r w2,
     supabaseRequest E GET "app_data" VNull id1 w0 = (Ok existing, w1) ->
     write_row E existing row w1 = (Ok r, w2) ->
     exists w',
       saveDataToSupabase E data w = (Ok true, w') /\
       DATA_CACHE w' =
         option_map (fun _ => {| cache_data := data;
                                 cache_lastLoad := 0;
                                 cache_lastSuccessfulSave := now w |})
                    (DATA_CACHE w)).
Proof.
  intros Hinit Hrow. split; [|split].
  - intros e w1 Hcheck. eexists.
    split; [apply (save_check_throws E _ _ _ _ _ _ _ Hinit Hrow Hcheck)|].
    apply (save_throw_mirror E data w _ e).
    apply (save_check_throws E _ _ _ _ _ _ _ Hinit Hrow Hcheck).
  - intros existing w1 e w2 Hcheck Hwrite. eexists.
    split; [apply (save_write_throws E _ _ _ _ _ _ _ _ _
                     Hinit Hrow Hcheck Hwrite)|].
    apply (save_throw_mirror E data w _ e).
    apply (save_write_throws E _ _ _ _ _ _ _ _ _ Hinit Hrow Hcheck Hwrite).
  - intros existing w1 r w2 Hcheck Hwrite.
    destruct (save_written E _ _ _ _ _ _ _ _ _ Hinit Hrow Hcheck Hwrite)
      as (w' & Hsave & Hcache & _).
    exists w'. auto.
Qed.

Lemma save_error_contract_witness :
  (* the existence check is refused *)
  (exists w',
     saveDataToSupabase browser defaultDocument
       (cached_page [defaultData] [Some (Rejected "offline")] 3) =
       (Throw (NetworkError "offline"), w') /\
     DATA_CACHE w' =
       DATA_CACHE (cached_page [defaultData] [Some (Rejected "offline")] 3) /\
     localStorage w' =
       localStorage (cached_page [defaultData] [Some (Rejected "offline")] 3))
  /\
  (* the update answers 500 *)
  (exists w',
     saveDataToSupabase browser defaultDocument
       (cached_page [defaultData] [None; Some (Response 500 "down" None)] 3) =
       (Throw (SupabaseError 500 "down"), w') /\
     DATA_CACHE w' =
       DATA_CACHE (cached_page [defaultData]
                     [None; Some (Response 500 "down" None)] 3) /\
     localStorage w' =
       localStorage (cached_page [defaultData]
                       [None; Some (Response 500 "down" None)] 3))
  /\
  (* the write succeeds and [localStorage] is full *)
  (exists w',
     saveDataToSupabase browser defaultDocument
       (cached_page [defaultData] [] 0) = (Ok true, w') /\
     DATA_CACHE w' =
       Some {| cache_data := defaultDocument; cache_lastLoad := 0;
               cache_lastSuccessfulSave := 1700000000000 |}).
Proof.
  split; [|split].
  - apply (proj1 (save_error_contract browser defaultDocument _ _
                    (cached_page [defaultData] [Some (Rejected "offline")] 3)
                    _ eq_refl eq_refl)
             (NetworkError "offline") _ eq_refl).
  - apply (proj1 (proj2 (save_error_contract browser defaultDocument _ _
                    (cached_page [defaultData]
                       [None; Some (Response 500 "down" None)] 3)
                    _ eq_refl eq_refl))
             _ _ (SupabaseError 500 "down") _ eq_refl eq_refl).
  - apply (proj2 (proj2 (save_error_contract browser defaultDocument _ _
                    (cached_page [defaultData] [] 0)
                    _ eq_refl eq_refl))
             _ _ _ _ eq_refl eq_refl).
Defined.

(** With a full [localStorage] a save stores nothing there, and returns
    [true]. *)
Example save_with_full_localStorage :
  let r := saveDataToSupabase browser defaultDocument
             (cached_page [defaultData] [] 0) in
  fst r = Ok true /\ items (localStorage (snd r)) = [].
Proof. split; reflexivity. Qed.

(** C5: [loadDataFromSupabase] on an empty table sends one read and one
    create whose body is the default row, and returns the default document;
    the table then holds that one row, and a second load sends a read only,
    returns the default document again and leaves the one row. *)
Theorem load_creates_singleton (c : client) (w w0 : world browser) :
  initSupabase browser w = (Ok c, w0) ->
  serving w ->
  table w = [] ->
  exists w1 w2,
    loadDataFromSupabase browser w =
      (Ok (document (VArr [])
             (VObj [("discord", VStr ""); ("x", VStr "")]) VNull
             (VArr []) (VArr []) (VObj []) (VArr []) (VBool true)), w1) /\
    sent w1 =
      (sent w ++
       [{| req_method := GET;
           req_base := client_url c;
           req_key := client_key c;
           req_table := "app_data";
           req_filters := [];
           req_body := None |};
        {| req_method := POST;
           req_base := client_url c;
           req_key := client_key c;
           req_table := "app_data";
           req_filters := [];
           req_body :=
             Some
               (VObj [("id", VNum 1);
                     ("links", VArr []);
                     ("social_links", VObj [("discord", VStr ""); ("x", VStr "")]);
                     ("admin_credentials", VNull);
                     ("statistics",
                       VObj [("clicks", VArr []); ("visits", VArr []);
                             ("daily_visits", VObj [])]);
                     ("admin_messages", VArr []);
                     ("setup_page_enabled", VBool true)]) |}])%list /\
    table w1 =
      [VObj [("id", VNum 1);
            ("links", VArr []);
            ("social_links", VObj [("discord", VStr ""); ("x", VStr "")]);
            ("admin_credentials", VNull);
            ("statistics",
              VObj [("clicks", VArr []); ("visits", VArr []);
                    ("daily_visits", VObj [])]);
            ("admin_messages", VArr []);
            ("setup_page_enabled", VBool true)]] /\
    loadDataFromSupabase browser w1 =
      (Ok (document (VArr [])
             (VObj [("discord", VStr ""); ("x", VStr "")]) VNull
             (VArr []) (VArr []) (VObj []) (VArr []) (VBool true)), w2) /\
    sent w2 =
      (sent w1 ++
       [{| req_method := GET;
           req_base := client_url c;
           req_key := client_key c;
           req_table := "app_data";
           req_filters := [];
           req_body := None |}])%list /\
    table w2 =
      [VObj [("id", VNum 1);
            ("links", VArr []);
            ("social_links", VObj [("discord", VStr ""); ("x", VStr "")]);
            ("admin_credentials", VNull);
            ("statistics",
              VObj [("clicks", VArr []); ("visits", VArr []);
                    ("daily_visits", VObj [])]);
            ("admin_messages", VArr []);
            ("setup_page_enabled", VBool true)]].
Proof.
  intros Hinit Hplan Htab.
  destruct (store_load_empty _ _ _ Hinit Hplan Htab)
    as (w1 & Hload1 & Hr1 & Hp1 & Ht1 & Hs1 & _).
  destruct (store_load_existing c w1 w1 _ [] (ready_init _ _ _ Hr1) Hp1 Ht1)
    as (doc & w2 & Hdoc & Hload2 & _ & _ & Ht2 & Hs2 & _).
  exists w1, w2. rewrite Hload2.
  cbn in Hdoc. inversion Hdoc; subst doc.
  rewrite Ht2, Ht1.
  split; [exact Hload1|]. split; [exact Hs1|]. split; [reflexivity|].
  split; [reflexivity|]. split; [exact Hs2|reflexivity].
Qed.

Lemma load_creates_singleton_witness :
  let c := {| client_url := "https://x.supabase.co"; client_key := "anon" |} in
  exists w1 w2,
    loadDataFromSupabase browser (page [] [] 0) =
      (Ok (document (VArr [])
             (VObj [("discord", VStr ""); ("x", VStr "")]) VNull
             (VArr []) (VArr []) (VObj []) (VArr []) (VBool true)), w1) /\
    sent w1 =
      (sent (page [] [] 0) ++
       [{| req_method := GET;
           req_base := client_url c;
           req_key := client_key c;
           req_table := "app_data";
           req_filters := [];
           req_body := None |};
        {| req_method := POST;
           req_base := client_url c;
           req_key := client_key c;
           req_table := "app_data";
           req_filters := [];
           req_body :=
             Some
               (VObj [("id", VNum 1);
                     ("links", VArr []);
                     ("social_links", VObj [("discord", VStr ""); ("x", VStr "")]);
                     ("admin_credentials", VNull);
                     ("statistics",
                       VObj [("clicks", VArr []); ("visits", VArr []);
                             ("daily_visits", VObj [])]);
                     ("admin_messages", VArr []);
                     ("setup_page_enabled", VBool true)]) |}])%list /\
    table w1 =
      [VObj [("id", VNum 1);
            ("links", VArr []);
            ("social_links", VObj [("discord", VStr ""); ("x", VStr "")]);
            ("admin_credentials", VNull);
            ("statistics",
              VObj [("clicks", VArr []); ("visits", VArr []);
                    ("daily_visits", VObj [])]);
            ("admin_messages", VArr []);
            ("setup_page_enabled", VBool true)]] /\
    loadDataFromSupabase browser w1 =
      (Ok (document (VArr [])
             (VObj [("discord", VStr ""); ("x", VStr "")]) VNull
             (VArr []) (VArr []) (VObj []) (VArr []) (VBool true)), w2) /\
    sent w2 =
      (sent w1 ++
       [{| req_method := GET;
           req_base := client_url c;
           req_key := client_key c;
           req_table := "app_data";
           req_filters := [];
           req_body := None |}])%list /\
    table w2 =
      [VObj [("id", VNum 1);
            ("links", VArr []);
            ("social_links", VObj [("discord", VStr ""); ("x", VStr "")]);
            ("admin_credentials", VNull);
            ("statistics",
              VObj [("clicks", VArr []); ("visits", VArr []);
                    ("daily_visits", VObj [])]);
            ("admin_messages", VArr []);
            ("setup_page_enabled", VBool true)]].
Proof.
  intros c.
  apply (load_creates_singleton c (page [] [] 0) _ eq_refl eq_refl eq_refl).
Defined.

(** ** The message log (C9, C1) *)

(** C9: on a serving store whose log holds messages none of which is
    [null], [deleteAdminMessage] returns [true] and leaves in the row the
    messages whose [id] is not strictly equal to the given one, in their
    order; when no message has that [id], the log is what it was. *)
Theorem delete_removes_by_id (c : client) (w w0 : world browser)
    (msgs : list value) (messageId : value) :
  initSupabase browser w = (Ok c, w0) ->
  serving w ->
  log_is w msgs ->
  forallb json msgs = true ->
  forallb (fun m => negb (nullish m)) msgs = true ->
  exists w',
    deleteAdminMessage browser messageId w = (Ok true, w') /\
    stored_log w'
      (filter (fun m => strict_neq (get m "id") messageId) msgs) /\
    ((forall m, In m msgs -> strict_eq (get m "id") messageId = false) ->
     stored_log w' msgs).
Proof.
  intros Hinit Hplan Hlog Hjson Hobj.
  destruct (store_delete c w w0 msgs messageId Hinit Hplan Hlog Hjson Hobj)
    as (w' & Hdel & _ & _ & Hlog').
  exists w'. split; [exact Hdel|]. split; [exact Hlog'|].
  intros Habsent. rewrite filter_all in Hlog'; [exact Hlog'|].
  intros m Hm. unfold strict_neq. rewrite (Habsent m Hm). reflexivity.
Qed.

Lemma delete_removes_by_id_witness :
  (* an id that the second message has *)
  (exists w',
     deleteAdminMessage browser (VStr "2")
       (page [row_with [] three_messages] [] 3) = (Ok true, w') /\
     stored_log w'
       [VObj [("id", VStr "1"); ("text", VStr "one")];
        VObj [("id", VStr "3"); ("text", VStr "three")]] /\
     ((forall m, In m three_messages ->
                 strict_eq (get m "id") (VStr "2") = false) ->
      stored_log w' three_messages)) /\
  (* an id that no message has *)
  (exists w',
     deleteAdminMessage browser (VStr "9")
       (page [row_with [] three_messages] [] 3) = (Ok true, w') /\
     stored_log w' three_messages).
Proof.
  split.
  - apply (delete_removes_by_id
             {| client_url := "https://x.supabase.co"; client_key := "anon" |}
             (page [row_with [] three_messages] [] 3) _ three_messages
             (VStr "2") eq_refl eq_refl).
    + right. eexists. split; [reflexivity|]. split; reflexivity.
    + reflexivity.
    + reflexivity.
  - destruct (delete_removes_by_id
                {| client_url := "https://x.supabase.co";
                   client_key := "anon" |}
                (page [row_with [] three_messages] [] 3) _ three_messages
                (VStr "9") eq_refl eq_refl)
      as (w' & Hdel & _ & Hsame).
    + right. eexists. split; [reflexivity|]. split; reflexivity.
    + reflexivity.
    + reflexivity.
    + exists w'. split; [exact Hdel|]. apply Hsame.
      intros m [<-|[<-|[<-|[]]]]; reflexivity.
Defined.

(** C1, as stated, fails: [saveDataToSupabase] writes a document of 51
    messages as it is; the row in the store then has 51 messages. *)
Lemma save_writes_51_messages :
  let r := saveDataToSupabase browser
             (document (VArr [])
                (VObj [("discord", VStr ""); ("x", VStr "")]) VNull
                (VArr []) (VArr []) (VObj []) (VArr many_messages)
                (VBool true))
             (page [defaultData] [] 3) in
  fst r = Ok true /\
  List.length (table (snd r)) = 1%nat /\
  stored_messages (snd r) = many_messages /\
  List.length (stored_messages (snd r)) = 51%nat.
Proof.
  split; [vm_compute; reflexivity|].
  split; [vm_compute; reflexivity|].
  split; vm_compute; reflexivity.
Qed.

(** C1, amended: on a serving store, [addAdminMessage] leaves in the row the
    last 50 of the stored messages followed by the new one, so at most 50,
    the oldest dropped first; 55 messages appended one after the other leave
    exactly the last 50 of them, in their order; [saveDataToSupabase] itself
    writes the messages of the document it is given, all of them. *)
Theorem log_bounded_by_append (c : client) (w w0 : world browser)
    (msgs : list value) (message : value) (entries : list (Z * value))
    (fields : list (string * value)) (kept : list value) :
  initSupabase browser w = (Ok c, w0) ->
  serving w ->
  log_is w msgs ->
  forallb json msgs = true ->
  nullish message = false ->
  forallb (fun e => negb (nullish (snd e))) entries = true ->
  List.length entries = 55%nat ->
  lookup "adminMessages" fields = VArr kept ->
  (exists w',
     addAdminMessage browser message w =
       (Ok (message_at (now w) message), w') /\
     stored_log w'
       (slice_last 50 (msgs ++ [to_json (message_at (now w) message)])) /\
     (List.length
        (slice_last 50 (msgs ++ [to_json (message_at (now w) message)]))
      <= 50)%nat) /\
  (exists w',
     append_all browser entries w = (Ok (messages_at entries), w') /\
     stored_log w' (map to_json (skipn 5 (messages_at entries))) /\
     List.length (skipn 5 (messages_at entries)) = 50%nat) /\
  (exists w',
     saveDataToSupabase browser (VObj fields) w = (Ok true, w') /\
     stored_log w' (map json_elem kept) /\
     List.length (map json_elem kept) = List.length kept).
Proof.
  intros Hinit Hplan Hlog Hjson Hmsg Hentries Hlen Hkept.
  split; [|split].
  - destruct (store_append c w w0 msgs message Hinit Hplan Hlog Hjson Hmsg)
      as (w' & Happ & _ & _ & Hlog').
    exists w'. split; [exact Happ|]. split; [exact Hlog'|].
    apply slice_last_length.
  - destruct (store_append_all c entries w msgs (ex_intro _ w0 Hinit) Hplan
                Hlog Hjson Hentries) as (w' & Hall & _ & _ & Hlog').
    assert (Hn : List.length (map to_json (messages_at entries)) = 55%nat).
    { unfold messages_at. rewrite !length_map. exact Hlen. }
    rewrite fold_slice_last in Hlog'
      by (destruct (map to_json (messages_at entries));
          [discriminate Hn | discriminate]).
    rewrite slice_last_covered in Hlog' by lia.
    unfold slice_last in Hlog'. rewrite Hn in Hlog'.
    change (55 - 50)%nat with 5%nat in Hlog'. rewrite skipn_map in Hlog'.
    exists w'. split; [exact Hall|]. split.
    + destruct Hlog' as [[_ Hnil]|Hlog']; [|exact Hlog'].
      apply (f_equal (@List.length value)) in Hnil.
      rewrite length_map, length_skipn in Hnil.
      unfold messages_at in Hnil. rewrite length_map, Hlen in Hnil.
      discriminate Hnil.
    + rewrite length_skipn. unfold messages_at. rewrite length_map, Hlen.
      reflexivity.
  - destruct (store_save_log c w w0 fields msgs kept Hinit Hplan Hlog Hkept)
      as (w' & Hsave & _ & _ & Hlog').
    exists w'. split; [exact Hsave|]. split; [exact Hlog'|].
    apply length_map.
Qed.

Lemma log_bounded_by_append_witness :
  let w := page [] [] 3 in
  let message := VObj [("text", VStr "hello")] in
  (exists w',
     addAdminMessage browser message w =
       (Ok (message_at (now w) message), w') /\
     stored_log w'
       (slice_last 50 ([] ++ [to_json (message_at (now w) message)])) /\
     (List.length
        (slice_last 50 ([] ++ [to_json (message_at (now w) message)]))
      <= 50)%nat) /\
  (exists w',
     append_all browser fifty_five w = (Ok (messages_at fifty_five), w') /\
     stored_log w' (map to_json (skipn 5 (messages_at fifty_five))) /\
     List.length (skipn 5 (messages_at fifty_five)) = 50%nat) /\
  (exists w',
     saveDataToSupabase browser
       (VObj [("adminMessages", VArr many_messages)]) w = (Ok true, w') /\
     stored_log w' (map json_elem many_messages) /\
     List.length (map json_elem many_messages) = List.length many_messages).
Proof.
  intros w message.
  apply (log_bounded_by_append
           {| client_url := "https://x.supabase.co"; client_key := "anon" |}
           w _ [] message fifty_five
           [("adminMessages", VArr many_messages)] many_messages
           eq_refl eq_refl (or_introl (conj eq_refl eq_refl)) eq_refl
           eq_refl eq_refl eq_refl eq_refl).
Defined.

(** The 55 appends, run: the row holds 50 messages, the first of them the
    sixth appended and the last the fifty-fifth. *)
Example fifty_five_appends_run :
  let w' := snd (append_all browser fifty_five (page [] [] 3)) in
  List.length (table w') = 1%nat /\
  List.length (stored_messages w') = 50%nat /\
  map (fun m => get m "text") (stored_messages w') =
    map (fun i => VStr (toString (Z.of_nat i))) (seq 5 50).
Proof.
  split; [vm_compute; reflexivity|].
  split; vm_compute; reflexivity.
Qed.

(** * Further properties of the file *)

(** ** [initSupabase] and [supabaseRequest] *)

Lemma supabaseRequest_sent (E : Env) m table data filters c
    (w w0 w' : world E) r :
  initSupabase E w = (Ok c, w0) ->
  supabaseRequest E m table data filters w = (r, w') ->
  sent w' = (sent w ++ [build_request c m table data filters])%list /\
  ready c w' /\ same_mirror w w' /\ console w' = console w.
Proof.
  intros Hinit H.
  rewrite (supabaseRequest_run E _ _ _ _ _ _ _ Hinit) in H.
  destruct (initSupabase_ok E _ _ _ Hinit)
    as (Hr & _ & Hs & Hd & Hl & Hc & _).
  inversion H; subst; clear H. cbn. rewrite Hs.
  repeat split; try apply Hr; assumption.
Qed.

Lemma unconfigured_throws (E : Env) (w : world E) :
  unconfigured w -> initSupabase E w = (Throw ConfigError, w).
Proof.
  intros [Hno Hcfg]. unfold initSupabase.
  assert (Hm : match isSupabaseInitialized w, supabaseClient w with
               | true, Some c => False
               | _, _ => True
               end).
  { destruct Hno as [-> | ->]; [exact I|].
    destruct (isSupabaseInitialized w); exact I. }
  destruct (isSupabaseInitialized w); destruct (supabaseClient w);
    try contradiction;
    (destruct (SUPABASE_CONFIG w) as [cfg|]; [|reflexivity];
     destruct Hcfg as [-> | ->]; cbn; [reflexivity|];
     destruct (String.eqb (url cfg) ""); reflexivity).
Qed.

(** X1: once [initSupabase] has succeeded, a later call returns the same
    client and changes nothing, also after the configuration was replaced
    or removed. *)
Theorem initSupabase_keeps_client (E : Env) (c : client) (w w0 : world E)
    (cfg : option config) :
  initSupabase E w = (Ok c, w0) ->
  initSupabase E w0 = (Ok c, w0) /\
  initSupabase E (set_config E cfg w0) = (Ok c, set_config E cfg w0).
Proof.
  intros Hinit. destruct (initSupabase_ok E _ _ _ Hinit) as (Hr & _).
  split; apply ready_init; exact Hr.
Qed.

Lemma initSupabase_keeps_client_witness :
  let w0 := snd (initSupabase browser (page [] [] 0)) in
  initSupabase browser w0 =
    (Ok {| client_url := "https://x.supabase.co"; client_key := "anon" |},
     w0) /\
  initSupabase browser (set_config browser None w0) =
    (Ok {| client_url := "https://x.supabase.co"; client_key := "anon" |},
     set_config browser None w0).
Proof.
  intros w0.
  apply (initSupabase_keeps_client browser _ (page [] [] 0) w0 None eq_refl).
Defined.

(** X2: without a client and without a usable configuration (none, or an
    empty [url] or [anonKey]), a request, a load and a save throw the
    configuration error before anything is handed to [fetch]: the trace of
    requests, the store and the mirror are what they were. *)
Theorem missing_config_sends_nothing (E : Env) (w : world E)
    (m : method) (table : string) (data : value)
    (filters : list (string * value)) (doc : value) :
  unconfigured w ->
  supabaseRequest E m table data filters w = (Throw ConfigError, w) /\
  loadDataFromSupabase E w =
    (Throw ConfigError,
     log E "❌ Erreur lors du chargement des données Supabase:"
       ConfigError w) /\
  saveDataToSupabase E doc w =
    (Throw ConfigError,
     log E "❌ Erreur lors de la sauvegarde Supabase:" ConfigError w) /\
  sent (snd (loadDataFromSupabase E w)) = sent w /\
  sent (snd (saveDataToSupabase E doc w)) = sent w /\
  remote (snd (saveDataToSupabase E doc w)) = remote w.
Proof.
  intros Hun. pose proof (unconfigured_throws E w Hun) as Hinit.
  assert (Hreq : forall m t d f,
             supabaseRequest E m t d f w = (Throw ConfigError, w)).
  { intros. unfold supabaseRequest, bind. rewrite Hinit. reflexivity. }
  assert (Hload : loadDataFromSupabase E w =
                  (Throw ConfigError,
                   log E "❌ Erreur lors du chargement des données Supabase:"
                     ConfigError w)).
  { unfold loadDataFromSupabase, try_catch, bind. rewrite Hreq.
    reflexivity. }
  assert (Hsave : saveDataToSupabase E doc w =
                  (Throw ConfigError,
                   log E "❌ Erreur lors de la sauvegarde Supabase:"
                     ConfigError w)).
  { unfold saveDataToSupabase, try_catch, bind. rewrite Hinit.
    reflexivity. }
  rewrite Hload, Hsave. repeat split. apply Hreq.
Qed.

Lemma missing_config_sends_nothing_witness :
  let w := set_config browser
             (Some {| url := "https://x.supabase.co"; anonKey := "" |})
             (page [defaultData] [] 0) in
  supabaseRequest browser GET "app_data" VNull [] w = (Throw ConfigError, w) /\
  loadDataFromSupabase browser w =
    (Throw ConfigError,
     log browser "❌ Erreur lors du chargement des données Supabase:"
       ConfigError w) /\
  saveDataToSupabase browser defaultDocument w =
    (Throw ConfigError,
     log browser "❌ Erreur lors de la sauvegarde Supabase:" ConfigError w) /\
  sent (snd (loadDataFromSupabase browser w)) = sent w /\
  sent (snd (saveDataToSupabase browser defaultDocument w)) = sent w /\
  remote (snd (saveDataToSupabase browser defaultDocument w)) = remote w.
Proof.
  intros w.
  apply (missing_config_sends_nothing browser w GET "app_data" VNull []
           defaultDocument).
  split; [left; reflexivity | right; reflexivity].
Defined.

(** X3: with a client, every call of [supabaseRequest] hands exactly one
    request to [fetch], whatever comes of it; the request carries the
    client's URL and key; it has a body only for a POST, PATCH or PUT with
    truthy data, and then the JSON of the data. *)
Theorem supabaseRequest_sends_one (E : Env) (m : method) (table : string)
    (data : value) (filters : list (string * value)) (c : client)
    (w w0 : world E) :
  initSupabase E w = (Ok c, w0) ->
  exists r,
    sent (snd (supabaseRequest E m table data filters w)) =
      (sent w ++ [r])%list /\
    req_method r = m /\ req_table r = table /\ req_filters r = filters /\
    req_base r = client_url c /\ req_key r = client_key c /\
    (m = GET \/ m = DELETE \/ truthy data = false -> req_body r = None) /\
    (m <> GET -> m <> DELETE -> truthy data = true ->
     req_body r = Some (to_json data)).
Proof.
  intros Hinit. exists (build_request c m table data filters).
  destruct (supabaseRequest E m table data filters w) as [r w'] eqn:H.
  destruct (supabaseRequest_sent E _ _ _ _ _ _ _ _ _ Hinit H) as (Hs & _).
  cbn [snd]. split; [exact Hs|]. repeat split.
  - intros [-> | [-> | Hf]]; cbn; try rewrite andb_false_r; try reflexivity.
    rewrite Hf. reflexivity.
  - intros Hg Hd Ht. cbn. rewrite Ht.
    destruct m; try reflexivity; congruence.
Qed.

Lemma supabaseRequest_sends_one_witness :
  exists r,
    sent (snd (supabaseRequest browser GET "app_data" (VObj []) id1
                 (page [] [Some (Rejected "offline")] 0))) =
      (sent (page [] [Some (Rejected "offline")] 0) ++ [r])%list /\
    req_method r = GET /\ req_table r = "app_data" /\ req_filters r = id1 /\
    req_base r = "https://x.supabase.co" /\ req_key r = "anon" /\
    (GET = GET \/ GET = DELETE \/ truthy (VObj []) = false ->
     req_body r = None) /\
    (GET <> GET -> GET <> DELETE -> truthy (VObj []) = true ->
     req_body r = Some (to_json (VObj []))).
Proof.
  apply (supabaseRequest_sends_one browser GET "app_data" (VObj []) id1
           {| client_url := "https://x.supabase.co"; client_key := "anon" |}
           (page [] [Some (Rejected "offline")] 0) _ eq_refl).
Defined.

(** X4: with a client, [supabaseRequest] returns exactly when [fetch] gives
    a response with a status from 200 to 299 that is the answer to a DELETE,
    has status 204, or has a JSON body; in every other case it throws. *)
Theorem supabaseRequest_returns_iff (E : Env) (m : method) (table : string)
    (data : value) (filters : list (string * value)) (c : client)
    (w w0 : world E) :
  initSupabase E w = (Ok c, w0) ->
  (exists rows,
     fst (supabaseRequest E m table data filters w) = Ok rows) <->
  accepted m
    (fst (fetch E (build_request c m table data filters) (remote w))).
Proof.
  intros Hinit. rewrite (supabaseRequest_run E _ _ _ _ _ _ _ Hinit).
  cbn [fst]. unfold accepted, read_response, response_ok.
  destruct (fst (fetch E _ (remote w))) as [msg|status text body].
  - split; [intros [rows H]; discriminate|].
    intros (st & tx & b & H & _); discriminate.
  - destruct ((200 <=? status) && (status <=? 299)) eqn:Hok; cbn [negb].
    + apply andb_prop in Hok. destruct Hok as [H1 H2].
      apply Z.leb_le in H1. apply Z.leb_le in H2.
      destruct (is_delete m || (status =? 204)) eqn:Hd.
      * split; [|intros _; eexists; reflexivity].
        intros _. exists status, text, body. split; [reflexivity|].
        split; [lia|].
        apply orb_prop in Hd. destruct Hd as [Hd|Hd].
        -- left. destruct m; try discriminate; reflexivity.
        -- right. left. apply Z.eqb_eq. exact Hd.
      * apply orb_false_elim in Hd. destruct Hd as [Hm Hs].
        apply Z.eqb_neq in Hs.
        destruct body as [l|].
        -- split; [|intros _; eexists; reflexivity].
           intros _. exists status, text, (Some l). split; [reflexivity|].
           split; [lia|]. right. right. discriminate.
        -- split; [intros [rows H]; discriminate|].
           intros (st & tx & b & H & _ & [Hdel|[H204|Hb]]);
             inversion H; subst.
           ++ discriminate Hm.
           ++ contradiction.
           ++ contradiction.
    + split; [intros [rows H]; discriminate|].
      intros (st & tx & b & H & Hr & _). inversion H; subst.
      apply andb_false_iff in Hok. destruct Hok as [Hok|Hok];
        [apply Z.leb_gt in Hok | apply Z.leb_gt in Hok]; lia.
Qed.

Lemma supabaseRequest_returns_iff_witness :
  (exists rows,
     fst (supabaseRequest browser GET "app_data" VNull []
            (page [defaultData] [] 0)) = Ok rows) <->
  accepted GET
    (fst (fetch browser
            (build_request
               {| client_url := "https://x.supabase.co";
                  client_key := "anon" |} GET "app_data" VNull [])
            (remote (page [defaultData] [] 0)))).
Proof.
  apply (supabaseRequest_returns_iff browser GET "app_data" VNull []
           {| client_url := "https://x.supabase.co"; client_key := "anon" |}
           (page [defaultData] [] 0) _ eq_refl).
Defined.

(** ** [loadDataFromSupabase] *)

Lemma log_mirror (E : Env) msg e (w : world E) : same_mirror w (log E msg e w).
Proof. split; reflexivity. Qed.

Lemma load_mirror (E : Env) (w w' : world E) r :
  loadDataFromSupabase E w = (r, w') -> same_mirror w w'.
Proof.
  unfold loadDataFromSupabase, try_catch, bind, console_error, throw, ret,
    lift.
  destruct (supabaseRequest E GET "app_data" VNull [] w)
    as [[found|e] w1] eqn:Hget;
    pose proof (supabaseRequest_mirror E _ _ _ _ _ _ _ Hget) as M1.
  - destruct found as [[|data rest]|].
    2:{ destruct (toInternal data); intros H; inversion H; subst;
          [exact M1|].
        apply (same_mirror_trans E _ _ _ M1). apply log_mirror. }
    all: destruct (supabaseRequest E POST "app_data" defaultData [] w1)
           as [[created|e] w2] eqn:Hpost;
         pose proof (supabaseRequest_mirror E _ _ _ _ _ _ _ Hpost) as M2;
         intros H; inversion H; subst;
         apply (same_mirror_trans E _ _ _ M1); [exact M2|];
         apply (same_mirror_trans E _ _ _ M2); apply log_mirror.
  - intros H; inversion H; subst.
    apply (same_mirror_trans E _ _ _ M1). apply log_mirror.
Qed.

(** X5: [loadDataFromSupabase] returns no document when a request fails.
    A failed read is rethrown after one entry on the console, and no create
    is sent; when the read finds nothing and the create fails, that error is
    rethrown in the same way, and the default document is not returned. *)
Theorem load_failure_paths (E : Env) (c : client) (w w0 : world E) :
  initSupabase E w = (Ok c, w0) ->
  (forall e w1,
     supabaseRequest E GET "app_data" VNull [] w = (Throw e, w1) ->
     loadDataFromSupabase E w =
       (Throw e,
        log E "❌ Erreur lors du chargement des données Supabase:" e w1) /\
     sent w1 = (sent w ++ [build_request c GET "app_data" VNull []])%list /\
     console w1 = console w) /\
  (forall found w1 e w2,
     supabaseRequest E GET "app_data" VNull [] w = (Ok found, w1) ->
     found = None \/ found = Some [] ->
     supabaseRequest E POST "app_data" defaultData [] w1 = (Throw e, w2) ->
     loadDataFromSupabase E w =
       (Throw e,
        log E "❌ Erreur lors du chargement des données Supabase:" e w2) /\
     sent w2 =
       (sent w ++ [build_request c GET "app_data" VNull [];
                   build_request c POST "app_data" defaultData []])%list).
Proof.
  intros Hinit. split.
  - intros e w1 Hget.
    destruct (supabaseRequest_sent E _ _ _ _ _ _ _ _ _ Hinit Hget)
      as (Hs & _ & _ & Hc).
    split; [apply (load_read_throws E _ _ _ Hget)|]. auto.
  - intros found w1 e w2 Hget Hnone Hpost.
    destruct (supabaseRequest_sent E _ _ _ _ _ _ _ _ _ Hinit Hget)
      as (Hs1 & Hr1 & _).
    destruct (supabaseRequest_sent E _ _ _ _ _ _ _ _ _
                (ready_init E _ _ Hr1) Hpost) as (Hs2 & _).
    split.
    + unfold loadDataFromSupabase, try_catch, bind. rewrite Hget.
      destruct Hnone as [-> | ->]; rewrite Hpost; reflexivity.
    + rewrite Hs2, Hs1, <- app_assoc. reflexivity.
Qed.

Lemma load_failure_paths_witness :
  (loadDataFromSupabase browser (page [] [Some (Rejected "offline")] 0) =
     (Throw (NetworkError "offline"),
      log browser "❌ Erreur lors du chargement des données Supabase:"
        (NetworkError "offline")
        (snd (supabaseRequest browser GET "app_data" VNull []
                (page [] [Some (Rejected "offline")] 0)))) /\
   sent (snd (supabaseRequest browser GET "app_data" VNull []
                (page [] [Some (Rejected "offline")] 0))) =
     [build_request
        {| client_url := "https://x.supabase.co"; client_key := "anon" |}
        GET "app_data" VNull []] /\
   console (snd (supabaseRequest browser GET "app_data" VNull []
                   (page [] [Some (Rejected "offline")] 0))) = []) /\
  fst (loadDataFromSupabase browser
         (page [] [None; Some (Response 409 "conflict" None)] 0)) =
    Throw (SupabaseError 409 "conflict").
Proof.
  pose proof (load_failure_paths browser
                {| client_url := "https://x.supabase.co";
                   client_key := "anon" |}
                (page [] [Some (Rejected "offline")] 0) _ eq_refl)
    as [Hread _].
  pose proof (load_failure_paths browser
                {| client_url := "https://x.supabase.co";
                   client_key := "anon" |}
                (page [] [None; Some (Response 409 "conflict" None)] 0)
                _ eq_refl)
    as [_ Hcreate].
  split.
  - apply (Hread (NetworkError "offline") _ eq_refl).
  - destruct (Hcreate (Some []) _ (SupabaseError 409 "conflict") _
                eq_refl (or_intror eq_refl) eq_refl) as [Hl _].
    rewrite Hl. reflexivity.
Defined.

(** X6: [loadDataFromSupabase] never touches the mirror: whatever its
    outcome, the page's cache object and [localStorage] are what they were
    (also when it creates the default row). *)
Theorem load_leaves_mirror (E : Env) (w : world E) :
  DATA_CACHE (snd (loadDataFromSupabase E w)) = DATA_CACHE w /\
  localStorage (snd (loadDataFromSupabase E w)) = localStorage w.
Proof.
  destruct (loadDataFromSupabase E w) as [r w'] eqn:H.
  apply (load_mirror E _ _ _ H).
Qed.

Lemma toInternal_reads (cols cols' : list (string * value)) :
  (forall k, In k read_keys -> lookup k cols' = lookup k cols) ->
  toInternal (VObj cols') = toInternal (VObj cols).
Proof.
  intros H. rewrite !toInternal_obj.
  rewrite !(H "links"), !(H "social_links"), !(H "admin_credentials"),
    !(H "statistics"), !(H "admin_messages"), !(H "setup_page_enabled");
    try reflexivity; cbn; auto 10.
Qed.

(** X7: when the read finds rows and the first is an object, the load sends
    that one read and nothing else, and returns an object with exactly the
    six fields of a document, [statistics] with exactly its three; the
    document depends on the six columns the file reads of the first row
    only, not on its other columns (its [id] among them) nor on the other
    rows. *)
Theorem load_reads_first_row (E : Env) (c : client) (w w0 w1 : world E)
    (cols : list (string * value)) (rest : list value) :
  initSupabase E w = (Ok c, w0) ->
  supabaseRequest E GET "app_data" VNull [] w =
    (Ok (Some (VObj cols :: rest)), w1) ->
  exists fields stats,
    loadDataFromSupabase E w = (Ok (VObj fields), w1) /\
    sent w1 = (sent w ++ [build_request c GET "app_data" VNull []])%list /\
    map fst fields = document_keys /\
    lookup "statistics" fields = VObj stats /\
    map fst stats = ["clicks"; "visits"; "dailyVisits"] /\
    (forall cols',
       (forall k, In k read_keys -> lookup k cols' = lookup k cols) ->
       toInternal (VObj cols') = Ok (VObj fields)).
Proof.
  intros Hinit Hget.
  destruct (supabaseRequest_sent E _ _ _ _ _ _ _ _ _ Hinit Hget) as (Hs & _).
  destruct (load_existing E _ _ _ _ Hget) as (doc & Hdoc & Hload).
  pose proof Hdoc as Hdoc'. rewrite toInternal_obj in Hdoc'.
  inversion Hdoc'; subst doc; clear Hdoc'.
  eexists. eexists. split; [exact Hload|]. split; [exact Hs|].
  split; [reflexivity|]. split; [reflexivity|]. split; [reflexivity|].
  intros cols' Hsame. rewrite (toInternal_reads _ _ Hsame). exact Hdoc.
Qed.

Lemma load_reads_first_row_witness :
  exists fields stats,
    loadDataFromSupabase browser
      (page [VObj [("id", VNum 7); ("extra", VStr "x"); ("links", VArr [])];
             defaultData] [] 0) =
      (Ok (VObj fields),
       snd (supabaseRequest browser GET "app_data" VNull []
              (page [VObj [("id", VNum 7); ("extra", VStr "x");
                           ("links", VArr [])];
                     defaultData] [] 0))) /\
    sent (snd (supabaseRequest browser GET "app_data" VNull []
                 (page [VObj [("id", VNum 7); ("extra", VStr "x");
                              ("links", VArr [])];
                        defaultData] [] 0))) =
      ([] ++ [build_request
                {| client_url := "https://x.supabase.co";
                   client_key := "anon" |} GET "app_data" VNull []])%list /\
    map fst fields = document_keys /\
    lookup "statistics" fields = VObj stats /\
    map fst stats = ["clicks"; "visits"; "dailyVisits"] /\
    (forall cols',
       (forall k, In k read_keys ->
                  lookup k cols' =
                  lookup k [("id", VNum 7); ("extra", VStr "x");
                            ("links", VArr [])]) ->
       toInternal (VObj cols') = Ok (VObj fields)).
Proof.
  apply (load_reads_first_row browser
           {| client_url := "https://x.supabase.co"; client_key := "anon" |}
           (page [VObj [("id", VNum 7); ("extra", VStr "x");
                        ("links", VArr [])]; defaultData] [] 0)
           _ _ _ _ eq_refl eq_refl).
Defined.

(** ** [saveDataToSupabase] *)

Lemma write_row_sent (E : Env) existing row c (w w' : world E) r :
  ready c w ->
  write_row E existing row w = (r, w') ->
  sent w' =
    (sent w ++ [build_request c (if found existing then PATCH else POST)
                  "app_data" row (if found existing then id1 else [])])%list.
Proof.
  intros Hr H. unfold write_row in H.
  destruct existing as [[|x l]|]; cbn [found];
    apply (supabaseRequest_sent E _ _ _ _ _ _ _ _ _ (ready_init E _ _ Hr) H).
Qed.

Lemma save_sent (E : Env) fields c (w w0 w1 : world E) existing :
  initSupabase E w = (Ok c, w0) ->
  supabaseRequest E GET "app_data" VNull id1 w0 = (Ok existing, w1) ->
  sent (snd (saveDataToSupabase E (VObj fields) w)) =
    (sent w ++
     [build_request c GET "app_data" VNull id1;
      build_request c (if found existing then PATCH else POST) "app_data"
        (VObj (wire_fields fields)) (if found existing then id1 else [])])%list.
Proof.
  intros Hinit Hcheck.
  destruct (initSupabase_ok E _ _ _ Hinit) as (Hr0 & _ & Hs0 & _).
  destruct (supabaseRequest_sent E _ _ _ _ _ _ _ _ _
              (ready_init E _ _ Hr0) Hcheck) as (Hs1 & Hr1 & _).
  destruct (write_row E existing (VObj (wire_fields fields)) w1)
    as [[r|e] w2] eqn:Hwrite;
    pose proof (write_row_sent E _ _ _ _ _ _ Hr1 Hwrite) as Hs2.
  - destruct (save_written E _ _ _ _ _ _ _ _ _
                Hinit (toWire_obj fields) Hcheck Hwrite)
      as (w' & Hsave & _ & _ & Hs & _).
    rewrite Hsave. cbn [snd]. rewrite Hs, Hs2, Hs1, Hs0, <- app_assoc.
    reflexivity.
  - rewrite (save_write_throws E _ _ _ _ _ _ _ _ _
               Hinit (toWire_obj fields) Hcheck Hwrite).
    cbn [snd log sent]. rewrite Hs2, Hs1, Hs0, <- app_assoc. reflexivity.
Qed.



Lemma update_localStorage_exact (E : Env) data (w : world E) :
  localStorage (snd (update_localStorage E data w)) =
  write_until_refused E
    [("lastDataSave", ItemText (toString (now w)));
     ("cachedData", ItemJson (to_json data));
     ("cachedDataTime", ItemText (toString (now w)))]
    (localStorage w).
Proof.
  unfold update_localStorage, try_catch, bind, Date_now,
    localStorage_setItem, ret.
  cbn [write_until_refused].
  destruct (setItem E "lastDataSave" _ (localStorage w)) as [s1|];
    [|reflexivity].
  cbn [localStorage set_localStorage].
  destruct (setItem E "cachedData" _ s1) as [s2|]; [|reflexivity].
  cbn [localStorage set_localStorage].
  destruct (setItem E "cachedDataTime" _ s2) as [s3|]; reflexivity.
Qed.

(** X9: after a successful write, the save writes to [localStorage], in
    this order, [lastDataSave], [cachedData] and [cachedDataTime], and stops
    at the first entry that is refused: what was written before stays, what
    comes after is not written. *)
Theorem save_writes_localStorage_in_order (E : Env) (data row : value)
    (c : client) (w w0 w1 w2 : world E)
    (existing r : option (list value)) :
  initSupabase E w = (Ok c, w0) ->
  toWire data = Ok row ->
  supabaseRequest E GET "app_data" VNull id1 w0 = (Ok existing, w1) ->
  write_row E existing row w1 = (Ok r, w2) ->
  localStorage (snd (saveDataToSupabase E data w)) =
  write_until_refused E
    [("lastDataSave", ItemText (toString (now w)));
     ("cachedData", ItemJson (to_json data));
     ("cachedDataTime", ItemText (toString (now w)))]
    (localStorage w).
Proof.
  intros Hinit Hrow Hcheck Hwrite.
  unfold saveDataToSupabase, try_catch, bind, lift.
  rewrite Hinit, Hrow, Hcheck, Hwrite.
  destruct (update_DATA_CACHE_run E data w2)
    as (w3 & H3 & _ & _ & _ & _ & Hl3 & Hn3 & _).
  rewrite H3.
  pose proof (update_localStorage_exact E data w3) as Hx.
  destruct (update_localStorage_run E data w3) as (w4 & H4 & _).
  rewrite H4 in *. cbn [snd] in *. unfold ret. cbn [snd].
  rewrite Hx, Hl3, Hn3.
  destruct (initSupabase_ok E _ _ _ Hinit) as (_ & _ & _ & _ & L0 & _ & N0).
  destruct (supabaseRequest_frame E _ _ _ _ _ _ _ Hcheck)
    as (_ & L1 & _ & N1).
  assert (L2 : localStorage w2 = localStorage w1 /\ now w2 = now w1).
  { unfold write_row in Hwrite.
    destruct existing as [[|x l]|];
      destruct (supabaseRequest_frame E _ _ _ _ _ _ _ Hwrite)
        as (_ & ? & _ & ?); auto. }
  destruct L2 as [L2 N2].
  rewrite L2, L1, L0, N2, N1, N0. reflexivity.
Qed.

Lemma save_writes_localStorage_in_order_witness :
  localStorage (snd (saveDataToSupabase browser defaultDocument
                       (page [defaultData] [] 1))) =
  write_until_refused browser
    [("lastDataSave", ItemText (toString (now (page [defaultData] [] 1))));
     ("cachedData", ItemJson (to_json defaultDocument));
     ("cachedDataTime",
       ItemText (toString (now (page [defaultData] [] 1))))]
    (localStorage (page [defaultData] [] 1)).
Proof.
  apply (save_writes_localStorage_in_order browser defaultDocument _
           {| client_url := "https://x.supabase.co"; client_key := "anon" |}
           (page [defaultData] [] 1) _ _ _ _ _
           eq_refl eq_refl eq_refl eq_refl).
Defined.

(** With room for one entry, only [lastDataSave] is written. *)
Example localStorage_with_room_for_one :
  items (localStorage (snd (saveDataToSupabase browser defaultDocument
                              (page [defaultData] [] 1)))) =
  [("lastDataSave", ItemText "1700000000000")].
Proof. vm_compute. reflexivity. Qed.

(** X10: a save of [null] or [undefined], and an append of a [null] or
    [undefined] message, throw a [TypeError] before they write anything:
    the save sends no request at all, and the append sends nothing after
    its load. *)
Theorem null_arguments_throw (E : Env) (c : client) (w w0 w1 : world E)
    (data message : value) (fields : list (string * value)) :
  initSupabase E w = (Ok c, w0) ->
  nullish data = true ->
  nullish message = true ->
  loadDataFromSupabase E w = (Ok (VObj fields), w1) ->
  (saveDataToSupabase E data w =
     (Throw (TypeError "links"),
      log E "❌ Erreur lors de la sauvegarde Supabase:"
        (TypeError "links") w0) /\
   sent w0 = sent w /\ remote w0 = remote w) /\
  addAdminMessage E message w =
    (Throw (TypeError "text"),
     log E "Erreur lors de l'ajout du message:" (TypeError "text") w1).
Proof.
  intros Hinit Hdata Hmsg Hload. split.
  - destruct (initSupabase_ok E _ _ _ Hinit) as (_ & Hg & Hs & _).
    split; [|auto].
    unfold saveDataToSupabase, try_catch, bind, lift. rewrite Hinit.
    destruct data; try discriminate Hdata; reflexivity.
  - unfold addAdminMessage, try_catch, bind, lift. rewrite Hload.
    cbn [prop set_prop]. unfold newMessage, bind, Date_now, lift.
    destruct message; try discriminate Hmsg; reflexivity.
Qed.

Lemma null_arguments_throw_witness :
  (saveDataToSupabase browser VNull (page [defaultData] [] 0) =
     (Throw (TypeError "links"),
      log browser "❌ Erreur lors de la sauvegarde Supabase:"
        (TypeError "links")
        (snd (initSupabase browser (page [defaultData] [] 0)))) /\
   sent (snd (initSupabase browser (page [defaultData] [] 0))) =
     sent (page [defaultData] [] 0) /\
   remote (snd (initSupabase browser (page [defaultData] [] 0))) =
     remote (page [defaultData] [] 0)) /\
  addAdminMessage browser VUndefined (page [defaultData] [] 0) =
    (Throw (TypeError "text"),
     log browser "Erreur lors de l'ajout du message:" (TypeError "text")
       (snd (loadDataFromSupabase browser (page [defaultData] [] 0)))).
Proof.
  apply (null_arguments_throw browser
           {| client_url := "https://x.supabase.co"; client_key := "anon" |}
           (page [defaultData] [] 0) _ _ VNull VUndefined _
           eq_refl eq_refl eq_refl eq_refl).
Defined.

(** ** The pollers *)

(** X11: a poller started without a callback still follows the document:
    a tick whose load succeeds invokes nothing, and leaves the count of the
    visit poller at the larger of the count and the number of visits, and
    the count of the message poller at the number of messages. *)
Theorem pollers_without_callback (E : Env) (n : nat) (last : Z)
    (w w1 : world E) (data : value) (visits msgs : list value) :
  loadDataFromSupabase E w = (Ok data, w1) ->
  get (get data "statistics") "visits" = VArr visits ->
  get data "adminMessages" = VArr msgs ->
  newVisits_tick E None n w = ((Nat.max n (List.length visits), []), w1) /\
  adminMessages_tick E None (VNum last) w =
    ((VNum (Z.of_nat (List.length msgs)), []), w1).
Proof.
  intros Hload Hvisits Hmsgs. split.
  - unfold newVisits_tick, newVisits_try.
    rewrite Hload, (visits_of_array _ _ Hvisits).
    destruct (Nat.ltb n (List.length visits)) eqn:Hlt.
    + apply Nat.ltb_lt in Hlt.
      assert (Hnone : forall l (w : world E),
                 forEach E None l w = (Ok tt, [], w)).
      { induction l as [|x l IH]; intros w'; [reflexivity|]. cbn. apply IH. }
      rewrite Hnone. rewrite Nat.max_r by lia. reflexivity.
    + apply Nat.ltb_ge in Hlt. rewrite Nat.max_l by lia. reflexivity.
  - assert (Hof : messages_of data =
                  Ok (VArr msgs, VNum (Z.of_nat (List.length msgs)))).
    { unfold messages_of. unfold get in Hmsgs.
      destruct (prop data "adminMessages") as [m|e]; [|discriminate].
      subst m. reflexivity. }
    unfold adminMessages_tick, adminMessages_try. rewrite Hload, Hof.
    unfold strict_neq. cbn [strict_eq].
    destruct (Z.of_nat (List.length msgs) =? last) eqn:Heq; cbn [negb];
      [|reflexivity].
    apply Z.eqb_eq in Heq. rewrite Heq. reflexivity.
Qed.

Lemma pollers_without_callback_witness :
  let w := page [row_with five_visits three_messages] [] 0 in
  newVisits_tick browser None 3 w =
    ((Nat.max 3 (List.length five_visits), []),
     snd (loadDataFromSupabase browser w)) /\
  adminMessages_tick browser None (VNum 0) w =
    ((VNum (Z.of_nat (List.length three_messages)), []),
     snd (loadDataFromSupabase browser w)).
Proof.
  intros w.
  apply (pollers_without_callback browser 3 0 w _ _ five_visits
           three_messages eq_refl eq_refl eq_refl).
Defined.

Lemma firstn_length_firstn {A} (k : nat) (l : list A) :
  firstn (List.length (firstn k l)) l = firstn k l.
Proof.
  rewrite length_firstn.
  destruct (Nat.le_ge_cases k (List.length l)) as [H|H].
  - rewrite Nat.min_l by exact H. reflexivity.
  - rewrite Nat.min_r by exact H.
    rewrite !firstn_all2 by lia. reflexivity.
Qed.

Lemma skipn_firstn_nil {A} (n : nat) (l : list A) :
  skipn n (firstn n l) = [].
Proof. apply skipn_all2. rewrite length_firstn. lia. Qed.

(** What was delivered up to [c] and what is delivered from [c] to [c']
    make what is delivered up to [c']. *)
Lemma skipn_firstn_app {A} (n c c' : nat) (l : list A) :
  (n <= c)%nat -> (c <= c')%nat ->
  (skipn n (firstn c l) ++ skipn c (firstn c' l))%list =
  skipn n (firstn c' l).
Proof.
  intros Hnc Hcc.
  assert (Hf : firstn c (firstn c' l) = firstn c l).
  { rewrite firstn_firstn. rewrite Nat.min_l by exact Hcc. reflexivity. }
  rewrite <- Hf.
  rewrite <- (firstn_skipn c (firstn c' l)) at 3.
  rewrite skipn_app.
  destruct (Nat.le_ge_cases c (List.length (firstn c' l))) as [H|H].
  - rewrite length_firstn, Nat.min_l by exact H.
    replace (n - c)%nat with 0%nat by lia. reflexivity.
  - rewrite (skipn_all2 (firstn c' l)) by exact H.
    rewrite skipn_nil, !app_nil_r. reflexivity.
Qed.

Lemma newVisits_tick_prefix (E : Env) (f : value -> M E unit)
    (all : list value) (n : nat) (w : world E) :
  always_returns f ->
  match loadDataFromSupabase E w with
  | (Ok data, _) => exists k, visits_of data = Ok (VArr (firstn k all))
  | (Throw _, _) => True
  end ->
  exists c,
    (n <= c)%nat /\
    fst (newVisits_tick E (Some f) n w) = (c, skipn n (firstn c all)).
Proof.
  intros Hret Hshow. unfold newVisits_tick, newVisits_try.
  destruct (loadDataFromSupabase E w) as [[data|e] w1].
  2:{ exists n. split; [lia|]. cbn. rewrite skipn_firstn_nil. reflexivity. }
  destruct Hshow as [k Hk]. rewrite Hk.
  destruct (Nat.ltb n (List.length (firstn k all))) eqn:Hlt.
  - apply Nat.ltb_lt in Hlt.
    destruct (forEach_returns E f (skipn n (firstn k all)) w1) as [w2 Hall].
    { intros v w' _. apply Hret. }
    rewrite Hall. exists (List.length (firstn k all)). split; [lia|].
    cbn. rewrite firstn_length_firstn. reflexivity.
  - exists n. split; [lia|]. cbn. rewrite skipn_firstn_nil. reflexivity.
Qed.



(** The schedule of the witness, run: five invocations, one per visit. *)
Example visits_delivered_once_run :
  fst (poll browser (newVisits_tick browser (Some note))
         [replace_table [row_with (firstn 3 five_visits) []];
          outage [Some (Rejected "offline")];
          outage [];
          replace_table [row_with five_visits []]] 0%nat (page [] [] 0)) =
  (5%nat, five_visits).
Proof. vm_compute. reflexivity. Qed.

(** ** The message log *)

Lemma toInternal_document (data doc : value) :
  toInternal data = Ok doc ->
  exists l s c k v d m en,
    doc = document l s c k v d (js_or m (VArr [])) en.
Proof.
  unfold toInternal, nested, document.
  destruct data; cbn [prop rbind]; rewrite ?opt_prop_get; cbn [rbind];
    intros H; inversion H; do 8 eexists; reflexivity.
Qed.

(** A load that returns, returns a document: an object whose log is truthy. *)
Lemma load_returns_document (E : Env) (w w1 : world E) (data : value) :
  loadDataFromSupabase E w = (Ok data, w1) ->
  exists l s c k v d m en,
    data = document l s c k v d (js_or m (VArr [])) en.
Proof.
  unfold loadDataFromSupabase, try_catch, bind, console_error, throw, ret,
    lift.
  destruct (supabaseRequest E GET "app_data" VNull [] w)
    as [[found|e] w0]; [|discriminate].
  destruct found as [[|row rest]|].
  2:{ destruct (toInternal row) as [doc|e] eqn:Hdoc; [|discriminate].
      intros H; inversion H; subst.
      apply (toInternal_document _ _ Hdoc). }
  all: destruct (supabaseRequest E POST "app_data" defaultData [] w0)
         as [[created|e] w2]; [|discriminate];
       intros H; inversion H; subst;
       exists (VArr []), (VObj [("discord", VStr ""); ("x", VStr "")]),
         VNull, (VArr []), (VArr []), (VObj []), VUndefined, (VBool true);
       reflexivity.
Qed.

Lemma newMessage_world (E : Env) (message : value) (w w' : world E) r :
  newMessage E message w = (r, w') -> w' = w.
Proof.
  unfold newMessage, bind, Date_now, lift, ret.
  destruct (prop message "text"); [|intros H; inversion H; reflexivity].
  destruct (prop message "type"); [|intros H; inversion H; reflexivity].
  destruct (prop message "active"); intros H; inversion H; reflexivity.
Qed.

(** [addAdminMessage] either throws before it saves, in the state the load
    left, or saves one document and returns the message it built. *)
Lemma add_cases (E : Env) (message : value) (w : world E) :
  (exists e r w1,
     loadDataFromSupabase E w = (r, w1) /\
     addAdminMessage E message w =
       (Throw e, log E "Erreur lors de l'ajout du message:" e w1)) \/
  (exists data fields msg w1,
     loadDataFromSupabase E w = (Ok data, w1) /\
     newMessage E message w1 = (Ok msg, w1) /\
     addAdminMessage E message w =
       match saveDataToSupabase E (VObj fields) w1 with
       | (Ok _, w2) => (Ok msg, w2)
       | (Throw e, w2) =>
           (Throw e, log E "Erreur lors de l'ajout du message:" e w2)
       end).
Proof.
  destruct (loadDataFromSupabase E w) as [[data|e] w1] eqn:Hload.
  2:{ left. exists e, (Throw e), w1. split; [reflexivity|].
      unfold addAdminMessage, try_catch, bind. rewrite Hload. reflexivity. }
  destruct (load_returns_document E _ _ _ Hload)
    as (l & s & c & k & v & d & m & en & ->).
  unfold addAdminMessage, try_catch, bind. rewrite Hload.
  unfold document.
  cbn [lift prop set_prop lookup assign String.eqb Ascii.eqb Bool.eqb].
  destruct (newMessage E message w1) as [[msg|e] w1'] eqn:Hnew;
    pose proof (newMessage_world E _ _ _ _ Hnew); subst w1'.
  2:{ left. exists e, (Ok (document l s c k v d (js_or m (VArr [])) en)), w1.
      split; reflexivity. }
  destruct (push (js_or (js_or m (VArr [])) (VArr [])) msg)
    as [pushed|e] eqn:Hpush.
  2:{ left. exists e, (Ok (document l s c k v d (js_or m (VArr [])) en)), w1.
      split; reflexivity. }
  cbn [set_prop assign String.eqb Ascii.eqb Bool.eqb lift].
  unfold throw, console_error, ret.
  match goal with
  | |- context [saveDataToSupabase E (VObj ?f) w1] =>
      right; exists (document l s c k v d (js_or m (VArr [])) en), f, msg, w1
  end.
  split; [reflexivity|]. split; [exact Hnew|].
  destruct (saveDataToSupabase E _ w1) as [[b|e] w2]; reflexivity.
Qed.

Lemma delete_cases (E : Env) (messageId : value) (w : world E) :
  (exists e r w1,
     loadDataFromSupabase E w = (r, w1) /\
     deleteAdminMessage E messageId w =
       (Throw e, log E "Erreur lors de la suppression du message:" e w1)) \/
  (exists data fields w1,
     loadDataFromSupabase E w = (Ok data, w1) /\
     deleteAdminMessage E messageId w =
       match saveDataToSupabase E (VObj fields) w1 with
       | (Ok _, w2) => (Ok true, w2)
       | (Throw e, w2) =>
           (Throw e, log E "Erreur lors de la suppression du message:" e w2)
       end).
Proof.
  destruct (loadDataFromSupabase E w) as [[data|e] w1] eqn:Hload.
  2:{ left. exists e, (Throw e), w1. split; [reflexivity|].
      unfold deleteAdminMessage, try_catch, bind. rewrite Hload.
      reflexivity. }
  destruct (load_returns_document E _ _ _ Hload)
    as (l & s & c & k & v & d & m & en & ->).
  unfold deleteAdminMessage, try_catch, bind. rewrite Hload.
  unfold document.
  cbn [lift prop set_prop lookup assign String.eqb Ascii.eqb Bool.eqb].
  destruct (js_filter (other_id messageId)
              (js_or (js_or m (VArr [])) (VArr []))) as [kept|e] eqn:Hkept.
  2:{ left. exists e, (Ok (document l s c k v d (js_or m (VArr [])) en)), w1.
      split; reflexivity. }
  cbn [set_prop assign String.eqb Ascii.eqb Bool.eqb lift].
  unfold throw, console_error, ret.
  match goal with
  | |- context [saveDataToSupabase E (VObj ?f) w1] =>
      right; exists (document l s c k v d (js_or m (VArr [])) en), f, w1
  end.
  split; [reflexivity|].
  destruct (saveDataToSupabase E _ w1) as [[b|e] w2]; reflexivity.
Qed.

(** X13: an [addAdminMessage] or [deleteAdminMessage] that throws has not
    touched the mirror: the page's cache object and [localStorage] are what
    they were, and the error it throws is the last entry on the console. *)
Theorem failed_log_operation_leaves_mirror (E : Env)
    (message messageId : value) (w : world E) (e : error) :
  (fst (addAdminMessage E message w) = Throw e ->
   exists w1,
     snd (addAdminMessage E message w) =
       log E "Erreur lors de l'ajout du message:" e w1 /\
     same_mirror w w1) /\
  (fst (deleteAdminMessage E messageId w) = Throw e ->
   exists w1,
     snd (deleteAdminMessage E messageId w) =
       log E "Erreur lors de la suppression du message:" e w1 /\
     same_mirror w w1).
Proof.
  split.
  - destruct (add_cases E message w)
      as [(e' & r & w1 & Hload & ->)|(data & fields & msg & w1 & Hload & _ & ->)];
      pose proof (load_mirror E _ _ _ Hload) as M1.
    + cbn [fst snd]. intros H; inversion H; subst. exists w1. auto.
    + destruct (saveDataToSupabase E (VObj fields) w1) as [[b|e'] w2] eqn:Hsave;
        cbn [fst snd]; intros H; inversion H; subst.
      exists w2. split; [reflexivity|].
      apply (same_mirror_trans E _ _ _ M1).
      apply (save_throw_mirror E _ _ _ _ Hsave).
  - destruct (delete_cases E messageId w)
      as [(e' & r & w1 & Hload & ->)|(data & fields & w1 & Hload & ->)];
      pose proof (load_mirror E _ _ _ Hload) as M1.
    + cbn [fst snd]. intros H; inversion H; subst. exists w1. auto.
    + destruct (saveDataToSupabase E (VObj fields) w1) as [[b|e'] w2] eqn:Hsave;
        cbn [fst snd]; intros H; inversion H; subst.
      exists w2. split; [reflexivity|].
      apply (same_mirror_trans E _ _ _ M1).
      apply (save_throw_mirror E _ _ _ _ Hsave).
Qed.

Lemma failed_log_operation_leaves_mirror_witness :
  let w := cached_page [row_with [] three_messages]
             [None; Some (Rejected "offline")] 3 in
  (exists w1,
     snd (addAdminMessage browser (VObj [("text", VStr "hello")]) w) =
       log browser "Erreur lors de l'ajout du message:"
         (NetworkError "offline") w1 /\
     same_mirror w w1) /\
  (exists w1,
     snd (deleteAdminMessage browser (VStr "2") w) =
       log browser "Erreur lors de la suppression du message:"
         (NetworkError "offline") w1 /\
     same_mirror w w1).
Proof.
  intros w.
  destruct (failed_log_operation_leaves_mirror browser
              (VObj [("text", VStr "hello")]) (VStr "2") w
              (NetworkError "offline")) as [Hadd Hdelete].
  split; [apply Hadd|apply Hdelete]; vm_compute; reflexivity.
Defined.

Lemma filter_list_nullish (messageId : value) (l : list value) :
  existsb nullish l = true ->
  filter_list (other_id messageId) l = Throw (TypeError "id").
Proof.
  induction l as [|x l IH]; [discriminate|].
  cbn [existsb filter_list]. intros H.
  destruct (nullish x) eqn:Hx.
  - destruct x; try discriminate Hx; reflexivity.
  - cbn [orb] in H. rewrite (IH H).
    unfold other_id. rewrite (prop_get _ _ Hx). reflexivity.
Qed.

(** X14: a log that the operations cannot handle makes them throw a
    [TypeError] before anything is saved, in the state the load left.  A
    log that is not an array (a string, a number, an object) stops both
    [addAdminMessage], at [push], and [deleteAdminMessage], at [filter]; a
    log that holds a [null] stops [deleteAdminMessage], at [msg.id]. *)
Theorem malformed_log_saves_nothing (E : Env) (message messageId : value)
    (w w1 : world E) (data : value) :
  loadDataFromSupabase E w = (Ok data, w1) ->
  (match get data "adminMessages" with VArr _ => False | _ => True end ->
   nullish message = false ->
   addAdminMessage E message w =
     (Throw (TypeError "push"),
      log E "Erreur lors de l'ajout du message:" (TypeError "push") w1) /\
   deleteAdminMessage E messageId w =
     (Throw (TypeError "filter"),
      log E "Erreur lors de la suppression du message:"
        (TypeError "filter") w1)) /\
  (forall msgs,
     get data "adminMessages" = VArr msgs ->
     existsb nullish msgs = true ->
     deleteAdminMessage E messageId w =
       (Throw (TypeError "id"),
        log E "Erreur lors de la suppression du message:"
          (TypeError "id") w1)).
Proof.
  intros Hload.
  destruct (load_returns_document E _ _ _ Hload)
    as (l & s & c & k & v & d & m & en & ->).
  unfold document.
  cbn [get prop lookup String.eqb Ascii.eqb Bool.eqb].
  assert (Hidem : js_or (js_or m (VArr [])) (VArr []) = js_or m (VArr []))
    by apply js_or_idem.
  split.
  - intros Hshape Hmessage. split.
    + unfold addAdminMessage, try_catch, bind. rewrite Hload.
      unfold document.
      cbn [lift prop set_prop lookup assign String.eqb Ascii.eqb Bool.eqb].
      rewrite Hidem.
      unfold newMessage, bind, Date_now, lift, ret.
      rewrite !(prop_get _ _ Hmessage).
      destruct (js_or m (VArr [])); try contradiction; reflexivity.
    + unfold deleteAdminMessage, try_catch, bind. rewrite Hload.
      unfold document.
      cbn [lift prop set_prop lookup assign String.eqb Ascii.eqb Bool.eqb].
      rewrite Hidem.
      destruct (js_or m (VArr [])); try contradiction; reflexivity.
  - intros msgs Hmsgs Hnull.
    unfold deleteAdminMessage, try_catch, bind. rewrite Hload.
    unfold document.
    cbn [lift prop set_prop lookup assign String.eqb Ascii.eqb Bool.eqb].
    rewrite Hidem, Hmsgs. cbn [js_filter].
    rewrite (filter_list_nullish _ _ Hnull). reflexivity.
Qed.

Lemma malformed_log_saves_nothing_witness :
  let text := page [VObj [("id", VNum 1); ("admin_messages", VStr "none")]]
                [] 0 in
  let holed := page [row_with [] [VObj [("id", VStr "1")]; VNull]] [] 0 in
  (addAdminMessage browser (VObj [("text", VStr "hello")]) text =
     (Throw (TypeError "push"),
      log browser "Erreur lors de l'ajout du message:" (TypeError "push")
        (snd (loadDataFromSupabase browser text))) /\
   deleteAdminMessage browser (VStr "1") text =
     (Throw (TypeError "filter"),
      log browser "Erreur lors de la suppression du message:"
        (TypeError "filter") (snd (loadDataFromSupabase browser text)))) /\
  deleteAdminMessage browser (VStr "1") holed =
    (Throw (TypeError "id"),
     log browser "Erreur lors de la suppression du message:"
       (TypeError "id") (snd (loadDataFromSupabase browser holed))).
Proof.
  intros text holed. split.
  - refine (proj1 (malformed_log_saves_nothing browser
                     (VObj [("text", VStr "hello")]) (VStr "1") text
                     (snd (loadDataFromSupabase browser text))
                     (document (VArr [])
                        (VObj [("discord", VStr ""); ("x", VStr "")]) VNull
                        (VArr []) (VArr []) (VObj []) (VStr "none")
                        (VBool true)) _) _ _).
    + vm_compute. reflexivity.
    + exact I.
    + reflexivity.
  - refine (proj2 (malformed_log_saves_nothing browser VNull (VStr "1") holed
                     (snd (loadDataFromSupabase browser holed))
                     (document (VArr [])
                        (VObj [("discord", VStr ""); ("x", VStr "")]) VNull
                        (VArr []) (VArr []) (VObj [])
                        (VArr [VObj [("id", VStr "1")]; VNull])
                        (VBool true)) _)
              [VObj [("id", VStr "1")]; VNull] _ _).
    + vm_compute. reflexivity.
    + reflexivity.
    + reflexivity.
Defined.

Lemma filter_twice {A} (f g : A -> bool) (l : list A) :
  filter g (filter f l) = filter (fun x => f x && g x) l.
Proof.
  induction l as [|x l IH]; [reflexivity|]. cbn [filter].
  destruct (f x); cbn [filter andb]; [|exact IH].
  destruct (g x); rewrite IH; reflexivity.
Qed.

Lemma store_delete_twice c (w w0 : world browser) msgs a b :
  initSupabase browser w = (Ok c, w0) -> serving w -> log_is w msgs ->
  forallb json msgs = true ->
  forallb (fun m => negb (nullish m)) msgs = true ->
  exists w1 w2,
    deleteAdminMessage browser a w = (Ok true, w1) /\
    deleteAdminMessage browser b w1 = (Ok true, w2) /\
    stored_log w1 (filter (fun m => strict_neq (get m "id") a) msgs) /\
    stored_log w2
      (filter (fun m => strict_neq (get m "id") a && strict_neq (get m "id") b)
         msgs).
Proof.
  intros Hinit Hserving Hlog Hjson Hobjects.
  destruct (store_delete c w w0 msgs a Hinit Hserving Hlog Hjson Hobjects)
    as (w1 & Hd1 & Hr1 & Hs1 & Hl1).
  destruct (store_delete c w1 w1 _ b (ready_init browser _ _ Hr1) Hs1
              (or_intror Hl1)
              (forallb_filter_keeps _ _ _ Hjson)
              (forallb_filter_keeps _ _ _ Hobjects))
    as (w2 & Hd2 & _ & _ & Hl2).
  exists w1, w2. rewrite filter_twice in Hl2. auto.
Qed.

(** X15: deletions compose.  Deleting the id [a] and then the id [b]
    leaves the messages that have neither id, and so does deleting [b] and
    then [a]; deleting [a] a second time changes nothing. *)
Theorem deletes_compose (c : client) (w w0 : world browser)
    (msgs : list value) (a b : value) :
  initSupabase browser w = (Ok c, w0) ->
  serving w ->
  log_is w msgs ->
  forallb json msgs = true ->
  forallb (fun m => negb (nullish m)) msgs = true ->
  (exists w1 w2,
     deleteAdminMessage browser a w = (Ok true, w1) /\
     deleteAdminMessage browser b w1 = (Ok true, w2) /\
     stored_log w2
       (filter (fun m => strict_neq (get m "id") a &&
                         strict_neq (get m "id") b) msgs)) /\
  (exists w1 w2,
     deleteAdminMessage browser b w = (Ok true, w1) /\
     deleteAdminMessage browser a w1 = (Ok true, w2) /\
     stored_log w2
       (filter (fun m => strict_neq (get m "id") a &&
                         strict_neq (get m "id") b) msgs)) /\
  (exists w1 w2,
     deleteAdminMessage browser a w = (Ok true, w1) /\
     deleteAdminMessage browser a w1 = (Ok true, w2) /\
     stored_log w1 (filter (fun m => strict_neq (get m "id") a) msgs) /\
     stored_log w2 (filter (fun m => strict_neq (get m "id") a) msgs)).
Proof.
  intros Hinit Hserving Hlog Hjson Hobjects. split; [|split].
  - destruct (store_delete_twice c w w0 msgs a b Hinit Hserving Hlog Hjson
                Hobjects) as (w1 & w2 & H1 & H2 & _ & Hl).
    exists w1, w2. auto.
  - destruct (store_delete_twice c w w0 msgs b a Hinit Hserving Hlog Hjson
                Hobjects) as (w1 & w2 & H1 & H2 & _ & Hl).
    exists w1, w2. split; [exact H1|]. split; [exact H2|].
    erewrite filter_ext; [exact Hl|].
    intros m. apply andb_comm.
  - destruct (store_delete_twice c w w0 msgs a a Hinit Hserving Hlog Hjson
                Hobjects) as (w1 & w2 & H1 & H2 & Hl1 & Hl2).
    exists w1, w2. split; [exact H1|]. split; [exact H2|].
    split; [exact Hl1|].
    erewrite filter_ext; [exact Hl2|].
    intros m. cbv beta. destruct (strict_neq (get m "id") a); reflexivity.
Qed.

Lemma deletes_compose_witness :
  let w := page [row_with [] three_messages] [] 0 in
  let kept :=
    filter (fun m => strict_neq (get m "id") (VStr "1") &&
                     strict_neq (get m "id") (VStr "3")) three_messages in
  (exists w1 w2,
     deleteAdminMessage browser (VStr "1") w = (Ok true, w1) /\
     deleteAdminMessage browser (VStr "3") w1 = (Ok true, w2) /\
     stored_log w2 kept) /\
  (exists w1 w2,
     deleteAdminMessage browser (VStr "3") w = (Ok true, w1) /\
     deleteAdminMessage browser (VStr "1") w1 = (Ok true, w2) /\
     stored_log w2 kept) /\
  (exists w1 w2,
     deleteAdminMessage browser (VStr "1") w = (Ok true, w1) /\
     deleteAdminMessage browser (VStr "1") w1 = (Ok true, w2) /\
     stored_log w1
       (filter (fun m => strict_neq (get m "id") (VStr "1")) three_messages) /\
     stored_log w2
       (filter (fun m => strict_neq (get m "id") (VStr "1")) three_messages)).
Proof.
  intros w kept.
  apply (deletes_compose
           {| client_url := "https://x.supabase.co"; client_key := "anon" |}
           w (snd (initSupabase browser w)) three_messages
           (VStr "1") (VStr "3")).
  - reflexivity.
  - reflexivity.
  - right. eexists. split; [reflexivity|]. split; reflexivity.
  - reflexivity.
  - reflexivity.
Defined.

Lemma slice_last_news (k : nat) (l news : list value) :
  slice_last (k + List.length news) (l ++ news) = (slice_last k l ++ news)%list.
Proof.
  unfold slice_last. rewrite length_app.
  replace (List.length l + List.length news - (k + List.length news))%nat
    with (List.length l - k)%nat by lia.
  rewrite skipn_app.
  replace (List.length l - k - List.length l)%nat with 0%nat by lia.
  reflexivity.
Qed.

Lemma slice_last_short (k : nat) (l : list value) :
  (List.length l <= k)%nat -> slice_last k l = l.
Proof.
  intros H. unfold slice_last.
  replace (List.length l - k)%nat with 0%nat by lia. reflexivity.
Qed.

Lemma In_slice_last (k : nat) (l : list value) (x : value) :
  In x (slice_last k l) -> In x l.
Proof.
  unfold slice_last. intros H.
  rewrite <- (firstn_skipn (List.length l - k) l).
  apply in_or_app. right. exact H.
Qed.

Lemma filter_none {A} (f : A -> bool) (l : list A) :
  (forall x, In x l -> f x = true) -> filter f l = l.
Proof.
  induction l as [|x l IH]; intros H; [reflexivity|]. cbn [filter].
  rewrite (H x (or_introl eq_refl)). rewrite IH; [reflexivity|].
  intros y Hy. apply H. right. exact Hy.
Qed.

Lemma stored_id (t : Z) (message : value) :
  get (to_json (message_at t message)) "id" = VStr (toString t).
Proof. reflexivity. Qed.

Lemma strict_neq_same_string (s : string) :
  strict_neq (VStr s) (VStr s) = false.
Proof. unfold strict_neq. cbn. rewrite String.eqb_refl. reflexivity. Qed.

(** The log once the messages made at time [t] are deleted again. *)
Lemma filter_appended (t : Z) (k : nat) (msgs news : list value) :
  (forall m, In m msgs -> strict_eq (get m "id") (VStr (toString t)) = false) ->
  (forall m, In m news -> get m "id" = VStr (toString t)) ->
  filter (fun m => strict_neq (get m "id") (VStr (toString t)))
    (slice_last (k + List.length news) (msgs ++ news)) =
  slice_last k msgs.
Proof.
  intros Hold Hnew. rewrite slice_last_news, filter_app.
  rewrite filter_none.
  2:{ intros m Hm. unfold strict_neq.
      rewrite (Hold m (In_slice_last _ _ _ Hm)). reflexivity. }
  replace (filter _ news) with (@nil value); [apply app_nil_r|].
  symmetry. clear Hold. induction news as [|x news IH]; [reflexivity|].
  cbn [filter]. rewrite (Hnew x (or_introl eq_refl)), strict_neq_same_string.
  apply IH. intros m Hm. apply Hnew. right. exact Hm.
Qed.

(** X16: adding a message and deleting it again by the id that was
    returned restores the log only when it held fewer than fifty messages:
    in general it leaves the last forty-nine of the messages there were,
    provided none of them carried the id of the new one. *)
Theorem append_then_delete (c : client) (w w0 : world browser)
    (msgs : list value) (message : value) :
  initSupabase browser w = (Ok c, w0) ->
  serving w ->
  log_is w msgs ->
  forallb json msgs = true ->
  forallb (fun m => negb (nullish m)) msgs = true ->
  nullish message = false ->
  (forall m, In m msgs ->
             strict_eq (get m "id") (VStr (toString (now w))) = false) ->
  exists msg w1 w2,
    addAdminMessage browser message w = (Ok msg, w1) /\
    deleteAdminMessage browser (get msg "id") w1 = (Ok true, w2) /\
    stored_log w2 (slice_last 49 msgs) /\
    ((List.length msgs <= 49)%nat -> stored_log w2 msgs).
Proof.
  intros Hinit Hserving Hlog Hjson Hobjects Hmessage Hfresh.
  destruct (store_append c w w0 msgs message Hinit Hserving Hlog Hjson
              Hmessage) as (w1 & Hadd & Hr1 & Hs1 & Hl1).
  set (new := to_json (message_at (now w) message)) in *.
  assert (Hjson1 : forallb json (slice_last 50 (msgs ++ [new])) = true).
  { apply forallb_skipn. rewrite forallb_app, Hjson. cbn [forallb andb].
    unfold new. rewrite json_to_json by discriminate. reflexivity. }
  assert (Hobjects1 :
            forallb (fun m => negb (nullish m))
              (slice_last 50 (msgs ++ [new])) = true).
  { apply forallb_skipn. rewrite forallb_app, Hobjects. reflexivity. }
  destruct (store_delete c w1 w1 _ (VStr (toString (now w)))
              (ready_init browser _ _ Hr1) Hs1 (or_intror Hl1) Hjson1
              Hobjects1) as (w2 & Hdelete & _ & _ & Hl2).
  change 50%nat with (49 + List.length [new])%nat in Hl2.
  rewrite (filter_appended (now w) 49 msgs [new] Hfresh) in Hl2.
  2:{ intros m [<-|[]]. apply stored_id. }
  exists (message_at (now w) message), w1, w2.
  split; [exact Hadd|]. split; [exact Hdelete|]. split; [exact Hl2|].
  intros Hshort. rewrite (slice_last_short _ _ Hshort) in Hl2. exact Hl2.
Qed.

Lemma append_then_delete_witness :
  let w := page [row_with [] three_messages] [] 0 in
  exists msg w1 w2,
    addAdminMessage browser (VObj [("text", VStr "hello")]) w = (Ok msg, w1) /\
    deleteAdminMessage browser (get msg "id") w1 = (Ok true, w2) /\
    stored_log w2 (slice_last 49 three_messages) /\
    ((List.length three_messages <= 49)%nat -> stored_log w2 three_messages).
Proof.
  intros w.
  apply (append_then_delete
           {| client_url := "https://x.supabase.co"; client_key := "anon" |}
           w (snd (initSupabase browser w)) three_messages
           (VObj [("text", VStr "hello")])).
  - reflexivity.
  - reflexivity.
  - right. eexists. split; [reflexivity|]. split; reflexivity.
  - reflexivity.
  - reflexivity.
  - reflexivity.
  - intros m Hm. cbn [In three_messages] in Hm.
    destruct Hm as [<-|[<-|[<-|[]]]]; vm_compute; reflexivity.
Defined.

(** X17: the id of a message is the clock's reading and nothing else.  Two
    messages appended at the same reading get the same id, whatever they
    say, and one [deleteAdminMessage] of that id removes both. *)
Theorem same_millisecond_same_id (c : client) (w : world browser)
    (msgs : list value) (t : Z) (m1 m2 : value) :
  configured c w ->
  serving w ->
  log_is w msgs ->
  forallb json msgs = true ->
  forallb (fun m => negb (nullish m)) msgs = true ->
  nullish m1 = false ->
  nullish m2 = false ->
  (forall m, In m msgs -> strict_eq (get m "id") (VStr (toString t)) = false) ->
  exists a1 a2 w1 w2,
    append_all browser [(t, m1); (t, m2)] w = (Ok [a1; a2], w1) /\
    get a1 "id" = get a2 "id" /\
    deleteAdminMessage browser (get a1 "id") w1 = (Ok true, w2) /\
    stored_log w2 (slice_last 48 msgs).
Proof.
  intros Hconf Hserving Hlog Hjson Hobjects H1 H2 Hfresh.
  destruct (store_append_all c [(t, m1); (t, m2)] w msgs Hconf Hserving Hlog
              Hjson) as (w1 & Happend & [w1' Hinit1] & Hs1 & Hl1).
  { cbn [forallb snd]. rewrite H1, H2. reflexivity. }
  rewrite fold_slice_last in Hl1 by discriminate.
  set (news := map to_json (messages_at [(t, m1); (t, m2)])) in *.
  assert (Hjson1 : forallb json (slice_last 50 (msgs ++ news)) = true).
  { apply forallb_skipn. rewrite forallb_app, Hjson. cbn [forallb andb news
      map messages_at fst snd].
    rewrite !json_to_json by discriminate. reflexivity. }
  assert (Hobjects1 :
            forallb (fun m => negb (nullish m))
              (slice_last 50 (msgs ++ news)) = true).
  { apply forallb_skipn. rewrite forallb_app, Hobjects. reflexivity. }
  destruct (store_delete c w1 w1' _ (VStr (toString t)) Hinit1 Hs1 Hl1 Hjson1
              Hobjects1) as (w2 & Hdelete & _ & _ & Hl2).
  change 50%nat with (48 + List.length news)%nat in Hl2.
  rewrite (filter_appended t 48 msgs news Hfresh) in Hl2.
  2:{ intros m [<-|[<-|[]]]; apply stored_id. }
  exists (message_at t m1), (message_at t m2), w1, w2.
  split; [exact Happend|]. split; [reflexivity|].
  split; [exact Hdelete|exact Hl2].
Qed.

Lemma same_millisecond_same_id_witness :
  let w := page [row_with [] three_messages] [] 0 in
  exists a1 a2 w1 w2,
    append_all browser
      [(1700000000001, VObj [("text", VStr "first")]);
       (1700000000001, VObj [("text", VStr "second"); ("type", VStr "warn")])]
      w = (Ok [a1; a2], w1) /\
    get a1 "id" = get a2 "id" /\
    deleteAdminMessage browser (get a1 "id") w1 = (Ok true, w2) /\
    stored_log w2 (slice_last 48 three_messages).
Proof.
  intros w.
  apply (same_millisecond_same_id
           {| client_url := "https://x.supabase.co"; client_key := "anon" |}
           w three_messages).
  - eexists. reflexivity.
  - reflexivity.
  - right. eexists. split; [reflexivity|]. split; reflexivity.
  - reflexivity.
  - reflexivity.
  - reflexivity.
  - reflexivity.
  - intros m Hm. cbn [In three_messages] in Hm.
    destruct Hm as [<-|[<-|[<-|[]]]]; vm_compute; reflexivity.
Defined.

Lemma strict_neq_false (a : value) :
  strict_neq a (VBool false) = false <-> a = VBool false.
Proof.
  unfold strict_neq. split.
  - destruct a as [| |[]| | | |]; cbn; intros H; try discriminate H;
      reflexivity.
  - intros ->. reflexivity.
Qed.

(** X18: the message that [addAdminMessage] returns has exactly the five
    fields [id], [text], [type], [timestamp] and [active], whatever else the
    argument carried.  Its [type] is never falsy: the argument's when that
    is truthy, ["info"] otherwise.  Its [active] is a boolean, [false] only
    when the argument's [active] is exactly [false]. *)
Theorem returned_message_shape (E : Env) (message msg : value)
    (w w' : world E) :
  addAdminMessage E message w = (Ok msg, w') ->
  exists id type timestamp active,
    msg = VObj [("id", VStr id); ("text", get message "text");
                ("type", type); ("timestamp", VStr timestamp);
                ("active", VBool active)] /\
    truthy type = true /\
    (truthy (get message "type") = true -> type = get message "type") /\
    (truthy (get message "type") = false -> type = VStr "info") /\
    (active = false <-> get message "active" = VBool false).
Proof.
  intros Hadd.
  destruct (add_cases E message w)
    as [(e & r & w1 & _ & H)|(data & fields & msg' & w1 & _ & Hnew & H)];
    rewrite H in Hadd; [discriminate|].
  assert (msg' = msg) as ->.
  { destruct (saveDataToSupabase E (VObj fields) w1) as [[b|e] w2];
      inversion Hadd; reflexivity. }
  clear H Hadd. revert Hnew.
  unfold newMessage, bind, Date_now, lift, ret, get.
  destruct (prop message "text") as [text|e]; [|discriminate].
  destruct (prop message "type") as [type|e]; [|discriminate].
  destruct (prop message "active") as [active|e]; [|discriminate].
  intros H; inversion H; subst; clear H.
  do 4 eexists. split; [reflexivity|].
  split; [|split; [|split]].
  - unfold js_or. destruct (truthy type) eqn:Ht; [exact Ht|reflexivity].
  - apply js_or_truthy.
  - apply js_or_falsy.
  - apply strict_neq_false.
Qed.

Lemma returned_message_shape_witness :
  exists id type timestamp active,
    fst (addAdminMessage browser
           (VObj [("text", VStr "hello"); ("type", VStr "");
                  ("active", VNum 0); ("author", VStr "me")])
           (page [] [] 0)) =
      Ok (VObj [("id", VStr id);
                ("text",
                  get (VObj [("text", VStr "hello"); ("type", VStr "");
                             ("active", VNum 0); ("author", VStr "me")])
                    "text");
                ("type", type); ("timestamp", VStr timestamp);
                ("active", VBool active)]) /\
    type = VStr "info" /\ active = true.
Proof.
  destruct (returned_message_shape browser
              (VObj [("text", VStr "hello"); ("type", VStr "");
                     ("active", VNum 0); ("author", VStr "me")])
              (VObj [("id", VStr "1700000000000"); ("text", VStr "hello");
                     ("type", VStr "info");
                     ("timestamp", VStr "ISO:1700000000000");
                     ("active", VBool true)])
              (page [] [] 0)
              (snd (addAdminMessage browser
                      (VObj [("text", VStr "hello"); ("type", VStr "");
                             ("active", VNum 0); ("author", VStr "me")])
                      (page [] [] 0))))
    as (id & type & timestamp & active & Hmsg & _ & _ & Htype & Hactive).
  - vm_compute. reflexivity.
  - exists id, type, timestamp, active.
    split; [|split].
    + rewrite <- Hmsg. vm_compute. reflexivity.
    + apply Htype. reflexivity.
    + destruct active; [reflexivity|].
      destruct Hactive as [Hactive _].
      discriminate (Hactive eq_refl).
Defined.

(** ** Saving and loading on the store *)

Lemma to_json_wire (fields : list (string * value)) :
  to_json (VObj (wire_fields fields)) = VObj (stored_fields fields).
Proof.
  rewrite to_json_obj. unfold wire_fields.
  rewrite !json_props_defined by (try apply js_or_defined; discriminate).
  rewrite to_json_obj.
  rewrite !json_props_defined by (try apply js_or_defined; discriminate).
  reflexivity.
Qed.

(** The row a save leaves, created or patched, reads as the row it wrote. *)
Lemma saved_row_reads (fields : list (string * value)) (row : value) :
  row = to_json (VObj (wire_fields fields)) \/
  (exists cols,
     row = patch_row (to_json (VObj (wire_fields fields))) (VObj cols)) ->
  exists cols',
    row = VObj cols' /\
    lookup "id" cols' = VNum 1 /\
    forall k, In k read_keys ->
              lookup k cols' = lookup k (stored_fields fields).
Proof.
  rewrite to_json_wire. intros [->|[cols ->]].
  - exists (stored_fields fields). auto.
  - eexists. split; [reflexivity|].
    cbn [stored_fields fold_left fst snd].
    split; [rewrite !lookup_assign; reflexivity|].
    intros k Hk. cbn [In read_keys] in Hk.
    destruct Hk as [<-|[<-|[<-|[<-|[<-|[<-|[]]]]]]];
      rewrite !lookup_assign; reflexivity.
Qed.

Lemma truthy_to_json (v : value) : truthy (to_json v) = truthy v.
Proof. destruct v; reflexivity. Qed.

Lemma js_or_to_json (x dflt : value) :
  to_json dflt = dflt ->
  js_or (to_json (js_or x dflt)) dflt = to_json (js_or x dflt).
Proof.
  intros Hd. unfold js_or at 2 3.
  destruct (truthy x) eqn:Hx.
  - apply js_or_truthy. rewrite truthy_to_json. exact Hx.
  - rewrite Hd. unfold js_or. destruct (truthy dflt); reflexivity.
Qed.

Lemma to_json_document (l s c k v d m en : value) :
  l <> VUndefined -> s <> VUndefined -> c <> VUndefined ->
  k <> VUndefined -> v <> VUndefined -> d <> VUndefined ->
  m <> VUndefined -> en <> VUndefined ->
  to_json (document l s c k v d m en) =
  document (to_json l) (to_json s) (to_json c) (to_json k) (to_json v)
    (to_json d) (to_json m) (to_json en).
Proof.
  intros. unfold document. rewrite to_json_obj.
  rewrite !json_props_defined by (assumption || discriminate).
  rewrite to_json_obj.
  rewrite !json_props_defined by assumption.
  reflexivity.
Qed.

Lemma Ok_injective {A} (a b : A) : Ok a = Ok b -> a = b.
Proof. intros H. inversion H. reflexivity. Qed.

(** What the two mappers make of a document that is an object. *)
Lemma toInternal_toWire (fields : list (string * value)) :
  (let? r := toWire (VObj fields) in toInternal r) =
  Ok (document
        (js_or (lookup "links" fields) (VArr []))
        (js_or (lookup "socialLinks" fields)
           (VObj [("discord", VStr ""); ("x", VStr "")]))
        (js_or (lookup "adminCredentials" fields) VNull)
        (js_or (get (lookup "statistics" fields) "clicks") (VArr []))
        (js_or (get (lookup "statistics" fields) "visits") (VArr []))
        (js_or (get (lookup "statistics" fields) "dailyVisits") (VObj []))
        (js_or (lookup "adminMessages" fields) (VArr []))
        (VBool (strict_neq (lookup "setupPageEnabled" fields) (VBool false)))).
Proof.
  rewrite toWire_obj. cbn [rbind]. rewrite toInternal_obj.
  unfold wire_fields.
  cbn [lookup String.eqb Ascii.eqb Bool.eqb get prop].
  rewrite !js_or_idem, strict_neq_false_idem. reflexivity.
Qed.

(** The document read from the row that a save wrote. *)
Lemma toInternal_stored (fields : list (string * value)) (d : value) :
  (let? r := toWire (VObj fields) in toInternal r) = Ok d ->
  toInternal (VObj (stored_fields fields)) = Ok (to_json d).
Proof.
  rewrite toInternal_toWire. intros H. apply Ok_injective in H. subst d.
  rewrite to_json_document
    by (try apply js_or_defined; discriminate).
  rewrite toInternal_obj. unfold stored_fields.
  cbn [lookup String.eqb Ascii.eqb Bool.eqb get prop].
  rewrite !js_or_to_json by reflexivity.
  cbn [to_json]. rewrite strict_neq_false_idem. reflexivity.
Qed.

(** A document that a load returned is a fixed point of the mappers. *)
Lemma loaded_document_fixed (cols fields : list (string * value)) :
  toInternal (VObj cols) = Ok (VObj fields) ->
  (let? r := toWire (VObj fields) in toInternal r) = Ok (VObj fields).
Proof.
  rewrite toInternal_obj. unfold document.
  intros H; inversion H; subst fields; clear H.
  rewrite toInternal_toWire. unfold document.
  cbn [lookup String.eqb Ascii.eqb Bool.eqb get prop].
  rewrite !js_or_idem, strict_neq_false_idem. reflexivity.
Qed.

Lemma store_save_row c (w w0 : world browser) fields :
  initSupabase browser w = (Ok c, w0) -> serving w ->
  table w = [] \/ one_document w ->
  exists cols' w1,
    saveDataToSupabase browser (VObj fields) w = (Ok true, w1) /\
    ready c w1 /\ serving w1 /\ table w1 = [VObj cols'] /\
    lookup "id" cols' = VNum 1 /\
    forall k, In k read_keys ->
              lookup k cols' = lookup k (stored_fields fields).
Proof.
  intros Hinit Hserving [Hempty|(cols & Htable & Hid)].
  - destruct (store_save_create c w w0 fields Hinit Hserving Hempty)
      as (w1 & Hsave & Hr & Hs & Ht & _).
    destruct (saved_row_reads fields _ (or_introl eq_refl))
      as (cols' & Hrow & Hid' & Hreads).
    exists cols', w1. rewrite <- Hrow. auto 10.
  - destruct (store_save_update c w w0 fields cols Hinit Hserving Htable Hid)
      as (w1 & Hsave & Hr & Hs & Ht & _).
    destruct (saved_row_reads fields _
                (or_intror (ex_intro _ cols eq_refl)))
      as (cols' & Hrow & Hid' & Hreads).
    exists cols', w1. rewrite <- Hrow. auto 10.
Qed.

(** X19: what is loaded after a save is what the two mappers make of the
    saved document, as JSON, whether the save created the row or patched
    it; the load leaves the row as the save wrote it.  For a document of
    JSON data that a load returned, this is the document itself. *)
Theorem save_then_load (c : client) (w w0 : world browser)
    (fields : list (string * value)) :
  initSupabase browser w = (Ok c, w0) ->
  serving w ->
  table w = [] \/ one_document w ->
  exists d w1 w2,
    (let? r := toWire (VObj fields) in toInternal r) = Ok d /\
    saveDataToSupabase browser (VObj fields) w = (Ok true, w1) /\
    loadDataFromSupabase browser w1 = (Ok (to_json d), w2) /\
    one_document w1 /\ table w2 = table w1 /\
    (forall cols,
       toInternal (VObj cols) = Ok (VObj fields) ->
       json (VObj fields) = true ->
       to_json d = VObj fields).
Proof.
  intros Hinit Hserving Htable.
  destruct (store_save_row c w w0 fields Hinit Hserving Htable)
    as (cols' & w1 & Hsave & Hr1 & Hs1 & Ht1 & Hid & Hreads).
  destruct (store_load_existing c w1 w1 cols' [] (ready_init browser _ _ Hr1)
              Hs1 Ht1) as (doc & w2 & Hdoc & Hload & _ & _ & Ht2 & _).
  pose proof (toInternal_toWire fields) as Hd.
  rewrite (toInternal_reads _ _ Hreads),
    (toInternal_stored fields _ Hd) in Hdoc.
  apply Ok_injective in Hdoc. subst doc.
  eexists. exists w1, w2.
  split; [exact Hd|]. split; [exact Hsave|]. split; [exact Hload|].
  split; [exists cols'; auto|]. split; [exact Ht2|].
  intros cols Hloaded Hjson.
  pose proof (loaded_document_fixed cols fields Hloaded) as Hfixed.
  rewrite Hd in Hfixed. apply Ok_injective in Hfixed. rewrite Hfixed.
  apply to_json_json. exact Hjson.
Qed.

Lemma save_then_load_witness :
  let fields :=
    [("links", VArr [VObj [("title", VStr "site")]]);
     ("socialLinks", VObj [("discord", VStr "d"); ("x", VStr "")]);
     ("adminCredentials", VNull);
     ("statistics",
       VObj [("clicks", VArr []); ("visits", VArr [VStr "v1"]);
             ("dailyVisits", VObj [])]);
     ("adminMessages", VArr []);
     ("setupPageEnabled", VBool false)] in
  let w := page [row_with five_visits three_messages] [] 0 in
  exists d w1 w2,
    (let? r := toWire (VObj fields) in toInternal r) = Ok d /\
    saveDataToSupabase browser (VObj fields) w = (Ok true, w1) /\
    loadDataFromSupabase browser w1 = (Ok (to_json d), w2) /\
    one_document w1 /\ table w2 = table w1 /\
    (forall cols,
       toInternal (VObj cols) = Ok (VObj fields) ->
       json (VObj fields) = true ->
       to_json d = VObj fields).
Proof.
  intros fields w.
  apply (save_then_load
           {| client_url := "https://x.supabase.co"; client_key := "anon" |}
           w (snd (initSupabase browser w)) fields).
  - reflexivity.
  - reflexivity.
  - right. eexists. split; reflexivity.
Defined.

(** The document of the witness is one that a load returns, and comes back
    from the store as it was saved. *)
Example save_then_load_run :
  let fields :=
    [("links", VArr [VObj [("title", VStr "site")]]);
     ("socialLinks", VObj [("discord", VStr "d"); ("x", VStr "")]);
     ("adminCredentials", VNull);
     ("statistics",
       VObj [("clicks", VArr []); ("visits", VArr [VStr "v1"]);
             ("dailyVisits", VObj [])]);
     ("adminMessages", VArr []);
     ("setupPageEnabled", VBool false)] in
  let w := page [row_with five_visits three_messages] [] 0 in
  fst (loadDataFromSupabase browser
         (snd (saveDataToSupabase browser (VObj fields) w))) =
  Ok (VObj fields).
Proof. vm_compute. reflexivity. Qed.

(** ** The one document *)

Lemma log_ready c msg e (w : world browser) :
  ready c w -> ready c (log browser msg e w).
Proof. intros H. exact H. Qed.

(** A load on a serving store leaves the client ready and the table with
    the one document. *)
Lemma load_keeps_one c (w w0 : world browser) :
  initSupabase browser w = (Ok c, w0) -> serving w ->
  table w = [] \/ one_document w ->
  exists data w1,
    loadDataFromSupabase browser w = (Ok data, w1) /\
    ready c w1 /\ serving w1 /\ one_document w1.
Proof.
  intros Hinit Hserving [Hempty|(cols & Htable & Hid)].
  - destruct (store_load_empty c w w0 Hinit Hserving Hempty)
      as (w1 & Hload & Hr & Hs & Ht & _).
    exists defaultDocument, w1. split; [exact Hload|].
    split; [exact Hr|]. split; [exact Hs|].
    eexists. split; [exact Ht|reflexivity].
  - destruct (store_load_existing c w w0 cols [] Hinit Hserving Htable)
      as (doc & w1 & _ & Hload & Hr & Hs & Ht & _).
    exists doc, w1. split; [exact Hload|].
    split; [exact Hr|]. split; [exact Hs|].
    exists cols. rewrite Ht. auto.
Qed.

Lemma save_keeps_one c (w w0 : world browser) fields :
  initSupabase browser w = (Ok c, w0) -> serving w ->
  table w = [] \/ one_document w ->
  exists w1,
    saveDataToSupabase browser (VObj fields) w = (Ok true, w1) /\
    ready c w1 /\ serving w1 /\ one_document w1.
Proof.
  intros Hinit Hserving Htable.
  destruct (store_save_row c w w0 fields Hinit Hserving Htable)
    as (cols' & w1 & Hsave & Hr & Hs & Ht & Hid & _).
  exists w1. split; [exact Hsave|]. split; [exact Hr|]. split; [exact Hs|].
  exists cols'. auto.
Qed.

Lemma perform_keeps_one c (op : operation) (w w0 : world browser) :
  initSupabase browser w = (Ok c, w0) -> serving w ->
  table w = [] \/ one_document w ->
  ready c (perform op w) /\ serving (perform op w) /\
  one_document (perform op w).
Proof.
  intros Hinit Hserving Htable.
  destruct (load_keeps_one c w w0 Hinit Hserving Htable)
    as (data & w1 & Hload & Hr1 & Hs1 & Ho1).
  destruct op as [|fields|message|messageId]; cbn [perform].
  - rewrite Hload. auto.
  - destruct (save_keeps_one c w w0 fields Hinit Hserving Htable)
      as (w2 & -> & H). exact H.
  - destruct (add_cases browser message w)
      as [(e & r & w1' & Hload' & ->)
         |(data' & fields & msg & w1' & Hload' & _ & ->)];
      rewrite Hload in Hload'; inversion Hload'; subst; [auto|].
    destruct (save_keeps_one c w1' w1' fields (ready_init browser _ _ Hr1)
                Hs1 (or_intror Ho1)) as (w2 & -> & H). exact H.
  - destruct (delete_cases browser messageId w)
      as [(e & r & w1' & Hload' & ->)
         |(data' & fields & w1' & Hload' & ->)];
      rewrite Hload in Hload'; inversion Hload'; subst; [auto|].
    destruct (save_keeps_one c w1' w1' fields (ready_init browser _ _ Hr1)
                Hs1 (or_intror Ho1)) as (w2 & -> & H). exact H.
Qed.

(** X20: on a store that serves, the table never gets a second row.
    After any sequence of loads, saves of documents that are objects,
    [addAdminMessage] and [deleteAdminMessage], each awaited before the
    next and whether it returned or threw, the table holds exactly one row,
    under [id] 1, be it that the table was empty at first or held that one
    row. *)
Theorem table_keeps_one_document (c : client) (op : operation)
    (ops : list operation) (w : world browser) :
  configured c w ->
  serving w ->
  table w = [] \/ one_document w ->
  one_document (perform_all (op :: ops) w).
Proof.
  intros [w0 Hinit] Hserving Htable. cbn [perform_all fold_left].
  destruct (perform_keeps_one c op w w0 Hinit Hserving Htable)
    as (Hr & Hs & Ho).
  clear Hinit Hserving Htable. revert Hr Hs Ho.
  generalize (perform op w). clear w w0.
  induction ops as [|op' ops IH]; intros w Hr Hs Ho; [exact Ho|].
  cbn [fold_left].
  destruct (perform_keeps_one c op' w w (ready_init browser _ _ Hr) Hs
              (or_intror Ho)) as (Hr' & Hs' & Ho').
  apply IH; assumption.
Qed.

Lemma table_keeps_one_document_witness :
  one_document
    (perform_all
       [AddMessage (VObj [("text", VStr "hello")]);
        Load;
        DeleteMessage (VStr "none");
        AddMessage VNull;
        Save [("links", VStr "oops"); ("id", VNum 2)];
        Load]
       (page [] [] 0)).
Proof.
  apply (table_keeps_one_document
           {| client_url := "https://x.supabase.co"; client_key := "anon" |}).
  - eexists. reflexivity.
  - reflexivity.
  - left. reflexivity.
Defined.

(** ** The pollers and the callback *)

Lemma forEach_throws (E : Env) (f : value -> M E unit)
    (pre post : list value) (x : value) (e : error) (w : world E) :
  returns_on f pre ->
  (forall w', exists w'', f x w' = (Throw e, w'')) ->
  exists w3,
    forEach E (Some f) (pre ++ x :: post) w =
      (Throw e, (pre ++ [x])%list, w3).
Proof.
  intros Hpre Hx. revert w.
  induction pre as [|v pre IH]; intros w.
  - destruct (Hx w) as [w3 H3]. exists w3. cbn. rewrite H3. reflexivity.
  - destruct (Hpre v w (or_introl eq_refl)) as [w1 H1].
    destruct IH with (w := w1) as [w3 H3].
    { intros y wy Hy. apply Hpre. right. exact Hy. }
    exists w3. cbn [app forEach]. rewrite H1, H3. reflexivity.
Qed.

Lemma messages_of_array (data : value) (msgs : list value) :
  get data "adminMessages" = VArr msgs ->
  messages_of data = Ok (VArr msgs, VNum (Z.of_nat (List.length msgs))).
Proof.
  unfold messages_of, get.
  destruct (prop data "adminMessages") as [m|e]; [|discriminate].
  intros ->. reflexivity.
Qed.



Lemma adminMessages_tick_array (E : Env) (f : value -> M E unit) (last : Z)
    (w w1 : world E) (data : value) (msgs : list value) :
  always_returns f ->
  loadDataFromSupabase E w = (Ok data, w1) ->
  get data "adminMessages" = VArr msgs ->
  fst (adminMessages_tick E (Some f) (VNum last) w) =
    if Z.of_nat (List.length msgs) =? last
    then (VNum last, [])
    else (VNum (Z.of_nat (List.length msgs)), [VArr msgs]).
Proof.
  intros Hf Hload Hmsgs.
  unfold adminMessages_tick, adminMessages_try.
  rewrite Hload, (messages_of_array _ _ Hmsgs).
  unfold strict_neq. cbn [strict_eq].
  destruct (Z.of_nat (List.length msgs) =? last); cbn [negb];
    [reflexivity|].
  destruct (Hf (VArr msgs) w1) as [w2 ->]. reflexivity.
Qed.



(** A log of fifty: the append is stored and the poller at fifty stays
    silent. *)
Example full_log_append_run :
  let w := page [row_with [] (firstn 50 many_messages)] [] 0 in
  let w1 := snd (addAdminMessage browser (VObj [("text", VStr "new")]) w) in
  List.length (stored_messages w1) = 50%nat /\
  get (last (stored_messages w1) VNull) "text" = VStr "new" /\
  fst (adminMessages_tick browser (Some note) (VNum 50) w1) = (VNum 50, []).
Proof. vm_compute. repeat split. Qed.

Lemma newVisits_tick_array (E : Env) (f : value -> M E unit) (n : nat)
    (w w1 : world E) (data : value) (visits : list value) :
  always_returns f ->
  loadDataFromSupabase E w = (Ok data, w1) ->
  get (get data "statistics") "visits" = VArr visits ->
  fst (newVisits_tick E (Some f) n w) =
    (Nat.max n (List.length visits), skipn n visits).
Proof.
  intros Hf Hload Hvisits.
  unfold newVisits_tick, newVisits_try.
  rewrite Hload, (visits_of_array _ _ Hvisits).
  destruct (Nat.ltb n (List.length visits)) eqn:Hlt.
  - apply Nat.ltb_lt in Hlt.
    destruct (forEach_returns E f (skipn n visits) w1) as [w2 ->].
    { intros v w' _. apply Hf. }
    rewrite Nat.max_r by lia. reflexivity.
  - apply Nat.ltb_ge in Hlt.
    rewrite Nat.max_l by lia. rewrite skipn_all2 by lia. reflexivity.
Qed.



(** ** Visits that are no array *)

(** [length] counts UTF-16 code units: one for a letter with an accent (two
    bytes), two for a character beyond the basic plane (four bytes). *)
Example js_length_counts_code_units :
  js_length "abc" = 3%nat /\ js_length "é" = 1%nat /\ js_length "😀" = 2%nat.
Proof. repeat split. Qed.

(** A text in the place of the visits: its [length] is compared with the
    count, and when it is greater the tick ends in the [TypeError] of the
    missing [forEach]; nothing is invoked and the count stays. *)
Example visits_that_are_a_text :
  let w := page [VObj [("id", VNum 1);
                       ("statistics", VObj [("visits", VStr "héllo")])]]
             [] 0 in
  fst (newVisits_tick browser (Some note) 5 w) = (5%nat, []) /\
  console (snd (newVisits_tick browser (Some note) 5 w)) = [] /\
  fst (newVisits_tick browser (Some note) 4 w) = (4%nat, []) /\
  console (snd (newVisits_tick browser (Some note) 4 w)) =
    [("Erreur lors de l'écoute des visites:", TypeError "forEach")].
Proof. vm_compute. repeat split. Qed.

(** An object in the place of the visits, with a [length] that is a text of
    digits: the runtime converts the text, and the tick ends in the
    [TypeError] of the missing [slice]. *)
Example visits_with_a_text_length :
  let w := page [VObj [("id", VNum 1);
                       ("statistics",
                         VObj [("visits", VObj [("length", VStr "10")])])]]
             [] 0 in
  fst (newVisits_tick browser (Some note) 3 w) = (3%nat, []) /\
  console (snd (newVisits_tick browser (Some note) 3 w)) =
    [("Erreur lors de l'écoute des visites:", TypeError "slice")] /\
  console (snd (newVisits_tick browser (Some note) 10 w)) = [].
Proof. vm_compute. repeat split. Qed.
